(* ===== verification/_CoqProject ===== *)
-Q . S2P
Prelude.v
Package.v
Tensor.v
Catalog.v
Kernels.v
Instances.v
Apply.v
Wellformed.v
Shapes.v
Serialize.v
Harness.v
Tests.v
SpectralTests.v
MaskingTests.v
Suite.v
