(* ===== verification/Prelude.v ===== *)
(** * A verification development of the torchaudio TorchScript consistency tests

    The repository's code under src/ is two files:
    - [src/torchaudio/__init__.py], the package initialisation: a list of
      imports of the submodules and of the backend functions, an optional
      version import inside [try]/[except ImportError], and [__all__];
    - [src/test/torchaudio_unittest/transforms/torchscript_consistency_impl.py],
      the class [Transforms]: two helpers, [_assert_consistency] and
      [_assert_consistency_complex], which move a transform and its input
      to the test device and dtype, save the TorchScript module to a
      temporary file, load it back, call both modules on the input and
      compare the outputs; and 23 test methods (with the two cases of
      [test_TimeStretch]), one per transform, each building its input
      and its transform and calling a helper.

    Everything these files call is outside src/: [torch] (tensors, the
    global random generator, [torch.jit]), [torchaudio.transforms] and
    [torchaudio_unittest.common_utils].  Those parts are modelled from
    the spec (spec.md), which describes them as a catalog of pure
    transforms over numeric buffers with a versioned serialization.

    ** Files, in dependency order
    - [Prelude] (this file): the [error] type, the [result] monad
      (stdpp's [MRet]/[MBind]) with the [assert!] notation of
      [audio_scope], the state-and-exception monad [SE] with its [let!]
      notation, list lemmas on pairs and on scanning a list
      ([prefix_while]), the [audio] hint databases.
    - [Package]: [__init__.py] as a list of statements ([stmt]) executed
      by [exec_stmts] in [SE] over the namespace ([pkg_state]), against
      an environment of importable modules ([env]); [init_py] is the
      file, [init_package] is [import torchaudio].  A from-import binds
      its names one at a time ([import_name]), so under
      [try]/[except ImportError] ([try_except_import]) the names bound
      before the missing one stay bound, as in Python.  [init_spec] is
      the contract: the first missing required row raises, otherwise
      the package binds the import table, the importable prefix of the
      version names and [__all__].
    - [Tensor]: buffers ([tensor]: shape, dtype, device, flat storage)
      over a scalar type class [Scalar]; [view_as_real], [view_as_complex],
      [tensor_to] ([Tensor.to]) and [tensor_close] ([assertEqual]).
    - [Catalog]: the 21 transform kinds ([transform_kind]) with their
      configurations, the constructors with their defaults ([*_init]) and
      [module_to] ([Module.to]).
    - [Kernels]: the interfaces the transforms are written against: the
      DSP kernels ([Dsp], with size laws [DspLaws]), the global generator
      ([Rng], [rng_rands]) and the test fixtures ([Fixtures]).
    - [Instances]: one executable instance of each interface (fixed-point
      scalars of [Tensor], kernels returning blocks of the lawful size, a
      generator replaying a list of draws, fixtures of zeros); only the
      witnesses use them.
    - [Apply]: [forward] of every kind: input checks, batching, shapes,
      pseudo-complex inputs, and the draws of the randomised transforms
      (the masking band [band_of] of [mask_along_axis]).
    - [Wellformed]: every stage and every [forward] keeps the buffer
      invariant [wf_tensor]; the tactic [inv_ok] takes a stage's
      [Ok] result apart down to the [make] that built it.
    - [Shapes]: the shape laws of the spectral stages on real buffers
      ([real_shaped]): [Spectrogram], [MelScale], [MelSpectrogram],
      the cepstra, [SpectralCentroid], [GriffinLim] without random
      phases, [ComplexNorm] and [InverseSpectrogram] on pseudo-complex
      inputs, [Vad], and [TimeStretch] on a complex input.
    - [Serialize]: the archive [torch.jit.script(m).save] writes
      ([export]) and [torch.jit.load] parses ([import]), built from a
      [Codec] class with its decode-after-encode law.
    - [Harness]: the two helpers over a world ([world]: the temporary
      directory's files and the generator state) in a state-and-exception
      monad [M] ([SE] over the world); [jit_save], [jit_load], [call],
      [assert_equal].
    - [Tests]: [torch_rand] and the test methods on waveforms and
      [TimeStretch], with their theorems.
    - [SpectralTests]: the ten test methods on the spectral transforms
      and their pass theorems.
    - [MaskingTests]: the two masking tests, their seed dependence, and
      the bounds of the band arithmetic of [mask_along_axis] on the
      fixed-point scalars ([band_of_width]).
    - [Suite]: the class as the ordered list of its methods
      ([transforms_suite], with the two [parameterized] cases of
      [test_TimeStretch]), and [files_indep], closed under the monad's
      bind by the [indep] hint database.

    ** What is proved
    - The harness (C1-C3, C16-C20): on a module that does not draw from
      the generator, each helper passes exactly when the forward of the
      moved module succeeds on the moved input, so the saved module never
      disagrees with the eager one; loading the path just saved returns
      the module whatever the path held (C3); a missing file, another
      format version, an unknown kind or trailing words are the errors
      of the load; a real input to the complex helper is an
      [AssertionError] before anything happens.
    - The tests (C4-C15): [test_Spectrogram], [test_AmplitudeToDB],
      [test_MuLawDecoding], [test_SlidingWindowCmn], and, on the
      fixture [get_whitenoise] ([Kernels.FixtureLaws]),
      [test_MuLawEncoding], [test_Vol], [test_PitchShift], [test_Fade]
      and [test_Resample] pass on every floating test class from every
      generator state and for any kernels satisfying their size laws;
      the two cases of
      [test_TimeStretch] reach the same verdict; [test_TimeMasking] and
      [test_FrequencyMasking] pass from some generator states and fail
      from others, because their two calls draw two bands
      ([MaskingTests]).
    - The package (C21-C24): [init_package] refines the contract
      [init_spec] in every environment (C21); after a successful
      [import torchaudio] every name of [__all__] is bound (C22);
      without the backend module the import raises [ImportError] (C23);
      a version module with [__version__] but not [git_version] still
      lets the import succeed, with [__version__] bound (C24).
    - The type invariant (C25): a call on a well-formed input either
      raises and leaves the world as it was, or returns a well-formed
      output and leaves the saved archives as they were.
    - The spectral tests (C26-C33): [test_MelScale], [test_ComplexNorm],
      [test_Spectrogram_return_complex], [test_MelSpectrogram],
      [test_MFCC], [test_LFCC], [test_SpectralCentroid] and
      [test_GriffinLim] pass on every floating test class from every
      generator state, for any kernels satisfying their size laws and
      scalars in which the constants the constructors check
      ([f_max >= f_min], [top_db >= 0], [0 <= momentum < 1]) pass.
    - The fixture tests (C34-C36): the two [InverseSpectrogram] tests
      on the [get_spectrogram] fixture and [test_Vad] on the VAD asset
      pass, given the fixtures' shape laws ([Kernels.FixtureLaws]).
    - Test isolation (C37): pass or fail, the harness changes nothing
      in the world but the archive at its temporary path when the module
      does not draw.
    - [test_TimeStretch] (C38) passes with and without
      [test_pseudo_complex], for kernels whose phase vocoder returns
      [n_freq] bins per stretched frame.
    - The masking bounds (C39): from every generator whose draws lie in
      [[0, 1)], the truncated mask width stays below [mask_param], so
      the assertion of [mask_along_axis] never fires; both calls of
      each masking test return and its verdict is [assertEqual] of
      their outputs.
    - Order independence (C40): no test method depends on the files the
      temporary directory holds when it starts, since each saves its
      archive before loading one; the methods interact through the
      generator only.
    Library lemmas beneath them: the pseudo-complex round trips and the
    well-formedness of the tensor operations ([Tensor]), the shape laws
    and the pseudo-complex equivalences of the forwards ([Apply],
    [Shapes]), the invariant of every stage ([Wellformed]), the archive
    round trip [import_export] ([Serialize]).

    ** Bounds and fuel
    No definition uses fuel: every recursion is structural, and the code
    has no loop of its own, so no termination or liveness property is
    stated.  Scalars are abstract, so the theorems hold for [float32]
    and [float64] alike; the fixed-point instance keeps three decimals,
    enough for the masking draws of the seed-dependence theorems, which
    are evaluated with [vm_compute] on inputs of the tests' full size
    (20000 draws).  On it a draw of [torch.rand] is an integer in
    [[0, 1000)], and [band_of_width] bounds the truncating division of
    the mask width for every such draw.

    ** Not modelled
    The numeric bodies of the DSP algorithms (out of the spec's scope:
    the theorems hold for any kernels), TorchScript compilation (the
    spec reduces it to parameter replay), the [skipIfRocm] decorator and
    the test runner itself (the [parameterized] expansion is the list
    [transforms_suite]), the submodules
    [__init__.py] imports (their presence is the environment), and the
    numeric content of the fixtures (only their shapes are laws).
    Every test method has a theorem: a pass theorem, or the seed
    dependence of the maskings.  Everything under src/ is modelled; the
    parts marked partly modelled are the libraries the code calls
    ([torch], [torchaudio.transforms], the fixtures), modelled from the
    spec as interfaces with the laws the tests rely on, not as code. *)

From stdpp Require Import base list gmap strings.

Declare Scope audio_scope.
Delimit Scope audio_scope with audio.
Open Scope audio_scope.

(** ** Errors

    The error taxonomy of the spec (section 7) together with the Python
    exceptions the harness can observe: [AssertionError] from a failed
    [assert], [TypeError] from an illegal [Module.to], [FileNotFound] from
    [torch.jit.load] on a missing path and [ImportError] from a failed
    import in [torchaudio/__init__.py]. *)

Inductive error :=
| InvalidConfig (what : string)
| InvalidInput (what : string)
| ShapeMismatch
| UnknownKind (tag : Z)
| ConfigDecodeError
| VersionMismatch (found : Z)
| FileNotFound (path : string)
| AssertionError
| TypeError (what : string)
| DeviceMismatch
| ImportError (module : string).

#[export] Instance error_eq_dec : EqDecision error.
Proof. solve_decision. Defined.

(** ** The result monad

    Fallible code returns [result A]: [Ok a] or [Err e].  The stdpp
    classes [MRet], [MBind] and [FMap] give it the notations
    [x ← m; k], [m ;; k] and [f <$> m]. *)

Inductive result (A : Type) : Type :=
| Ok (a : A)
| Err (e : error).
Arguments Ok {A} a.
Arguments Err {A} e.

#[export] Instance result_ret : MRet result := fun _ a => Ok a.
#[export] Instance result_bind : MBind result :=
  fun _ _ f m => match m with Ok a => f a | Err e => Err e end.
#[export] Instance result_fmap : FMap result :=
  fun _ _ f m => match m with Ok a => Ok (f a) | Err e => Err e end.

(** [ensure b e] is the Python [if not b: raise e]. *)
Definition ensure (b : bool) (e : error) : result unit :=
  if b then Ok tt else Err e.

Notation "'assert!' b 'else' e ; k" := (ensure b e ;; k)
  (at level 10, b at level 100, e at level 100, k at level 200)
  : audio_scope.

Definition is_ok {A} (r : result A) : bool :=
  match r with Ok _ => true | Err _ => false end.

Definition of_option {A} (e : error) (o : option A) : result A :=
  match o with Some a => Ok a | None => Err e end.

Section ResultLemmas.
Context {A B : Type}.

Lemma bind_Ok (a : A) (f : A -> result B) : (Ok a ≫= f) = f a.
Proof. reflexivity. Qed.

Lemma bind_Err (e : error) (f : A -> result B) : (Err e ≫= f) = Err e.
Proof. reflexivity. Qed.

Lemma bind_Ok_inv (m : result A) (f : A -> result B) (b : B) :
  (m ≫= f) = Ok b -> exists a, m = Ok a /\ f a = Ok b.
Proof. destruct m; simpl; [eauto | discriminate]. Qed.

Lemma fmap_Ok (f : A -> B) (a : A) : f <$> Ok a = Ok (f a).
Proof. reflexivity. Qed.

Lemma ensure_true (e : error) (k : result A) : (ensure true e ;; k) = k.
Proof. reflexivity. Qed.

Lemma ensure_false (e : error) (k : result A) : (ensure false e ;; k) = Err e.
Proof. reflexivity. Qed.

Lemma ensure_Ok (b : bool) (e : error) : ensure b e = Ok tt <-> b = true.
Proof. destruct b; simpl; split; congruence. Qed.

Lemma of_option_Ok (e : error) (o : option A) (a : A) :
  of_option e o = Ok a <-> o = Some a.
Proof. destruct o; simpl; split; congruence. Qed.
End ResultLemmas.

(** ** The state-exception monad

    Python code that mutates state and may raise: a step maps a state to
    its result and the state after it.  As in Python, what a step did
    before it raised stays done: [m_bind] passes the state of a failed
    step on with its error. *)

Definition SE (S A : Type) : Type := S -> result A * S.

Section StateExc.
Context {S : Type}.

Definition m_ret {A} (a : A) : SE S A := fun s => (Ok a, s).

Definition m_bind {A B} (m : SE S A) (k : A -> SE S B) : SE S B :=
  fun s => match m s with
           | (Ok a, s') => k a s'
           | (Err e, s') => (Err e, s')
           end.

Definition m_lift {A} (r : result A) : SE S A := fun s => (r, s).

Lemma m_bind_lift {A B} (r : result A) (k : A -> SE S B) (s : S) :
  m_bind (m_lift r) k s = match r with Ok a => k a s | Err e => (Err e, s) end.
Proof. unfold m_bind, m_lift. by destruct r. Qed.

Lemma m_bind_Ok {A B} (m : SE S A) (k : A -> SE S B) (s s' : S) (a : A) :
  m s = (Ok a, s') -> m_bind m k s = k a s'.
Proof. unfold m_bind. by intros ->. Qed.

Lemma m_bind_Err {A B} (m : SE S A) (k : A -> SE S B) (s s' : S) (e : error) :
  m s = (Err e, s') -> m_bind m k s = (Err e, s').
Proof. unfold m_bind. by intros ->. Qed.
End StateExc.

Notation "'let!' x ':=' m 'in' k" := (m_bind m (fun x => k))
  (at level 10, x name, m at level 100, k at level 200) : audio_scope.

(** ** Pairs of a flat list

    The pseudo-complex layout stores a complex number as two consecutive
    reals; [unpair] and [pairup] convert between the two layouts. *)

Section Pairs.
Context {A : Type}.

Fixpoint unpair (zs : list (A * A)) : list A :=
  match zs with
  | [] => []
  | (a, b) :: zs' => a :: b :: unpair zs'
  end.

Fixpoint pairup (xs : list A) : option (list (A * A)) :=
  match xs with
  | [] => Some []
  | a :: b :: xs' => ((a, b) ::.) <$> pairup xs'
  | [_] => None
  end.

Lemma pairup_unpair (zs : list (A * A)) : pairup (unpair zs) = Some zs.
Proof. induction zs as [|[a b] zs IH]; simpl; [done | by rewrite IH]. Qed.

Lemma unpair_pairup (xs : list A) (zs : list (A * A)) :
  pairup xs = Some zs -> unpair zs = xs.
Proof.
  revert zs; induction xs as [xs IH] using (induction_ltof1 _ (@length A));
    intros zs H; unfold ltof in IH.
  destruct xs as [|a [|b xs']]; simpl in H; [by simplify_eq | done |].
  destruct (pairup xs') as [zs'|] eqn:E; simplify_eq/=.
  rewrite (IH xs'); simpl; auto with lia.
Qed.

Lemma length_unpair (zs : list (A * A)) : length (unpair zs) = 2 * length zs.
Proof. induction zs as [|[a b] zs IH]; simpl; lia. Qed.

Lemma pairup_length (xs : list A) (zs : list (A * A)) :
  pairup xs = Some zs -> length xs = 2 * length zs.
Proof. intros H. rewrite <- (unpair_pairup xs zs H). apply length_unpair. Qed.

(** A list of even length always pairs up. *)
Lemma pairup_even (n : nat) (xs : list A) :
  length xs = 2 * n -> exists zs, pairup xs = Some zs.
Proof.
  revert xs; induction n as [|n IH]; intros xs Hl.
  - destruct xs; [by exists [] | simpl in Hl; lia].
  - destruct xs as [|a [|b xs']]; simpl in Hl; try lia.
    destruct (IH xs' ltac:(lia)) as [zs Hz]. exists ((a, b) :: zs). simpl. by rewrite Hz.
Qed.
End Pairs.

(** A list whose last element is [n] is its [removelast] followed by [n]. *)
Lemma removelast_last_Some {A} (l : list A) (n : A) :
  last l = Some n -> removelast l ++ [n] = l.
Proof.
  induction l as [|a [|b l] IH]; simpl; intros H; simplify_eq; [done|].
  f_equal. by apply IH.
Qed.

(** ** Scanning a list up to its first failure

    A loop that handles the elements of a list in order and stops at the
    first that fails has handled [prefix_while f l]; the element it
    stopped at is [find (negb ∘ f) l]. *)

Fixpoint prefix_while {A} (f : A -> bool) (l : list A) : list A :=
  match l with
  | [] => []
  | a :: l' => if f a then a :: prefix_while f l' else []
  end.

Section Scan.
Context {A : Type} (f : A -> bool).

Lemma find_app (g : A -> bool) (l1 l2 : list A) :
  find g (l1 ++ l2) = match find g l1 with Some x => Some x | None => find g l2 end.
Proof. induction l1 as [|a l1 IH]; simpl; [done|]. by destruct (g a). Qed.

Lemma prefix_while_all (l : list A) :
  find (fun a => negb (f a)) l = None -> prefix_while f l = l.
Proof. induction l as [|a l IH]; simpl; [done|]. destruct (f a); simpl; [|done]. by intros ->%IH. Qed.

Lemma prefix_while_app_all (l1 l2 : list A) :
  find (fun a => negb (f a)) l1 = None -> prefix_while f (l1 ++ l2) = l1 ++ prefix_while f l2.
Proof. induction l1 as [|a l1 IH]; simpl; [done|]. destruct (f a); simpl; [|done]. by intros ->%IH. Qed.

Lemma prefix_while_app_stop (l1 l2 : list A) (x : A) :
  find (fun a => negb (f a)) l1 = Some x -> prefix_while f (l1 ++ l2) = prefix_while f l1.
Proof. induction l1 as [|a l1 IH]; simpl; [done|]. destruct (f a); simpl; [|done]. by intros ->%IH. Qed.

Lemma prefix_while_sublist (l : list A) : prefix_while f l `sublist_of` l.
Proof.
  induction l as [|a l IH]; simpl; [done|].
  destruct (f a); [by apply sublist_skip | apply sublist_nil_l].
Qed.
End Scan.

(** ** Boolean pointwise comparison of two lists *)

Fixpoint forallb2 {A B} (f : A -> B -> bool) (xs : list A) (ys : list B) : bool :=
  match xs, ys with
  | [], [] => true
  | x :: xs', y :: ys' => f x y && forallb2 f xs' ys'
  | _, _ => false
  end.

Lemma forallb2_refl {A} (f : A -> A -> bool) (xs : list A) :
  (forall x, f x x = true) -> forallb2 f xs xs = true.
Proof. intros Hf. induction xs; simpl; rewrite ?Hf; auto. Qed.

Lemma forallb2_length {A B} (f : A -> B -> bool) xs ys :
  forallb2 f xs ys = true -> length xs = length ys.
Proof.
  revert ys; induction xs as [|x xs IH]; intros [|y ys]; simpl; try done.
  intros [_ H]%andb_prop. f_equal. by apply IH.
Qed.

(** ** Automation *)

Create HintDb audio discriminated.
Create Rewrite HintDb audio_rw.
#[export] Hint Rewrite @pairup_unpair @length_unpair @bind_Ok @bind_Err
  @fmap_Ok : audio_rw.
#[export] Hint Resolve forallb2_refl : audio.

(** [simp_res] rewrites with the database and splits the [result] and
    [option] matches of a goal, keeping the equations of each case. *)
Ltac simp_res :=
  repeat (autorewrite with audio_rw in *; simpl in *;
          match goal with
          | |- context [match ?m with Ok _ => _ | Err _ => _ end] =>
              destruct m eqn:?
          | H : Ok _ = Ok _ |- _ => injection H as H
          | H : Ok _ = Err _ |- _ => discriminate H
          | H : Err _ = Ok _ |- _ => discriminate H
          end); subst.

(** [witness_by thm] closes a statement [h1 /\ ... /\ hn /\ concl] on a
    concrete input: each [hi] by computation, [concl] by [thm] applied
    to them. *)
Ltac witness_by thm := split_and!; [reflexivity .. | apply thm; reflexivity].
