(* ===== verification/Package.v ===== *)
(** * Package initialisation ([src/torchaudio/__init__.py])

    The initialisation of the [torchaudio] package as the sequence of
    its statements, run against an environment that says which modules
    can be imported and which names each defines.  A [from M import n as
    a] binds [a] in the package namespace to [M.n]; it raises
    [ImportError] when [M] cannot be imported or has neither an
    attribute nor a submodule [n].  The names of one statement are bound
    one by one, so a statement that fails on its third name has bound
    the first two: the statements run in the state-exception monad [SE]
    of [Prelude].  The [try]/[except ImportError: pass] around the
    version import swallows exactly that error and keeps what was bound.

    The contract ([init_spec]) says declaratively what [import torchaudio]
    does: it fails on the first row of the import table that cannot be
    imported, and otherwise binds every alias of the table, the version
    names before the first missing one, and [__all__];
    [init_package_refines] shows that the statements implement it. *)

From stdpp Require Import base list gmap strings.
From S2P Require Import Prelude.

(** The import system: the importable modules and the attributes each
    module defines. *)
Record env := {
  env_modules : gset string;
  env_attrs : gmap string (gset string);
}.

Inductive stmt :=
| ImportFrom (module : string) (names : list (string * string))
| TryExceptImportError (body : stmt)
| AssignAll (names : list string).

(** The package module: its namespace (name to qualified name) and its
    [__all__]. *)
Record pkg_state := {
  pk_ns : gmap string string;
  pk_all : option (list string);
}.

Definition qualify (m n : string) : string := m +:+ "." +:+ n.

(** [from m import n]: an attribute of [m] or its submodule [m.n]. *)
Definition resolve (e : env) (m n : string) : bool :=
  bool_decide (n ∈ default ∅ (env_attrs e !! m)) || bool_decide (qualify m n ∈ env_modules e).

(** One name of a [from m import ...]: bound to [m.n] under its alias, or
    [ImportError], the names bound before it staying bound. *)
Definition import_name (e : env) (m : string) (p : string * string) : SE pkg_state unit :=
  fun st => if resolve e m p.1
            then (Ok tt, {| pk_ns := <[p.2 := qualify m p.1]> (pk_ns st); pk_all := pk_all st |})
            else (Err (ImportError (qualify m p.1)), st).

Fixpoint import_names (e : env) (m : string) (ps : list (string * string)) : SE pkg_state unit :=
  match ps with
  | [] => m_ret tt
  | p :: ps' => let! _ := import_name e m p in import_names e m ps'
  end.

(** [try: body except ImportError: pass] *)
Definition try_except_import (body : SE pkg_state unit) : SE pkg_state unit :=
  fun st => match body st with
            | (Err (ImportError _), st') => (Ok tt, st')
            | r => r
            end.

Fixpoint exec_stmt (e : env) (s : stmt) : SE pkg_state unit :=
  match s with
  | ImportFrom m ps =>
      let! _ := m_lift (ensure (bool_decide (m ∈ env_modules e)) (ImportError m)) in
      import_names e m ps
  | TryExceptImportError body => try_except_import (exec_stmt e body)
  | AssignAll names => fun st => (Ok tt, {| pk_ns := pk_ns st; pk_all := Some names |})
  end.

Fixpoint exec_stmts (e : env) (ss : list stmt) : SE pkg_state unit :=
  match ss with
  | [] => m_ret tt
  | s :: ss' => let! _ := exec_stmt e s in exec_stmts e ss'
  end.

Definition torchaudio_all : list string :=
  ["compliance"; "datasets"; "functional"; "models"; "kaldi_io"; "utils";
   "sox_effects"; "transforms"; "list_audio_backends"; "get_audio_backend";
   "set_audio_backend"].

(** The statements of [__init__.py], lines 1-37 ([.] is [torchaudio]). *)
Definition init_py : list stmt :=
  [ ImportFrom "torchaudio" [("extension", "extension")];
    ImportFrom "torchaudio._internal" [("module_utils", "_mod_utils")];
    ImportFrom "torchaudio"
      [("compliance", "compliance"); ("datasets", "datasets");
       ("functional", "functional"); ("models", "models"); ("kaldi_io", "kaldi_io");
       ("utils", "utils"); ("sox_effects", "sox_effects"); ("transforms", "transforms")];
    ImportFrom "torchaudio.backend"
      [("list_audio_backends", "list_audio_backends");
       ("get_audio_backend", "get_audio_backend");
       ("set_audio_backend", "set_audio_backend")];
    TryExceptImportError
      (ImportFrom "torchaudio.version" [("__version__", "__version__");
                                        ("git_version", "git_version")]);
    AssignAll torchaudio_all ].

Definition empty_pkg : pkg_state := {| pk_ns := ∅; pk_all := None |}.

(** [import torchaudio]: a module whose body raised is not imported. *)
Definition init_package (e : env) : result pkg_state :=
  match exec_stmts e init_py empty_pkg with
  | (Ok _, st) => Ok st
  | (Err err, _) => Err err
  end.

(** ** The contract of [import torchaudio] *)

(** One imported name: the module, the name, the alias. *)
Definition row : Type := string * string * string.

Definition importable (e : env) (r : row) : bool :=
  bool_decide (r.1.1 ∈ env_modules e) && resolve e r.1.1 r.1.2.

(** The error a row that cannot be imported raises. *)
Definition missing_name (e : env) (r : row) : string :=
  if bool_decide (r.1.1 ∈ env_modules e) then qualify r.1.1 r.1.2 else r.1.1.

Definition binding (r : row) : string * string := (r.2, qualify r.1.1 r.1.2).

(** The names [__init__.py] imports unconditionally, in order. *)
Definition required_imports : list row :=
  [("torchaudio", "extension", "extension");
   ("torchaudio._internal", "module_utils", "_mod_utils");
   ("torchaudio", "compliance", "compliance"); ("torchaudio", "datasets", "datasets");
   ("torchaudio", "functional", "functional"); ("torchaudio", "models", "models");
   ("torchaudio", "kaldi_io", "kaldi_io"); ("torchaudio", "utils", "utils");
   ("torchaudio", "sox_effects", "sox_effects"); ("torchaudio", "transforms", "transforms");
   ("torchaudio.backend", "list_audio_backends", "list_audio_backends");
   ("torchaudio.backend", "get_audio_backend", "get_audio_backend");
   ("torchaudio.backend", "set_audio_backend", "set_audio_backend")].

(** The names it imports if it can. *)
Definition version_imports : list row :=
  [("torchaudio.version", "__version__", "__version__");
   ("torchaudio.version", "git_version", "git_version")].

Definition spec_pkg (e : env) : pkg_state :=
  {| pk_ns := list_to_map (binding <$> required_imports ++ prefix_while (importable e) version_imports);
     pk_all := Some torchaudio_all |}.

Definition init_spec (e : env) : result pkg_state :=
  match find (fun r => negb (importable e r)) required_imports with
  | Some r => Err (ImportError (missing_name e r))
  | None => Ok (spec_pkg e)
  end.

(** ** The statements, run *)

(** The rows of a statement's names, and of a list of statements. *)
Definition rows_of (m : string) (ps : list (string * string)) : list row :=
  (fun p => (m, p.1, p.2)) <$> ps.

Definition stmt_rows (s : stmt) : list row :=
  match s with ImportFrom m ps => rows_of m ps | _ => [] end.

Definition import_rows (ss : list stmt) : list row := concat (stmt_rows <$> ss).

(** A plain import of at least one name. *)
Definition plain_import (s : stmt) : bool :=
  match s with ImportFrom _ (_ :: _) => true | _ => false end.

(** The namespace after binding the given rows. *)
Definition add_bindings (rs : list row) (st : pkg_state) : pkg_state :=
  {| pk_ns := foldl (fun ns r => <[r.2 := qualify r.1.1 r.1.2]> ns) (pk_ns st) rs;
     pk_all := pk_all st |}.

(** The outcome of importing rows in order: the first that cannot be
    imported raises. *)
Definition scan_result (e : env) (rs : list row) : result unit :=
  match find (fun r => negb (importable e r)) rs with
  | None => Ok tt
  | Some r => Err (ImportError (missing_name e r))
  end.

Section Run.
Context (e : env).

Lemma add_bindings_nil (st : pkg_state) : add_bindings [] st = st.
Proof. by destruct st. Qed.

Lemma add_bindings_app (l1 l2 : list row) (st : pkg_state) :
  add_bindings (l1 ++ l2) st = add_bindings l2 (add_bindings l1 st).
Proof. unfold add_bindings; simpl. by rewrite foldl_app. Qed.

(** The names of one statement of an importable module, bound one by
    one up to the first that does not resolve. *)
Lemma import_names_run (m : string) (ps : list (string * string)) (st : pkg_state) :
  m ∈ env_modules e ->
  import_names e m ps st
  = (scan_result e (rows_of m ps), add_bindings (prefix_while (importable e) (rows_of m ps)) st).
Proof.
  intros Hm. unfold scan_result, importable, missing_name.
  revert st; induction ps as [|p ps IH]; intros st; simpl.
  - by rewrite add_bindings_nil.
  - rewrite bool_decide_eq_true_2 by done; simpl. unfold m_bind, import_name.
    destruct (resolve e m p.1); simpl; [apply IH |].
    by rewrite add_bindings_nil, bool_decide_eq_true_2.
Qed.

Lemma exec_import (m : string) (ps : list (string * string)) (st : pkg_state) :
  ps <> [] ->
  exec_stmt e (ImportFrom m ps) st
  = (scan_result e (rows_of m ps), add_bindings (prefix_while (importable e) (rows_of m ps)) st).
Proof.
  intros Hps. cbn [exec_stmt]. rewrite m_bind_lift. unfold ensure.
  case_bool_decide as Hm; [by apply import_names_run|].
  destruct ps as [|p ps]; [done|]. unfold scan_result, importable, missing_name; simpl.
  rewrite bool_decide_eq_false_2 by done; simpl. by rewrite add_bindings_nil, bool_decide_eq_false_2.
Qed.

(** A run of plain imports stops at the first row that cannot be
    imported, keeping every name bound before it. *)
Lemma exec_imports (ss : list stmt) (st : pkg_state) :
  forallb plain_import ss = true ->
  exec_stmts e ss st
  = (scan_result e (import_rows ss), add_bindings (prefix_while (importable e) (import_rows ss)) st).
Proof.
  revert st; induction ss as [|s ss IH]; intros st; cbn [exec_stmts forallb].
  { unfold m_ret, scan_result; simpl. by rewrite add_bindings_nil. }
  destruct s as [m [|p ps]| |]; cbn [plain_import andb]; try done. intros Hss.
  unfold m_bind at 1. rewrite exec_import by done.
  unfold import_rows; cbn [fmap list_fmap concat stmt_rows]; fold (import_rows ss).
  unfold scan_result. rewrite find_app.
  destruct (find (fun r => negb (importable e r)) (rows_of m (p :: ps))) as [r|] eqn:F.
  - by rewrite (prefix_while_app_stop _ _ _ r F).
  - rewrite prefix_while_all, IH, prefix_while_app_all, add_bindings_app by done. done.
Qed.

(** [try: from m import ... except ImportError: pass] never raises and
    keeps the names bound before the first missing one. *)
Lemma exec_try_import (m : string) (ps : list (string * string)) (st : pkg_state) :
  ps <> [] ->
  exec_stmt e (TryExceptImportError (ImportFrom m ps)) st
  = (Ok tt, add_bindings (prefix_while (importable e) (rows_of m ps)) st).
Proof.
  intros Hps. change (exec_stmt e (TryExceptImportError ?b)) with (try_except_import (exec_stmt e b)).
  unfold try_except_import. rewrite exec_import by done.
  unfold scan_result. by destruct (find _ _).
Qed.

Lemma exec_stmts_app (ss1 ss2 : list stmt) (st : pkg_state) :
  exec_stmts e (ss1 ++ ss2) st = m_bind (exec_stmts e ss1) (fun _ => exec_stmts e ss2) st.
Proof.
  revert st; induction ss1 as [|s ss1 IH]; intros st; [done|].
  cbn [app exec_stmts]. unfold m_bind at 1 2 3.
  destruct (exec_stmt e s st) as [[] st']; [apply IH | done].
Qed.
End Run.

(** Binding rows with distinct aliases one by one builds the map of
    their bindings. *)
Lemma foldl_bindings (l : list row) (ns : gmap string string) :
  NoDup (binding <$> l).*1 ->
  foldl (fun ns r => <[r.2 := qualify r.1.1 r.1.2]> ns) ns l = list_to_map (binding <$> l) ∪ ns.
Proof.
  revert ns; induction l as [|r l IH]; intros ns Hnd; cbn [foldl].
  - by rewrite fmap_nil, list_to_map_nil, map_empty_union.
  - destruct r as [[m n] a]. rewrite !fmap_cons in Hnd. rewrite fmap_cons.
    cbn [binding fst snd] in *.
    apply NoDup_cons in Hnd as [Hr Hnd]. rewrite IH by done.
    change (binding (m, n, a)) with (a, qualify m n).
    rewrite list_to_map_cons, <- insert_union_l, insert_union_r; [done|].
    by apply not_elem_of_list_to_map_1.
Qed.

Lemma spec_aliases_NoDup (e : env) :
  NoDup (binding <$> required_imports ++ prefix_while (importable e) version_imports).*1.
Proof.
  apply (sublist_NoDup _ ((binding <$> required_imports ++ version_imports).*1));
    [apply (bool_decide_unpack _); reflexivity|].
  apply fmap_sublist, fmap_sublist, sublist_app; [done | apply prefix_while_sublist].
Qed.

(** The statements implement the contract. *)
Lemma init_run (e : env) :
  match exec_stmts e init_py empty_pkg with
  | (Ok _, st) => init_spec e = Ok st
  | (Err err, _) => init_spec e = Err err
  end.
Proof.
  rewrite <- (take_drop 4 init_py), exec_stmts_app. unfold m_bind.
  rewrite exec_imports by reflexivity.
  assert (Hr : import_rows (take 4 init_py) = required_imports) by reflexivity.
  rewrite Hr. unfold scan_result, init_spec.
  destruct (find _ required_imports) as [r|] eqn:F; [done|].
  rewrite prefix_while_all by done. cbn -[add_bindings exec_stmt].
  erewrite m_bind_Ok; [| apply exec_try_import; done]. cbn -[add_bindings].
  rewrite <- add_bindings_app. unfold add_bindings, spec_pkg; cbn [pk_ns pk_all empty_pkg].
  rewrite foldl_bindings by apply spec_aliases_NoDup. by rewrite map_union_empty.
Qed.

Lemma init_package_Ok (e : env) (st : pkg_state) :
  init_package e = Ok st -> init_spec e = Ok st.
Proof.
  pose proof (init_run e) as H. unfold init_package.
  destruct (exec_stmts e init_py empty_pkg) as [[] ?]; congruence.
Qed.

Lemma init_package_Err (e : env) (err : error) :
  init_package e = Err err -> init_spec e = Err err.
Proof.
  pose proof (init_run e) as H. unfold init_package.
  destruct (exec_stmts e init_py empty_pkg) as [[] ?]; congruence.
Qed.

Lemma init_package_of_spec (e : env) (st : pkg_state) :
  init_spec e = Ok st -> init_package e = Ok st.
Proof.
  pose proof (init_run e) as H. unfold init_package.
  destruct (exec_stmts e init_py empty_pkg) as [[] ?]; congruence.
Qed.

(** Every name of [__all__] is an alias of the table. *)
Lemma spec_pkg_binds_all (e : env) (n : string) :
  n ∈ torchaudio_all -> is_Some (pk_ns (spec_pkg e) !! n).
Proof.
  intros Hn.
  assert (Hin : n ∈ (binding <$> required_imports).*1).
  { revert n Hn. apply Forall_forall, (bool_decide_unpack _). reflexivity. }
  apply not_eq_None_Some. intros Hl%not_elem_of_list_to_map_2. apply Hl.
  rewrite fmap_app, fmap_app. apply elem_of_app. by left.
Qed.

(** ** Properties *)

(** C21: the statements of [__init__.py] implement the contract: [import
    torchaudio] fails with the [ImportError] of the first row of the
    import table that cannot be imported, and otherwise binds exactly
    the aliases of the table, the version names before the first
    missing one, and [__all__]. *)
Theorem init_package_refines (e : env) : init_package e = init_spec e.
Proof.
  destruct (init_package e) as [st|err] eqn:E.
  - by rewrite (init_package_Ok e st E).
  - by rewrite (init_package_Err e err E).
Qed.

(** C22: [from torchaudio import *] works: after a successful [import
    torchaudio], [__all__] is set and every name it lists is bound. *)
Theorem init_binds_all (e : env) (st : pkg_state) :
  init_package e = Ok st ->
  pk_all st = Some torchaudio_all /\ forall n, n ∈ torchaudio_all -> is_Some (pk_ns st !! n).
Proof.
  intros H%init_package_Ok. unfold init_spec in H. destruct (find _ _); simplify_eq.
  split; [done|]. apply spec_pkg_binds_all.
Qed.

(** C23: Without the backend module, [import torchaudio] raises [ImportError]. *)
Theorem init_requires_backend (e : env) :
  "torchaudio.backend" ∉ env_modules e -> exists m, init_package e = Err (ImportError m).
Proof.
  intros Hb. destruct (init_package e) as [st|err] eqn:E.
  - apply init_package_Ok in E. unfold init_spec in E.
    destruct (find _ required_imports) eqn:F; [done|].
    pose proof (find_none _ _ F ("torchaudio.backend", "get_audio_backend", "get_audio_backend"))
      as Hf. unfold importable in Hf. rewrite bool_decide_eq_false_2 in Hf by done.
    simpl in Hf. discriminate Hf. simpl; tauto.
  - apply init_package_Err in E. unfold init_spec in E.
    destruct (find _ _); simplify_eq. eauto.
Qed.

(** C24: a version module without [git_version] does not stop the import:
    [__version__], imported before the failing name, stays bound. *)
Theorem init_version_partial (e : env) :
  forallb (importable e) required_imports = true ->
  importable e ("torchaudio.version", "__version__", "__version__") = true ->
  importable e ("torchaudio.version", "git_version", "git_version") = false ->
  exists st, init_package e = Ok st
    /\ pk_ns st !! "__version__" = Some "torchaudio.version.__version__"
    /\ pk_ns st !! "git_version" = None.
Proof.
  intros Hall Hv Hg. exists (spec_pkg e). split.
  - apply init_package_of_spec. unfold init_spec.
    destruct (find _ required_imports) as [r|] eqn:F; [|done].
    apply find_some in F as [Hin Hr%negb_true_iff].
    apply forallb_forall with (x := r) in Hall; [congruence | done].
  - unfold spec_pkg, version_imports; simpl. rewrite Hv, Hg. split; reflexivity.
Qed.

(** ** A complete installation *)

Definition std_env : env :=
  {| env_modules := list_to_set
       ["torchaudio"; "torchaudio.extension"; "torchaudio._internal";
        "torchaudio._internal.module_utils"; "torchaudio.compliance";
        "torchaudio.datasets"; "torchaudio.functional"; "torchaudio.models";
        "torchaudio.kaldi_io"; "torchaudio.utils"; "torchaudio.sox_effects";
        "torchaudio.transforms"; "torchaudio.backend"; "torchaudio.version"];
     env_attrs := <["torchaudio.backend" := list_to_set
                       ["list_audio_backends"; "get_audio_backend"; "set_audio_backend"]]>
                  (<["torchaudio.version" := list_to_set ["__version__"; "git_version"]]> ∅) |}.

Definition std_pkg : pkg_state :=
  match init_package std_env with Ok st => st | Err _ => empty_pkg end.

Lemma init_binds_all_witness :
  init_package std_env = Ok std_pkg /\ pk_all std_pkg = Some torchaudio_all
  /\ is_Some (pk_ns std_pkg !! "set_audio_backend").
Proof.
  assert (H : init_package std_env = Ok std_pkg) by (vm_compute; reflexivity).
  split; [exact H|]. split; [exact (proj1 (init_binds_all std_env std_pkg H))|].
  apply (proj2 (init_binds_all std_env std_pkg H)). apply list_elem_of_In; simpl; tauto.
Defined.

Definition empty_env : env := {| env_modules := ∅; env_attrs := ∅ |}.

(** A version module that defines [__version__] only. *)
Definition partial_env : env :=
  {| env_modules := env_modules std_env;
     env_attrs := <["torchaudio.version" := {["__version__"]}]> (env_attrs std_env) |}.

Lemma init_version_partial_witness :
  forallb (importable partial_env) required_imports = true
  /\ importable partial_env ("torchaudio.version", "__version__", "__version__") = true
  /\ importable partial_env ("torchaudio.version", "git_version", "git_version") = false
  /\ exists st, init_package partial_env = Ok st
       /\ pk_ns st !! "__version__" = Some "torchaudio.version.__version__"
       /\ pk_ns st !! "git_version" = None.
Proof.
  assert (H1 : forallb (importable partial_env) required_imports = true) by (vm_compute; reflexivity).
  assert (H2 : importable partial_env ("torchaudio.version", "__version__", "__version__") = true)
    by (vm_compute; reflexivity).
  assert (H3 : importable partial_env ("torchaudio.version", "git_version", "git_version") = false)
    by (vm_compute; reflexivity).
  split; [exact H1 | split; [exact H2 | split; [exact H3 | exact (init_version_partial _ H1 H2 H3)]]].
Defined.

Lemma init_requires_backend_witness :
  ("torchaudio.backend" ∉ env_modules empty_env)
  /\ (exists m, init_package empty_env = Err (ImportError m)).
Proof.
  assert (H : "torchaudio.backend" ∉ env_modules empty_env)
    by (unfold empty_env; simpl; apply not_elem_of_empty).
  split; [exact H | exact (init_requires_backend _ H)].
Defined.

(** Without the version module the package still initialises, without
    [__version__]. *)
Example init_without_version :
  exists st, init_package {| env_modules := env_modules std_env ∖ {["torchaudio.version"]};
                             env_attrs := env_attrs std_env |} = Ok st
             /\ pk_ns st !! "__version__" = None.
Proof. eexists. split; [vm_compute; reflexivity | vm_compute; reflexivity]. Qed.
