(* ===== verification/Tensor.v ===== *)
(** * Numeric buffers (spec section 4.1)

    The tensors the harness moves between devices and dtypes and the
    pseudo-complex conversions [torch.view_as_real] and
    [torch.view_as_complex] that [_assert_consistency_complex] and the
    tests call.  The tensor runtime is not code of the repository: the
    definitions follow the spec's contract for numeric buffers.

    Elements are drawn from an abstract scalar type [R] (a class
    [Scalar]); a complex tensor stores pairs [(re, im)]. *)

From stdpp Require Import base list gmap strings.
From S2P Require Import Prelude.

(** ** Devices and element types *)

Inductive device := CPU | CUDA.

Inductive dtype := Float32 | Float64 | Complex64 | Complex128 | Int64.

#[export] Instance device_eq_dec : EqDecision device.
Proof. solve_decision. Defined.
#[export] Instance dtype_eq_dec : EqDecision dtype.
Proof. solve_decision. Defined.

Definition is_complex_dtype (d : dtype) : bool :=
  match d with Complex64 | Complex128 => true | _ => false end.

Definition is_floating_dtype (d : dtype) : bool :=
  match d with Float32 | Float64 => true | _ => false end.

(** The real dtype of the components of a complex dtype, and back. *)
Definition real_part_dtype (d : dtype) : dtype :=
  match d with Complex64 => Float32 | Complex128 => Float64 | d => d end.

Definition complex_of_dtype (d : dtype) : dtype :=
  match d with Float32 => Complex64 | Float64 => Complex128 | d => d end.

(** ** The scalar interface

    What the tensor runtime promises about its elements: arithmetic, the
    decimal literals of the configurations ([s_of_dec m e] is
    [m * 10^e]), comparison, truncation toward zero ([Tensor.long()]),
    a rounding of a value to the precision of a dtype, the elementwise
    closeness test of [assertEqual] (the dtype's [rtol]/[atol], with
    [equal_nan]), and the bit pattern a float is saved as. *)

Class Scalar (R : Type) := {
  s_zero : R;
  s_one : R;
  s_add : R -> R -> R;
  s_sub : R -> R -> R;
  s_mul : R -> R -> R;
  s_of_nat : nat -> R;
  s_of_dec : Z -> Z -> R;
  s_ltb : R -> R -> bool;
  s_trunc : R -> Z;
  s_round : dtype -> R -> R;
  s_close : dtype -> R -> R -> bool;
  s_bits : R -> Z;
  s_of_bits : Z -> R;
}.

(** The laws the theorems rely on: a value is close to itself (NaN
    included, since [assertEqual] compares with [equal_nan=True]),
    rounding to a precision twice is rounding once, one is a right unit,
    and a float is restored exactly from the bits it is saved as. *)
Class ScalarLaws (R : Type) `{Scalar R} := {
  s_close_refl : forall d x, s_close d x x = true;
  s_round_idem : forall d x, s_round d (s_round d x) = s_round d x;
  s_mul_one_r : forall x, s_mul x s_one = x;
  s_of_bits_bits : forall x, s_of_bits (s_bits x) = x;
}.

(** ** Tensors *)

Inductive storage (R : Type) :=
| SReal (xs : list R)
| SCplx (zs : list (R * R)).
Arguments SReal {R} xs.
Arguments SCplx {R} zs.

Record tensor (R : Type) := mk_tensor {
  t_shape : list nat;
  t_dtype : dtype;
  t_device : device;
  t_data : storage R;
}.
Arguments mk_tensor {R} t_shape t_dtype t_device t_data.
Arguments t_shape {R} t.
Arguments t_dtype {R} t.
Arguments t_device {R} t.
Arguments t_data {R} t.

Definition numel (s : list nat) : nat := foldr Nat.mul 1 s.

Section Tensors.
Context {R : Type} `{Scalar R}.

Definition storage_length (st : storage R) : nat :=
  match st with SReal xs => length xs | SCplx zs => length zs end.

Definition storage_complex (st : storage R) : bool :=
  match st with SReal _ => false | SCplx _ => true end.

(** Well-formedness: the storage kind agrees with the dtype and holds
    one element per index of the shape. *)
Definition wf_tensor (t : tensor R) : bool :=
  Bool.eqb (storage_complex (t_data t)) (is_complex_dtype (t_dtype t))
  && (storage_length (t_data t) =? numel (t_shape t)).

(** Construction from raw data: [ShapeMismatch] when the declared shape
    does not match the element count. *)
Definition make (shape : list nat) (d : dtype) (dev : device)
    (st : storage R) : result (tensor R) :=
  assert! Bool.eqb (storage_complex st) (is_complex_dtype d) else InvalidInput "dtype";
  assert! storage_length st =? numel shape else ShapeMismatch;
  Ok (mk_tensor shape d dev st).

Definition is_complex (t : tensor R) : bool := is_complex_dtype (t_dtype t).

(** [torch.view_as_real]: a complex tensor of shape [s] becomes a real
    tensor of shape [s ++ [2]] whose last axis holds [re, im]. *)
Definition view_as_real (t : tensor R) : result (tensor R) :=
  match t_data t with
  | SCplx zs =>
      Ok (mk_tensor (t_shape t ++ [2]) (real_part_dtype (t_dtype t))
            (t_device t) (SReal (unpair zs)))
  | SReal _ => Err (InvalidInput "view_as_real is only supported for complex tensors")
  end.

(** [torch.view_as_complex]: the inverse, defined on floating tensors
    whose last dimension has size 2. *)
Definition view_as_complex (t : tensor R) : result (tensor R) :=
  match t_data t with
  | SReal xs =>
      assert! is_floating_dtype (t_dtype t) else InvalidInput "dtype";
      assert! bool_decide (last (t_shape t) = Some 2)
        else InvalidInput "Tensor must have a last dimension of size 2";
      zs ← of_option ShapeMismatch (pairup xs);
      Ok (mk_tensor (removelast (t_shape t)) (complex_of_dtype (t_dtype t))
            (t_device t) (SCplx zs))
  | SCplx _ => Err (InvalidInput "view_as_complex is only supported for real tensors")
  end.

(** [Tensor.to(dtype)]: no copy when the dtype already matches;
    otherwise every element is rounded to the target precision, a
    complex source loses its imaginary part when the target is real,
    and a real source gains a zero imaginary part when it is complex. *)
Definition convert_storage (d : dtype) (st : storage R) : storage R :=
  match st, is_complex_dtype d with
  | SReal xs, false => SReal (s_round d <$> xs)
  | SReal xs, true => SCplx ((fun x => (s_round d x, s_zero)) <$> xs)
  | SCplx zs, false => SReal ((fun z => s_round d z.1) <$> zs)
  | SCplx zs, true => SCplx ((fun z => (s_round d z.1, s_round d z.2)) <$> zs)
  end.

Definition to_dtype (d : dtype) (t : tensor R) : tensor R :=
  if decide (t_dtype t = d) then t
  else mk_tensor (t_shape t) d (t_device t) (convert_storage d (t_data t)).

Definition to_device (dev : device) (t : tensor R) : tensor R :=
  mk_tensor (t_shape t) (t_dtype t) dev (t_data t).

(** [tensor.to(device=dev, dtype=d)] *)
Definition tensor_to (dev : device) (d : dtype) (t : tensor R) : tensor R :=
  to_device dev (to_dtype d t).

(** [assertEqual] on two tensors: same shape, same dtype, and every
    pair of elements close at the dtype's tolerance. *)
Definition storage_close (d : dtype) (a b : storage R) : bool :=
  match a, b with
  | SReal xs, SReal ys => forallb2 (s_close d) xs ys
  | SCplx xs, SCplx ys =>
      forallb2 (fun z w => s_close d z.1 w.1 && s_close d z.2 w.2) xs ys
  | _, _ => false
  end.

Definition tensor_close (a b : tensor R) : bool :=
  bool_decide (t_shape a = t_shape b) && bool_decide (t_dtype a = t_dtype b)
  && storage_close (t_dtype a) (t_data a) (t_data b).
End Tensors.

(** ** Properties of the buffer operations *)

Lemma numel_snoc (s : list nat) (n : nat) : numel (s ++ [n]) = numel s * n.
Proof.
  unfold numel. induction s as [|a s IH]; simpl; [lia | rewrite IH; lia].
Qed.

Lemma real_part_complex_of (d : dtype) :
  is_floating_dtype d = true -> real_part_dtype (complex_of_dtype d) = d.
Proof. by destruct d. Qed.

Lemma complex_of_real_part (d : dtype) :
  is_complex_dtype d = true -> complex_of_dtype (real_part_dtype d) = d.
Proof. by destruct d. Qed.

Lemma real_part_floating (d : dtype) :
  is_complex_dtype d = true -> is_floating_dtype (real_part_dtype d) = true.
Proof. by destruct d. Qed.

Lemma complex_of_floating (d : dtype) :
  is_floating_dtype d = true -> is_complex_dtype (complex_of_dtype d) = true.
Proof. by destruct d. Qed.

Lemma real_part_dtype_idem (d : dtype) : real_part_dtype (real_part_dtype d) = real_part_dtype d.
Proof. by destruct d. Qed.

#[export] Hint Resolve real_part_complex_of complex_of_real_part
  real_part_floating complex_of_floating : audio.

Section TensorLemmas.
Context {R : Type} `{Scalar R}.

Lemma wf_tensor_iff (t : tensor R) :
  wf_tensor t = true <->
  storage_complex (t_data t) = is_complex_dtype (t_dtype t)
  /\ storage_length (t_data t) = numel (t_shape t).
Proof.
  unfold wf_tensor. rewrite andb_true_iff, Nat.eqb_eq.
  split; intros [H1 H2]; split; auto;
    [by apply eqb_prop in H1 | by rewrite H1, eqb_reflx].
Qed.

Lemma make_Ok (shape : list nat) d dev (st : storage R) t :
  make shape d dev st = Ok t <->
  t = mk_tensor shape d dev st /\ wf_tensor t = true.
Proof.
  unfold make, ensure, wf_tensor.
  destruct (Bool.eqb _ _) eqn:E1, (storage_length st =? numel shape) eqn:E2;
    simpl; split; intros; destruct_and?; simplify_eq/=;
    rewrite ?E1, ?E2 in *; try done.
Qed.

Lemma view_as_real_then_complex (t r : tensor R) :
  wf_tensor t = true -> is_complex t = true ->
  view_as_real t = Ok r -> view_as_complex r = Ok t.
Proof.
  intros [Hc _]%wf_tensor_iff Hcx. unfold is_complex in Hcx.
  destruct t as [s d dev [xs|zs]]; simpl in *; [congruence |].
  unfold view_as_real; simpl. intros; simplify_eq.
  unfold view_as_complex; simpl.
  rewrite real_part_floating, last_app by done; simpl.
  rewrite pairup_unpair, removelast_last, complex_of_real_part by done.
  done.
Qed.

(** The complex tensor a pseudo-complex view is taken of is recovered
    by [view_as_complex]. *)
Lemma view_as_complex_real (t : tensor R) :
  wf_tensor t = true -> is_complex t = true ->
  (r ← view_as_real t; view_as_complex r) = Ok t.
Proof.
  intros Hw Hc. destruct (view_as_real t) as [r|] eqn:E.
  - by apply view_as_real_then_complex.
  - exfalso. unfold view_as_real in E. apply wf_tensor_iff in Hw as [Hw _].
    unfold is_complex in Hc. destruct (t_data t); simpl in *; congruence.
Qed.

(** [view_as_real] undoes [view_as_complex]: a real tensor whose complex view
    exists is the pseudo-complex view of it. *)
Lemma view_as_real_complex (t c : tensor R) :
  view_as_complex t = Ok c -> view_as_real c = Ok t.
Proof.
  destruct t as [s d dev [xs|zs]]; unfold view_as_complex; simpl; [|done].
  destruct (is_floating_dtype d) eqn:Hd; simpl; [|done].
  case_bool_decide as Hl; simpl; [|done].
  destruct (pairup xs) as [zs|] eqn:Hp; simpl; intros; simplify_eq/=; [].
  unfold view_as_real; simpl.
  rewrite (unpair_pairup xs zs Hp), real_part_complex_of by done.
  by rewrite (removelast_last_Some s 2 Hl).
Qed.


(** [view_as_real] of a well-formed tensor is well formed. *)
Lemma view_as_real_wf (t r : tensor R) :
  wf_tensor t = true -> view_as_real t = Ok r -> wf_tensor r = true.
Proof.
  intros [Hc Hl]%wf_tensor_iff. unfold view_as_real.
  destruct t as [s d dev [xs|zs]]; simpl in *; intros; simplify_eq/=.
  apply wf_tensor_iff; simpl. rewrite length_unpair, numel_snoc.
  split; [destruct d; simpl in *; congruence | lia].
Qed.

(** [view_as_complex] of a well-formed tensor is a well-formed
    complex tensor. *)
Lemma view_as_complex_wf (t c : tensor R) :
  wf_tensor t = true -> view_as_complex t = Ok c -> wf_tensor c = true /\ is_complex c = true.
Proof.
  intros [_ Hl]%wf_tensor_iff. destruct t as [s d dev [xs|zs]]; unfold view_as_complex; simpl in *;
    [|done].
  destruct (is_floating_dtype d) eqn:Hd; simpl; [|done].
  case_bool_decide as Hs; simpl; [|done].
  destruct (pairup xs) as [zs|] eqn:Hp; simpl; intros; simplify_eq/=.
  rewrite <- (removelast_last_Some s 2 Hs), numel_snoc in Hl.
  apply pairup_length in Hp. split; [apply wf_tensor_iff; simpl; split|]; unfold is_complex;
    simpl; rewrite ?complex_of_floating by done; [done | lia | done].
Qed.

Lemma convert_storage_length (d : dtype) (st : storage R) :
  storage_length (convert_storage d st) = storage_length st.
Proof.
  destruct st, (is_complex_dtype d) eqn:E; unfold convert_storage; rewrite ?E;
    simpl; by rewrite length_fmap.
Qed.

Lemma convert_storage_complex (d : dtype) (st : storage R) :
  storage_complex (convert_storage d st) = is_complex_dtype d.
Proof. destruct st, (is_complex_dtype d) eqn:E; unfold convert_storage; by rewrite E. Qed.

(** [Tensor.to] keeps a tensor well formed: the storage kind follows the new
    dtype and the element count is unchanged. *)
Lemma tensor_to_wf (dev : device) (d : dtype) (t : tensor R) :
  wf_tensor t = true -> wf_tensor (tensor_to dev d t) = true.
Proof.
  intros [Hc Hl]%wf_tensor_iff. unfold tensor_to, to_dtype.
  apply wf_tensor_iff. case_decide; simpl; [done|].
  by rewrite convert_storage_length, convert_storage_complex.
Qed.

Lemma tensor_to_shape (dev : device) (d : dtype) (t : tensor R) :
  t_shape (tensor_to dev d t) = t_shape t /\ t_dtype (tensor_to dev d t) = d
  /\ t_device (tensor_to dev d t) = dev.
Proof. unfold tensor_to, to_dtype. case_decide; simpl; auto. Qed.

Context `{!ScalarLaws R}.

Lemma storage_close_refl (d : dtype) (st : storage R) : storage_close d st st = true.
Proof.
  destruct st; simpl; apply forallb2_refl; intros;
    rewrite ?s_close_refl; done.
Qed.

Lemma tensor_close_refl (t : tensor R) : tensor_close t t = true.
Proof.
  unfold tensor_close. rewrite !bool_decide_eq_true_2 by done.
  apply storage_close_refl.
Qed.
End TensorLemmas.

#[export] Hint Resolve tensor_close_refl storage_close_refl : audio.

Section ToReal.
Context {R : Type} `{Scalar R}.

(** Moving a real tensor to a floating dtype keeps it real, with as
    many elements. *)
Lemma tensor_to_real (dev : device) (d : dtype) (x : tensor R) (xs : list R) :
  is_floating_dtype d = true -> t_data x = SReal xs ->
  exists xs', t_data (tensor_to dev d x) = SReal xs' /\ length xs' = length xs.
Proof.
  intros Hd Hx. unfold tensor_to, to_dtype. case_decide; simpl.
  - rewrite Hx. eauto.
  - rewrite Hx. unfold convert_storage. destruct d; try done; simpl;
      eexists; (split; [reflexivity | apply length_fmap]).
Qed.

(** Moving a complex tensor to a complex dtype keeps it complex, with
    as many elements. *)
Lemma tensor_to_complex (dev : device) (d : dtype) (x : tensor R) (zs : list (R * R)) :
  is_complex_dtype d = true -> t_data x = SCplx zs ->
  exists zs', t_data (tensor_to dev d x) = SCplx zs' /\ length zs' = length zs.
Proof.
  intros Hd Hx. unfold tensor_to, to_dtype. case_decide; simpl.
  - rewrite Hx. eauto.
  - rewrite Hx. unfold convert_storage. rewrite Hd.
    eexists; (split; [reflexivity | apply length_fmap]).
Qed.
End ToReal.

Lemma numel_app (s1 s2 : list nat) : numel (s1 ++ s2) = numel s1 * numel s2.
Proof. unfold numel. induction s1 as [|a s IH]; simpl; [lia | rewrite IH; lia]. Qed.

Lemma numel_one (a : nat) : numel [a] = a.
Proof. unfold numel; simpl; lia. Qed.

Lemma numel_pair (a b : nat) : numel [a; b] = a * b.
Proof. unfold numel; simpl; lia. Qed.

(** ** A reference instance: three-decimal fixed point

    Scalars as [Z], the value times 1000; used by the witnesses only. *)


Definition milli_of_dec (m e : Z) : Z :=
  if (0 <=? 3 + e)%Z then (m * 10 ^ (3 + e))%Z else Z.quot m (10 ^ (- (3 + e))).

#[export] Instance milli_scalar : Scalar Z := {
  s_zero := 0%Z;
  s_one := 1000%Z;
  s_add := Z.add;
  s_sub := Z.sub;
  s_mul x y := Z.quot (x * y) 1000;
  s_of_nat n := (Z.of_nat n * 1000)%Z;
  s_of_dec := milli_of_dec;
  s_ltb := Z.ltb;
  s_trunc x := Z.quot x 1000;
  s_round _ x := x;
  s_close _ := Z.eqb;
  s_bits x := x;
  s_of_bits w := w;
}.

#[export] Instance milli_laws : ScalarLaws Z.
Proof.
  split; simpl; intros.
  - apply Z.eqb_refl.
  - done.
  - by rewrite Z.quot_mul.
  - done.
Qed.


