(* ===== verification/Catalog.v ===== *)
(** * The transform catalog (spec section 4.2)

    The closed set of transform kinds the test module exercises
    ([torchaudio.transforms]), one constructor per class, each with its
    configuration record, the construction with its defaults and its
    [InvalidConfig] checks, and [Module.to], which moves the module's
    buffers to a device and a dtype.  [torchaudio.transforms] is not
    under src/: these definitions model the spec's catalog. *)

From stdpp Require Import base list gmap strings.
From S2P Require Import Prelude Tensor.

Inductive window_fn := Hann | Hamming | Blackman | Bartlett.
Inductive fade_shape := Linear | Exponential | Logarithmic | QuarterSine | HalfSine.
Inductive db_stype := Power | Magnitude.
Inductive gain_type := Amplitude | GainDb | GainPower.

#[export] Instance window_fn_eq_dec : EqDecision window_fn.
Proof. solve_decision. Defined.
#[export] Instance fade_shape_eq_dec : EqDecision fade_shape.
Proof. solve_decision. Defined.
#[export] Instance db_stype_eq_dec : EqDecision db_stype.
Proof. solve_decision. Defined.
#[export] Instance gain_type_eq_dec : EqDecision gain_type.
Proof. solve_decision. Defined.

Section Configs.
Context {R : Type}.

(** Short-time Fourier analysis: [n_fft] frame size, [win_length],
    [hop_length], [pad] zeros on both sides, the window, the power of
    the magnitude ([None]: complex output) and the complex-output flag. *)
Record spectrogram_cfg := {
  sp_n_fft : nat; sp_win_length : nat; sp_hop_length : nat; sp_pad : nat;
  sp_window : window_fn; sp_power : option R; sp_normalized : bool;
  sp_return_complex : bool }.

Record istft_cfg := {
  is_n_fft : nat; is_win_length : nat; is_hop_length : nat; is_pad : nat;
  is_window : window_fn; is_normalized : bool }.

Record griffinlim_cfg := {
  gl_n_fft : nat; gl_n_iter : nat; gl_win_length : nat; gl_hop_length : nat;
  gl_window : window_fn; gl_power : R; gl_momentum : R;
  gl_length : option nat; gl_rand_init : bool }.

Record todb_cfg := { db_stype_of : db_stype; db_top_db : option R }.

Record melscale_cfg := {
  ms_n_mels : nat; ms_sample_rate : nat; ms_f_min : R; ms_f_max : R;
  ms_n_stft : nat }.

(** The composite transforms hold their sub-modules, as the classes do. *)
Record melspec_cfg := { mel_spectrogram : spectrogram_cfg; mel_scale : melscale_cfg }.

Record mfcc_cfg := {
  mf_n_mfcc : nat; mf_log_mels : bool; mf_melspec : melspec_cfg;
  mf_todb : todb_cfg }.

Record lfcc_cfg := {
  lf_n_lfcc : nat; lf_n_filter : nat; lf_sample_rate : nat; lf_f_min : R;
  lf_f_max : R; lf_log_lf : bool; lf_spectrogram : spectrogram_cfg;
  lf_todb : todb_cfg }.

(** [Resample] keeps the two rates divided by their gcd. *)
Record resample_cfg := {
  rs_orig_freq : nat; rs_new_freq : nat; rs_gcd : nat;
  rs_lowpass_filter_width : nat; rs_rolloff : R }.

Record fade_cfg := { fd_in_len : nat; fd_out_len : nat; fd_shape : fade_shape }.

Record masking_cfg := { mk_mask_param : nat; mk_iid_masks : bool }.

Record vol_cfg := { vl_gain : R; vl_gain_type : gain_type }.

Record cmn_cfg := {
  cm_cmn_window : nat; cm_min_cmn_window : nat; cm_center : bool;
  cm_norm_vars : bool }.

Record vad_cfg := {
  vd_sample_rate : nat; vd_trigger_level : R; vd_trigger_time : R;
  vd_search_time : R; vd_allowed_gap : R; vd_pre_trigger_time : R;
  vd_boot_time : R }.

Record centroid_cfg := {
  ct_sample_rate : nat; ct_n_fft : nat; ct_win_length : nat;
  ct_hop_length : nat; ct_pad : nat; ct_window : window_fn }.

Record stretch_cfg := {
  ts_n_freq : nat; ts_hop_length : nat; ts_fixed_rate : option R }.

Record pitch_cfg := {
  ps_sample_rate : nat; ps_n_steps : Z; ps_bins_per_octave : nat;
  ps_n_fft : nat; ps_win_length : nat; ps_hop_length : nat;
  ps_window : window_fn }.

(** The catalog: one constructor per transform class. *)
Inductive transform_kind :=
| Spectrogram (c : spectrogram_cfg)
| InverseSpectrogram (c : istft_cfg)
| GriffinLim (c : griffinlim_cfg)
| AmplitudeToDB (c : todb_cfg)
| MelScale (c : melscale_cfg)
| MelSpectrogram (c : melspec_cfg)
| MFCC (c : mfcc_cfg)
| LFCC (c : lfcc_cfg)
| Resample (c : resample_cfg)
| ComplexNorm (power : R)
| MuLawEncoding (quantization_channels : nat)
| MuLawDecoding (quantization_channels : nat)
| Fade (c : fade_cfg)
| FrequencyMasking (c : masking_cfg)
| TimeMasking (c : masking_cfg)
| Vol (c : vol_cfg)
| SlidingWindowCmn (c : cmn_cfg)
| Vad (c : vad_cfg)
| SpectralCentroid (c : centroid_cfg)
| TimeStretch (c : stretch_cfg)
| PitchShift (c : pitch_cfg).

(** An [nn.Module]: its kind and configuration, and the device and
    dtype its floating buffers (windows, filter banks) live at. *)
Record transform := {
  tr_kind : transform_kind; tr_device : device; tr_dtype : dtype }.
End Configs.

Arguments spectrogram_cfg : clear implicits.
Arguments istft_cfg : clear implicits.
Arguments griffinlim_cfg : clear implicits.
Arguments todb_cfg : clear implicits.
Arguments melscale_cfg : clear implicits.
Arguments melspec_cfg : clear implicits.
Arguments mfcc_cfg : clear implicits.
Arguments lfcc_cfg : clear implicits.
Arguments resample_cfg : clear implicits.
Arguments vol_cfg : clear implicits.
Arguments vad_cfg : clear implicits.
Arguments stretch_cfg : clear implicits.
Arguments transform_kind : clear implicits.
Arguments transform : clear implicits.

(** ** Construction ([__init__]) and [Module.to] *)

Section Init.
Context {R : Type} `{Scalar R}.

(** A freshly constructed module keeps its buffers on the CPU in the
    default dtype. *)
Definition new_module (k : transform_kind R) : transform R :=
  {| tr_kind := k; tr_device := CPU; tr_dtype := Float32 |}.

Definition half (sr : nat) : R := s_mul (s_of_nat sr) (s_of_dec 5 (-1)).

(** The framing checks shared by every short-time transform: a
    positive frame size, a window no longer than the frame, a positive
    hop.  [win_length] defaults to [n_fft], [hop_length] to
    [win_length / hop_div]. *)
Definition framing (n_fft : nat) (win_length hop_length : option nat)
    (hop_div : nat) : result (nat * nat) :=
  let win := default n_fft win_length in
  let hop := default (win / hop_div) hop_length in
  assert! bool_decide (0 < n_fft) else InvalidConfig "n_fft must be positive";
  assert! bool_decide (0 < win <= n_fft) else InvalidConfig "win_length";
  assert! bool_decide (0 < hop) else InvalidConfig "hop_length must be positive";
  Ok (win, hop).

Definition spectrogram_cfg_init (n_fft : nat) (win_length hop_length : option nat)
    (pad : nat) (window : window_fn) (power : option R)
    (normalized return_complex : bool) : result (spectrogram_cfg R) :=
  '(win, hop) ← framing n_fft win_length hop_length 2;
  Ok {| sp_n_fft := n_fft; sp_win_length := win; sp_hop_length := hop;
        sp_pad := pad; sp_window := window; sp_power := power;
        sp_normalized := normalized; sp_return_complex := return_complex |}.

Definition Spectrogram_init n_fft win_length hop_length pad window power
    normalized return_complex : result (transform R) :=
  new_module ∘ Spectrogram <$>
    spectrogram_cfg_init n_fft win_length hop_length pad window power
      normalized return_complex.

Definition InverseSpectrogram_init (n_fft : nat) (win_length hop_length : option nat)
    (pad : nat) (window : window_fn) (normalized : bool) : result (transform R) :=
  '(win, hop) ← framing n_fft win_length hop_length 2;
  Ok (new_module (InverseSpectrogram
    {| is_n_fft := n_fft; is_win_length := win; is_hop_length := hop;
       is_pad := pad; is_window := window; is_normalized := normalized |})).

Definition GriffinLim_init (n_fft n_iter : nat) (win_length hop_length : option nat)
    (window : window_fn) (power momentum : R) (length : option nat)
    (rand_init : bool) : result (transform R) :=
  assert! s_ltb momentum s_one else InvalidConfig "momentum has to be below 1.";
  assert! negb (s_ltb momentum s_zero) else InvalidConfig "momentum has to be non-negative.";
  '(win, hop) ← framing n_fft win_length hop_length 2;
  Ok (new_module (GriffinLim
    {| gl_n_fft := n_fft; gl_n_iter := n_iter; gl_win_length := win;
       gl_hop_length := hop; gl_window := window; gl_power := power;
       gl_momentum := momentum; gl_length := length; gl_rand_init := rand_init |})).

Definition todb_cfg_init (stype : db_stype) (top_db : option R) : result (todb_cfg R) :=
  match top_db with
  | Some t =>
      assert! negb (s_ltb t s_zero) else InvalidConfig "top_db must be positive value";
      Ok {| db_stype_of := stype; db_top_db := top_db |}
  | None => Ok {| db_stype_of := stype; db_top_db := None |}
  end.

Definition AmplitudeToDB_init (stype : db_stype) (top_db : option R) : result (transform R) :=
  new_module ∘ AmplitudeToDB <$> todb_cfg_init stype top_db.

(** [f_max] defaults to the Nyquist frequency [sample_rate / 2]. *)
Definition melscale_cfg_init (n_mels sample_rate : nat) (f_min : R)
    (f_max : option R) (n_stft : nat) : result (melscale_cfg R) :=
  let fmax := default (half sample_rate) f_max in
  assert! negb (s_ltb fmax f_min) else InvalidConfig "Require f_min <= f_max";
  Ok {| ms_n_mels := n_mels; ms_sample_rate := sample_rate; ms_f_min := f_min;
        ms_f_max := fmax; ms_n_stft := n_stft |}.

Definition MelScale_init n_mels sample_rate f_min f_max n_stft : result (transform R) :=
  new_module ∘ MelScale <$> melscale_cfg_init n_mels sample_rate f_min f_max n_stft.

(** [MelSpectrogram] builds a [Spectrogram] with the given power and a
    [MelScale] over its [n_fft / 2 + 1] frequency bins. *)
Definition melspec_cfg_init (sample_rate n_fft : nat) (win_length hop_length : option nat)
    (f_min : R) (f_max : option R) (pad n_mels : nat) (window : window_fn)
    (power : R) (normalized : bool) : result (melspec_cfg R) :=
  sp ← spectrogram_cfg_init n_fft win_length hop_length pad window (Some power)
         normalized false;
  ms ← melscale_cfg_init n_mels sample_rate f_min f_max (n_fft / 2 + 1);
  Ok {| mel_spectrogram := sp; mel_scale := ms |}.

Definition MelSpectrogram_init sample_rate n_fft win_length hop_length f_min f_max
    pad n_mels window power normalized : result (transform R) :=
  new_module ∘ MelSpectrogram <$>
    melspec_cfg_init sample_rate n_fft win_length hop_length f_min f_max pad
      n_mels window power normalized.

(** The default [MelSpectrogram] at a sample rate, the one [MFCC] and
    [LFCC] build when given no keyword arguments. *)
Definition default_melspec (sample_rate : nat) : result (melspec_cfg R) :=
  melspec_cfg_init sample_rate 400 None None s_zero None 0 128 Hann
    (s_of_dec 2 0) false.

Definition default_spectrogram : result (spectrogram_cfg R) :=
  spectrogram_cfg_init 400 None None 0 Hann (Some (s_of_dec 2 0)) false false.

Definition MFCC_init (sample_rate n_mfcc dct_type : nat) (log_mels : bool)
    : result (transform R) :=
  assert! bool_decide (dct_type = 2) else InvalidConfig "DCT type not supported";
  mel ← default_melspec sample_rate;
  assert! bool_decide (n_mfcc <= ms_n_mels (mel_scale mel))
    else InvalidConfig "Cannot select more MFCC coefficients than # mel bins";
  db ← todb_cfg_init Power (Some (s_of_dec 80 0));
  Ok (new_module (MFCC {| mf_n_mfcc := n_mfcc; mf_log_mels := log_mels;
                          mf_melspec := mel; mf_todb := db |})).

Definition LFCC_init (sample_rate n_filter : nat) (f_min : R) (f_max : option R)
    (n_lfcc dct_type : nat) (log_lf : bool) : result (transform R) :=
  assert! bool_decide (dct_type = 2) else InvalidConfig "DCT type not supported";
  assert! bool_decide (n_lfcc <= n_filter)
    else InvalidConfig "Cannot select more LFCC coefficients than # filter bins";
  let fmax := default (half sample_rate) f_max in
  assert! negb (s_ltb fmax f_min) else InvalidConfig "Require f_min <= f_max";
  sp ← default_spectrogram;
  db ← todb_cfg_init Power (Some (s_of_dec 80 0));
  Ok (new_module (LFCC {| lf_n_lfcc := n_lfcc; lf_n_filter := n_filter;
                          lf_sample_rate := sample_rate; lf_f_min := f_min;
                          lf_f_max := fmax; lf_log_lf := log_lf;
                          lf_spectrogram := sp; lf_todb := db |})).

(** The two rates are reduced by their gcd, as the resampling kernel
    is built for the reduced ratio. *)
Definition Resample_init (orig_freq new_freq lowpass_filter_width : nat)
    (rolloff : R) : result (transform R) :=
  assert! bool_decide (0 < orig_freq /\ 0 < new_freq)
    else InvalidConfig "Original frequency and desired frequency should be positive";
  assert! bool_decide (0 < lowpass_filter_width)
    else InvalidConfig "Low pass filter width should be positive.";
  let g := Nat.gcd orig_freq new_freq in
  Ok (new_module (Resample
    {| rs_orig_freq := orig_freq / g; rs_new_freq := new_freq / g; rs_gcd := g;
       rs_lowpass_filter_width := lowpass_filter_width; rs_rolloff := rolloff |})).

Definition ComplexNorm_init (power : R) : result (transform R) :=
  Ok (new_module (ComplexNorm power)).

Definition MuLawEncoding_init (quantization_channels : nat) : result (transform R) :=
  assert! bool_decide (1 < quantization_channels) else InvalidConfig "quantization_channels";
  Ok (new_module (MuLawEncoding quantization_channels)).

Definition MuLawDecoding_init (quantization_channels : nat) : result (transform R) :=
  assert! bool_decide (1 < quantization_channels) else InvalidConfig "quantization_channels";
  Ok (new_module (MuLawDecoding quantization_channels)).

Definition Fade_init (fade_in_len fade_out_len : nat) (shape : fade_shape)
    : result (transform R) :=
  Ok (new_module (Fade {| fd_in_len := fade_in_len; fd_out_len := fade_out_len;
                          fd_shape := shape |})).

Definition FrequencyMasking_init (freq_mask_param : nat) (iid_masks : bool)
    : result (transform R) :=
  Ok (new_module (FrequencyMasking {| mk_mask_param := freq_mask_param;
                                      mk_iid_masks := iid_masks |})).

Definition TimeMasking_init (time_mask_param : nat) (iid_masks : bool)
    : result (transform R) :=
  Ok (new_module (TimeMasking {| mk_mask_param := time_mask_param;
                                 mk_iid_masks := iid_masks |})).

Definition Vol_init (gain : R) (gt : gain_type) : result (transform R) :=
  assert! negb (bool_decide (gt = Amplitude) && s_ltb gain s_zero)
    else InvalidConfig "If gain_type = amplitude, gain must be positive.";
  Ok (new_module (Vol {| vl_gain := gain; vl_gain_type := gt |})).

Definition SlidingWindowCmn_init (cmn_window min_cmn_window : nat)
    (center norm_vars : bool) : result (transform R) :=
  Ok (new_module (SlidingWindowCmn
    {| cm_cmn_window := cmn_window; cm_min_cmn_window := min_cmn_window;
       cm_center := center; cm_norm_vars := norm_vars |})).

(** [Vad(sample_rate)] with the defaults of the other parameters. *)
Definition Vad_init (sample_rate : nat) : result (transform R) :=
  assert! bool_decide (0 < sample_rate) else InvalidConfig "sample_rate";
  Ok (new_module (Vad
    {| vd_sample_rate := sample_rate; vd_trigger_level := s_of_dec 7 0;
       vd_trigger_time := s_of_dec 25 (-2); vd_search_time := s_of_dec 1 0;
       vd_allowed_gap := s_of_dec 25 (-2); vd_pre_trigger_time := s_zero;
       vd_boot_time := s_of_dec 35 (-2) |})).

Definition SpectralCentroid_init (sample_rate n_fft : nat)
    (win_length hop_length : option nat) (pad : nat) (window : window_fn)
    : result (transform R) :=
  '(win, hop) ← framing n_fft win_length hop_length 2;
  Ok (new_module (SpectralCentroid
    {| ct_sample_rate := sample_rate; ct_n_fft := n_fft; ct_win_length := win;
       ct_hop_length := hop; ct_pad := pad; ct_window := window |})).

(** [hop_length] defaults to half the frame [n_fft = 2 (n_freq - 1)]. *)
Definition TimeStretch_init (hop_length : option nat) (n_freq : nat)
    (fixed_rate : option R) : result (transform R) :=
  let n_fft := (n_freq - 1) * 2 in
  let hop := default (n_fft / 2) hop_length in
  assert! bool_decide (0 < hop) else InvalidConfig "hop_length must be positive";
  Ok (new_module (TimeStretch
    {| ts_n_freq := n_freq; ts_hop_length := hop; ts_fixed_rate := fixed_rate |})).

(** [PitchShift]'s hop defaults to a quarter of the window. *)
Definition PitchShift_init (sample_rate : nat) (n_steps : Z)
    (bins_per_octave n_fft : nat) (win_length hop_length : option nat)
    (window : window_fn) : result (transform R) :=
  assert! bool_decide (0 < bins_per_octave) else InvalidConfig "bins_per_octave";
  '(win, hop) ← framing n_fft win_length hop_length 4;
  Ok (new_module (PitchShift
    {| ps_sample_rate := sample_rate; ps_n_steps := n_steps;
       ps_bins_per_octave := bins_per_octave; ps_n_fft := n_fft;
       ps_win_length := win; ps_hop_length := hop; ps_window := window |})).

(** [transform.to(device=dev, dtype=d)]: [nn.Module.to] only accepts
    floating point or complex dtypes. *)
Definition module_to (dev : device) (d : dtype) (t : transform R) : result (transform R) :=
  assert! is_floating_dtype d || is_complex_dtype d
    else TypeError "nn.Module.to only accepts floating point or complex dtypes";
  Ok {| tr_kind := tr_kind t; tr_device := dev; tr_dtype := d |}.
End Init.

(** ** Construction checks *)

Section InitLemmas.
Context {R : Type} `{Scalar R}.

(** The framing of every short-time transform: it succeeds exactly
    when the frame is positive, the window fits in it and the hop is
    positive, and then returns the defaulted window and hop. *)
Lemma framing_Ok (n_fft : nat) (win_length hop_length : option nat) (hop_div win hop : nat) :
  framing n_fft win_length hop_length hop_div = Ok (win, hop) <->
  win = default n_fft win_length /\ hop = default (win / hop_div) hop_length
  /\ 0 < n_fft /\ 0 < win <= n_fft /\ 0 < hop.
Proof.
  unfold framing, ensure.
  repeat case_bool_decide; simpl; split; intros; destruct_and?; simplify_eq; try done;
    subst; try lia.
Qed.

End InitLemmas.
