(* ===== verification/Kernels.v ===== *)
(** * The numeric kernels and the random source

    The spec leaves the bodies of the signal-processing algorithms out of
    scope (section 2: "excluding DSP algorithm bodies themselves, which
    are external-library-grade").  This file states, as type classes,
    what the transforms require of them: [Dsp] gives the kernel of each
    algorithm on one batch element, [Rng] the global generator that
    [torch.rand] draws from.  The transforms of [Apply] are written
    against these interfaces, so every theorem about them holds for any
    implementation of the kernels and of the generator. *)

From stdpp Require Import base list gmap strings.
From S2P Require Import Prelude Tensor Catalog.

#[local] Set Warnings "-abstract-large-number".

(** [dsp_stft] maps one padded signal to its [n_fft / 2 + 1] by
    [frames] complex spectrum (frequency-major); [dsp_istft] maps a
    complex spectrum with [T] frames back to a signal; [dsp_melscale],
    [dsp_linear_fb] and [dsp_dct] multiply a [F] by [T] matrix by the
    filter bank or the DCT matrix the configuration determines;
    [dsp_griffinlim] starts from the given initial phases;
    [dsp_fade_curve shape true n] is the fade-in ramp of length [n],
    [false] the fade-out ramp; [dsp_stretch_frames rate T] is the number
    of frames [torch.arange(0, T, rate)] has. *)
Class Dsp (R : Type) := {
  dsp_stft : spectrogram_cfg R -> list R -> list (R * R);
  dsp_istft : istft_cfg -> nat -> list (R * R) -> list R;
  dsp_griffinlim : griffinlim_cfg R -> nat -> nat -> list R -> list (R * R) -> list R;
  dsp_magnitude : R -> R * R -> R;
  dsp_to_db : todb_cfg R -> list R -> list R;
  dsp_melscale : melscale_cfg R -> nat -> list R -> list R;
  dsp_linear_fb : lfcc_cfg R -> nat -> list R -> list R;
  dsp_dct : nat -> nat -> nat -> list R -> list R;
  dsp_log_offset : R -> R;
  dsp_resample : resample_cfg R -> list R -> list R;
  dsp_mulaw_encode : nat -> R -> R;
  dsp_mulaw_decode : nat -> R -> R;
  dsp_fade_curve : fade_shape -> bool -> nat -> list R;
  dsp_gain_factor : gain_type -> R -> R;
  dsp_cmn : cmn_cfg -> nat -> list R -> list R;
  dsp_vad_start : vad_cfg R -> list (list R) -> nat;
  dsp_centroid : centroid_cfg -> list R -> list R;
  dsp_stretch_frames : R -> nat -> nat;
  dsp_phase_vocoder : R -> nat -> nat -> nat -> list (R * R) -> list (R * R);
  dsp_pitch_shift : pitch_cfg -> list R -> list R;
}.

(** [torch.rand(1)]: one uniform draw in [[0, 1)] from the global
    generator state [G], and the state after it. *)
Class Rng (R G : Type) := { rng_rand : G -> R * G }.

Section Draws.
Context {R G : Type} `{Rng R G}.

(** [torch.rand(n)]: [n] draws in order. *)
Fixpoint rng_rands (n : nat) (g : G) : list R * G :=
  match n with
  | 0 => ([], g)
  | S n' => let '(x, g1) := rng_rand g in
            let '(xs, g2) := rng_rands n' g1 in (x :: xs, g2)
  end.

Lemma length_rng_rands (n : nat) (g : G) : length (rng_rands n g).1 = n.
Proof.
  revert g; induction n as [|n IH]; intros g; simpl; [done|].
  destruct (rng_rand g) as [x g1]. specialize (IH g1).
  destruct (rng_rands n g1) as [xs g2]. simpl in *. by rewrite IH.
Qed.
End Draws.

(** ** The test fixtures of [torchaudio_unittest.common_utils]

    The collaborators of the test module that produce its inputs:
    [get_whitenoise(sample_rate=sr)] (one channel, one second, from a
    fixed seed), [get_spectrogram(tensor, n_fft, hop_length)],
    [get_asset_path(name)] and [load_wav(path)]. *)
Class Fixtures (R : Type) := {
  get_whitenoise : nat -> tensor R;
  get_spectrogram : tensor R -> nat -> nat -> tensor R;
  get_asset_path : string -> string;
  load_wav : string -> tensor R * nat;
}.

(** ** Size laws of the kernels

    What the shape rules of the transforms rely on: each kernel returns
    as many values as the output block it computes has. *)
Class DspLaws (R : Type) `{Dsp R} := {
  dsp_stft_length : forall c xs, sp_n_fft c <= length xs ->
    length (dsp_stft c xs)
    = (sp_n_fft c / 2 + 1) * (1 + (length xs - sp_n_fft c) / sp_hop_length c);
  dsp_istft_length : forall c t zs,
    length (dsp_istft c t zs) = is_n_fft c + is_hop_length c * (t - 1) - 2 * is_pad c;
  dsp_melscale_length : forall c t xs, length xs = ms_n_stft c * t ->
    length (dsp_melscale c t xs) = ms_n_mels c * t;
  dsp_dct_length : forall n_in n_out t xs, length xs = n_in * t ->
    length (dsp_dct n_in n_out t xs) = n_out * t;
  dsp_to_db_length : forall c xs, length (dsp_to_db c xs) = length xs;
  dsp_fade_curve_length : forall s b n, length (dsp_fade_curve s b n) = n;
  dsp_cmn_length : forall c t xs, length (dsp_cmn c t xs) = length xs;
  dsp_resample_length : forall c xs,
    length (dsp_resample c xs)
    = (rs_new_freq c * length xs + rs_orig_freq c - 1) / rs_orig_freq c;
  dsp_pitch_shift_length : forall c xs, length (dsp_pitch_shift c xs) = length xs;
  dsp_linear_fb_length : forall c t xs,
    length xs = (sp_n_fft (lf_spectrogram c) / 2 + 1) * t ->
    length (dsp_linear_fb c t xs) = lf_n_filter c * t;
  dsp_griffinlim_length : forall c f t xs ph,
    length (dsp_griffinlim c f t xs ph)
    = default (gl_n_fft c + gl_hop_length c * (t - 1)) (gl_length c);
  dsp_centroid_length : forall c xs, ct_n_fft c <= length xs ->
    length (dsp_centroid c xs) = 1 + (length xs - ct_n_fft c) / ct_hop_length c;
  dsp_phase_vocoder_length : forall rate hop f t zs, length zs = f * t ->
    length (dsp_phase_vocoder rate hop f t zs) = f * dsp_stretch_frames rate t;
}.

(** ** What the tests rely on of the fixtures

    [get_whitenoise(sample_rate=sr)] is one channel of one second of
    [float32] samples on the CPU: a [1] by [sr] real tensor.
    [get_spectrogram(get_whitenoise(...), n_fft, hop_length)] is the
    [complex64] spectrogram of that channel: [n_fft / 2 + 1] bins by at
    least one frame.  [load_wav] of the asset
    [vad-go-mono-32000.wav] is one channel of [float32] samples at
    32 kHz. *)
Class FixtureLaws (R : Type) `{Fixtures R} := {
  get_whitenoise_shape : forall sr, exists xs,
    get_whitenoise sr = mk_tensor [1; sr] Float32 CPU (SReal xs) /\ length xs = sr;
  get_spectrogram_shape : forall sr n_fft hop, exists t zs,
    get_spectrogram (get_whitenoise sr) n_fft hop
    = mk_tensor [1; n_fft / 2 + 1; t] Complex64 CPU (SCplx zs)
    /\ length zs = (n_fft / 2 + 1) * t /\ 0 < t;
  load_wav_vad_shape : exists n xs,
    load_wav (get_asset_path "vad-go-mono-32000.wav")
    = (mk_tensor [1; n] Float32 CPU (SReal xs), 32000) /\ length xs = n;
}.
