(* ===== verification/Instances.v ===== *)
(** * Reference instances of the interfaces

    An executable model of the runtime, used to evaluate the harness on
    concrete inputs (with the fixed-point scalars of [Tensor]): the
    kernels return blocks of the sizes their laws state, and the global
    generator replays a list of pre-drawn uniforms (in thousandths).
    None of the theorems of the development assume these instances;
    only the witnesses use them. *)

From stdpp Require Import base list gmap strings.
From S2P Require Import Prelude Tensor Catalog Kernels.

(** ** Kernels returning blocks of the right sizes *)

#[export] Instance size_dsp : Dsp Z := {
  dsp_stft c xs :=
    replicate ((sp_n_fft c / 2 + 1) * (1 + (length xs - sp_n_fft c) / sp_hop_length c))
      (0%Z, 0%Z);
  dsp_istft c t zs := replicate (is_n_fft c + is_hop_length c * (t - 1) - 2 * is_pad c) 0%Z;
  dsp_griffinlim c f t xs ph :=
    replicate (default (gl_n_fft c + gl_hop_length c * (t - 1)) (gl_length c)) 0%Z;
  dsp_magnitude _ z := Z.abs z.1;
  dsp_to_db _ xs := xs;
  dsp_melscale c t _ := replicate (ms_n_mels c * t) 0%Z;
  dsp_linear_fb c t _ := replicate (lf_n_filter c * t) 0%Z;
  dsp_dct _ n_out t _ := replicate (n_out * t) 0%Z;
  dsp_log_offset x := x;
  dsp_resample c xs :=
    replicate ((rs_new_freq c * length xs + rs_orig_freq c - 1) / rs_orig_freq c) 0%Z;
  dsp_mulaw_encode _ x := x;
  dsp_mulaw_decode _ x := x;
  dsp_fade_curve _ _ n := replicate n 1000%Z;
  dsp_gain_factor _ g := g;
  dsp_cmn _ _ xs := xs;
  dsp_vad_start _ _ := 0;
  dsp_centroid c xs := replicate (1 + (length xs - ct_n_fft c) / ct_hop_length c) 0%Z;
  dsp_stretch_frames _ t := t;
  dsp_phase_vocoder _ _ _ _ zs := zs;
  dsp_pitch_shift _ xs := xs;
}.

#[export] Instance size_dsp_laws : DspLaws Z.
Proof.
  split; intros; simpl; rewrite ?length_replicate; auto.
Qed.

(** ** A replayed generator and fixtures of zeros *)

#[export] Instance list_rng : Rng Z (list Z) := {
  rng_rand g := match g with u :: g' => (u, g') | [] => (0%Z, []) end;
}.

#[export] Instance zero_fixtures : Fixtures Z := {
  get_whitenoise sr := mk_tensor [1; sr] Float32 CPU (SReal (replicate sr 0%Z));
  get_spectrogram x n_fft hop := mk_tensor [1; n_fft / 2 + 1; 1] Complex64 CPU
                                   (SCplx (replicate (n_fft / 2 + 1) (0%Z, 0%Z)));
  get_asset_path name := name;
  load_wav _ := (mk_tensor [1; 1] Float32 CPU (SReal [0%Z]), 32000);
}.

#[export] Instance zero_fixtures_laws : FixtureLaws Z.
Proof.
  split.
  - intros sr. eexists; split; [reflexivity | apply length_replicate].
  - intros sr n_fft hop. exists 1, (replicate (n_fft / 2 + 1) (0%Z, 0%Z)).
    rewrite length_replicate. split_and!; [reflexivity | lia | lia].
  - by exists 1, [0%Z].
Qed.
