(* ===== verification/Apply.v ===== *)
(** * Applying a transform ([forward], spec section 4.2)

    The [forward] of every transform of the catalog: the input checks
    ([InvalidInput]), the layout of the batch (every dimension before
    the ones a transform consumes is a batch dimension), the output
    shape and dtype rules, the pseudo-complex inputs, and the draws from
    the global generator of the randomised transforms.  The numeric work
    on one batch element is the kernel of [Kernels.Dsp]. *)

From stdpp Require Import base list gmap strings.
From S2P Require Import Prelude Tensor Catalog Kernels.

(** ** Batches and shapes *)

Section Chunks.
Context {A : Type}.

(** [k] consecutive blocks of [n] elements. *)
Fixpoint chunks (k n : nat) (xs : list A) : list (list A) :=
  match k with
  | 0 => []
  | S k' => take n xs :: chunks k' n (drop n xs)
  end.

Definition batched {B} (f : list A -> list B) (k n : nat) (xs : list A) : list B :=
  concat (f <$> chunks k n xs).

Lemma concat_chunks (k n : nat) (xs : list A) :
  length xs = k * n -> concat (chunks k n xs) = xs.
Proof.
  revert xs; induction k as [|k IH]; intros xs Hl; simpl.
  - by destruct xs.
  - rewrite IH by (rewrite length_drop; lia). apply take_drop.
Qed.

Lemma length_chunks (k n : nat) (xs : list A) : length (chunks k n xs) = k.
Proof. revert xs; induction k; intros; simpl; auto. Qed.

Lemma chunks_length (k n : nat) (xs : list A) (c : list A) :
  length xs = k * n -> c ∈ chunks k n xs -> length c = n.
Proof.
  revert xs; induction k as [|k IH]; intros xs Hl Hc; simpl in Hc;
    [by apply not_elem_of_nil in Hc|].
  apply elem_of_cons in Hc as [->|Hc]; [rewrite length_take; lia|].
  apply (IH (drop n xs)); [rewrite length_drop; lia | done].
Qed.
End Chunks.

Definition split_last1 (s : list nat) : result (list nat * nat) :=
  match last s with
  | Some n => Ok (removelast s, n)
  | None => Err (InvalidInput "expected at least one dimension")
  end.

Definition split_last2 (s : list nat) : result (list nat * nat * nat) :=
  '(s', t) ← split_last1 s;
  '(pre, f) ← split_last1 s';
  Ok (pre, f, t).

Lemma split_last1_snoc (pre : list nat) (n : nat) : split_last1 (pre ++ [n]) = Ok (pre, n).
Proof. unfold split_last1. by rewrite last_app, removelast_last. Qed.

Lemma split_last2_snoc (pre : list nat) (f t : nat) :
  split_last2 (pre ++ [f; t]) = Ok (pre, f, t).
Proof.
  unfold split_last2. replace (pre ++ [f; t]) with ((pre ++ [f]) ++ [t])
    by by rewrite <- app_assoc.
  rewrite split_last1_snoc. simpl. by rewrite split_last1_snoc.
Qed.

#[export] Hint Rewrite split_last1_snoc split_last2_snoc : audio_rw.

(** The number of frames of a short-time analysis of [len] samples. *)
Definition n_frames (n_fft hop len : nat) : nat := 1 + (len - n_fft) / hop.

Section Stages.
Context {R : Type} `{Scalar R} `{Dsp R}.

Definition real_data (x : tensor R) : result (list R) :=
  match t_data x with
  | SReal xs => Ok xs
  | SCplx _ => Err (InvalidInput "expected a real tensor")
  end.

Definition cplx_data (x : tensor R) : result (list (R * R)) :=
  match t_data x with
  | SCplx zs => Ok zs
  | SReal _ => Err (InvalidInput "expected a complex tensor")
  end.

(** A complex input, or the complex tensor of a pseudo-complex input
    (with [true] recording that the input was pseudo-complex). *)
Definition as_complex (x : tensor R) : result (tensor R * bool) :=
  match t_data x with
  | SCplx _ => Ok (x, false)
  | SReal _ => c ← view_as_complex x; Ok (c, true)
  end.

Definition pad_signal (pad : nat) (xs : list R) : list R :=
  replicate pad s_zero ++ xs ++ replicate pad s_zero.

(** An elementwise stage on a real tensor. *)
Definition map_real (f : R -> R) (x : tensor R) : result (tensor R) :=
  xs ← real_data x;
  make (t_shape x) (t_dtype x) (t_device x) (SReal (f <$> xs)).

(** A stage that maps every [f_in] by [T] matrix of the batch to an
    [f_out] by [T] matrix. *)
Definition mat_stage (kern : nat -> list R -> list R) (f_in f_out : nat)
    (x : tensor R) : result (tensor R) :=
  xs ← real_data x;
  '(pre, f, t) ← split_last2 (t_shape x);
  assert! bool_decide (f = f_in) else InvalidInput "unexpected number of frequency bins";
  make (pre ++ [f_out; t]) (t_dtype x) (t_device x)
    (SReal (batched (kern t) (numel pre) (f * t) xs)).

Definition spectrogram_fwd (c : spectrogram_cfg R) (x : tensor R) : result (tensor R) :=
  xs ← real_data x;
  '(pre, len) ← split_last1 (t_shape x);
  let plen := len + 2 * sp_pad c in
  assert! bool_decide (sp_n_fft c <= plen) else InvalidInput "input is shorter than n_fft";
  let frames := n_frames (sp_n_fft c) (sp_hop_length c) plen in
  let bins := sp_n_fft c / 2 + 1 in
  let spec := batched (fun sg => dsp_stft c (pad_signal (sp_pad c) sg)) (numel pre) len xs in
  match sp_power c with
  | Some p =>
      make (pre ++ [bins; frames]) (t_dtype x) (t_device x) (SReal (dsp_magnitude p <$> spec))
  | None =>
      if sp_return_complex c
      then make (pre ++ [bins; frames]) (complex_of_dtype (t_dtype x)) (t_device x) (SCplx spec)
      else make (pre ++ [bins; frames; 2]) (t_dtype x) (t_device x) (SReal (unpair spec))
  end.

(** The inverse analysis: a complex (or pseudo-complex) [F] by [T]
    spectrum with [F = n_fft / 2 + 1] gives [n_fft + hop (T - 1)]
    samples by overlap-add, less the padding. *)
Definition istft_fwd (c : istft_cfg) (x : tensor R) : result (tensor R) :=
  '(z, _) ← as_complex x;
  zs ← cplx_data z;
  '(pre, f, t) ← split_last2 (t_shape z);
  assert! bool_decide (f = is_n_fft c / 2 + 1) else InvalidInput "unexpected number of frequency bins";
  assert! bool_decide (0 < t) else InvalidInput "no frame";
  let len := is_n_fft c + is_hop_length c * (t - 1) - 2 * is_pad c in
  make (pre ++ [len]) (real_part_dtype (t_dtype z)) (t_device z)
    (SReal (batched (dsp_istft c t) (numel pre) (f * t) zs)).

Definition todb_fwd (c : todb_cfg R) (x : tensor R) : result (tensor R) :=
  xs ← real_data x;
  make (t_shape x) (t_dtype x) (t_device x) (SReal (dsp_to_db c xs)).

Definition melscale_fwd (c : melscale_cfg R) : tensor R -> result (tensor R) :=
  mat_stage (dsp_melscale c) (ms_n_stft c) (ms_n_mels c).

Definition melspec_fwd (c : melspec_cfg R) (x : tensor R) : result (tensor R) :=
  spectrogram_fwd (mel_spectrogram c) x ≫= melscale_fwd (mel_scale c).

(** [MFCC]: mel spectrogram, then its logarithm ([log_mels]) or its
    decibels, then the DCT over the mel axis. *)
Definition mfcc_fwd (c : mfcc_cfg R) (x : tensor R) : result (tensor R) :=
  mel ← melspec_fwd (mf_melspec c) x;
  mel' ← (if mf_log_mels c then map_real dsp_log_offset mel else todb_fwd (mf_todb c) mel);
  let n_mels := ms_n_mels (mel_scale (mf_melspec c)) in
  mat_stage (dsp_dct n_mels (mf_n_mfcc c)) n_mels (mf_n_mfcc c) mel'.

Definition lfcc_fwd (c : lfcc_cfg R) (x : tensor R) : result (tensor R) :=
  spec ← spectrogram_fwd (lf_spectrogram c) x;
  lin ← mat_stage (dsp_linear_fb c) (sp_n_fft (lf_spectrogram c) / 2 + 1) (lf_n_filter c) spec;
  lin' ← (if lf_log_lf c then map_real dsp_log_offset lin else todb_fwd (lf_todb c) lin);
  mat_stage (dsp_dct (lf_n_filter c) (lf_n_lfcc c)) (lf_n_filter c) (lf_n_lfcc c) lin'.
End Stages.

Section MoreStages.
Context {R : Type} `{Scalar R} `{Dsp R}.

(** [Resample]: the input is returned as it is when the two rates
    agree; otherwise each signal of [len] samples becomes
    [ceil (new * len / orig)] samples. *)
Definition resample_fwd (c : resample_cfg R) (x : tensor R) : result (tensor R) :=
  if decide (rs_orig_freq c = rs_new_freq c) then Ok x else
  xs ← real_data x;
  '(pre, len) ← split_last1 (t_shape x);
  let out_len := (rs_new_freq c * len + rs_orig_freq c - 1) / rs_orig_freq c in
  make (pre ++ [out_len]) (t_dtype x) (t_device x)
    (SReal (batched (dsp_resample c) (numel pre) len xs)).

Definition complexnorm_fwd (power : R) (x : tensor R) : result (tensor R) :=
  '(z, _) ← as_complex x;
  zs ← cplx_data z;
  make (t_shape z) (real_part_dtype (t_dtype z)) (t_device z)
    (SReal (dsp_magnitude power <$> zs)).

(** The encoder outputs [int64] codes. *)
Definition mulaw_encode_fwd (qc : nat) (x : tensor R) : result (tensor R) :=
  xs ← real_data x;
  make (t_shape x) Int64 (t_device x) (SReal (dsp_mulaw_encode qc <$> xs)).

(** The decoder turns integer codes into [float32] first. *)
Definition mulaw_decode_fwd (qc : nat) (x : tensor R) : result (tensor R) :=
  xs ← real_data x;
  let d := if decide (t_dtype x = Int64) then Float32 else t_dtype x in
  make (t_shape x) d (t_device x) (SReal (dsp_mulaw_decode qc <$> xs)).

(** The envelope of [Fade]: the fade-in ramp then ones, times ones
    then the fade-out ramp. *)
Definition fade_envelope (c : fade_cfg) (len : nat) : list R :=
  zip_with s_mul
    (dsp_fade_curve (fd_shape c) true (fd_in_len c) ++ replicate (len - fd_in_len c) s_one)
    (replicate (len - fd_out_len c) s_one ++ dsp_fade_curve (fd_shape c) false (fd_out_len c)).

Definition fade_fwd (c : fade_cfg) (x : tensor R) : result (tensor R) :=
  xs ← real_data x;
  '(pre, len) ← split_last1 (t_shape x);
  assert! bool_decide (fd_in_len c <= len /\ fd_out_len c <= len)
    else InvalidInput "fade longer than the waveform";
  let env := fade_envelope c len in
  make (t_shape x) (t_dtype x) (t_device x)
    (SReal (batched (fun sg => zip_with s_mul sg env) (numel pre) len xs)).

(** [Vol]: every sample times the gain (amplitude), or times the
    factor a gain in decibels or in power stands for. *)
Definition gain_factor (c : vol_cfg R) : R :=
  match vl_gain_type c with
  | Amplitude => vl_gain c
  | gt => dsp_gain_factor gt (vl_gain c)
  end.

Definition scale_storage (k : R) (st : storage R) : storage R :=
  match st with
  | SReal xs => SReal ((fun v => s_mul v k) <$> xs)
  | SCplx zs => SCplx ((fun z => (s_mul z.1 k, s_mul z.2 k)) <$> zs)
  end.

Definition vol_fwd (c : vol_cfg R) (x : tensor R) : result (tensor R) :=
  make (t_shape x) (t_dtype x) (t_device x) (scale_storage (gain_factor c) (t_data x)).

Definition cmn_fwd (c : cmn_cfg) (x : tensor R) : result (tensor R) :=
  xs ← real_data x;
  '(pre, t, f) ← split_last2 (t_shape x);
  make (t_shape x) (t_dtype x) (t_device x)
    (SReal (batched (dsp_cmn c t) (numel pre) (t * f) xs)).

(** [Vad] trims, from every signal, the samples before the trigger
    point the detector finds over all of them. *)
Definition vad_fwd (c : vad_cfg R) (x : tensor R) : result (tensor R) :=
  xs ← real_data x;
  '(pre, len) ← split_last1 (t_shape x);
  let sigs := chunks (numel pre) len xs in
  let start := min len (dsp_vad_start c sigs) in
  make (pre ++ [len - start]) (t_dtype x) (t_device x)
    (SReal (concat (drop start <$> sigs))).

Definition centroid_fwd (c : centroid_cfg) (x : tensor R) : result (tensor R) :=
  xs ← real_data x;
  '(pre, len) ← split_last1 (t_shape x);
  let plen := len + 2 * ct_pad c in
  assert! bool_decide (ct_n_fft c <= plen) else InvalidInput "input is shorter than n_fft";
  make (pre ++ [n_frames (ct_n_fft c) (ct_hop_length c) plen]) (t_dtype x) (t_device x)
    (SReal (batched (fun sg => dsp_centroid c (pad_signal (ct_pad c) sg)) (numel pre) len xs)).

(** [TimeStretch] at its fixed rate; a pseudo-complex input gives a
    pseudo-complex output. *)
Definition stretch_fwd (c : stretch_cfg R) (x : tensor R) : result (tensor R) :=
  rate ← of_option (InvalidInput
    "If no fixed_rate is specified, must pass a valid rate to the forward method.")
    (ts_fixed_rate c);
  '(z, pseudo) ← as_complex x;
  zs ← cplx_data z;
  '(pre, f, t) ← split_last2 (t_shape z);
  assert! bool_decide (f = ts_n_freq c) else InvalidInput "unexpected number of frequency bins";
  let t' := dsp_stretch_frames rate t in
  y ← make (pre ++ [f; t']) (t_dtype z) (t_device z)
        (SCplx (batched (dsp_phase_vocoder rate (ts_hop_length c) f t) (numel pre) (f * t) zs));
  if (pseudo : bool) then view_as_real y else Ok y.

Definition pitch_fwd (c : pitch_cfg) (x : tensor R) : result (tensor R) :=
  xs ← real_data x;
  '(pre, len) ← split_last1 (t_shape x);
  make (t_shape x) (t_dtype x) (t_device x)
    (SReal (batched (dsp_pitch_shift c) (numel pre) len xs)).
End MoreStages.

(** ** The randomised transforms *)

Section Random.
Context {R G : Type} `{Scalar R} `{Dsp R} `{Rng R G}.

(** The band [[start, stop)] a mask covers along an axis of [size]
    entries, from two uniform draws [u1] and [u2]: the width is
    [u1 * mask_param], the start [u2 * (size - width)], both truncated
    toward zero. *)
Definition band_of (mask_param size : nat) (u1 u2 : R) : Z * Z :=
  let value := s_mul u1 (s_of_nat mask_param) in
  let min_value := s_mul u2 (s_sub (s_of_nat size) value) in
  (s_trunc min_value, (s_trunc min_value + s_trunc value)%Z).

Definition in_band (band : Z * Z) (i : nat) : bool :=
  bool_decide (band.1 <= Z.of_nat i < band.2)%Z.

(** Fill, in one [f] by [t] matrix, the rows (axis 1) or the columns
    (axis 2) in the band with [fill]. *)
Definition mask_block (axis f t : nat) (band : Z * Z) (fill : R) (blk : list R) : list R :=
  concat (imap (fun i row =>
            if decide (axis = 1)
            then (if in_band band i then replicate (length row) fill else row)
            else imap (fun j v => if in_band band j then fill else v) row)
          (chunks f t blk)).

(** [_AxisMasking.forward]: with [iid_masks] on a 4-dimensional input
    every [f] by [t] matrix draws its own band (all widths first, then
    all starts); otherwise one band, drawn once, masks every matrix of
    the batch, and the width is asserted to stay below [mask_param]. *)
Definition masking_fwd (c : masking_cfg) (axis : nat) (x : tensor R) (g : G)
    : result (tensor R * G) :=
  xs ← real_data x;
  '(pre, f, t) ← split_last2 (t_shape x);
  let size := if decide (axis = 1) then f else t in
  let param := mk_mask_param c in
  if mk_iid_masks c && bool_decide (length (t_shape x) = 4) then
    let n := numel pre in
    let '(u1s, g1) := rng_rands n g in
    let '(u2s, g2) := rng_rands n g1 in
    let bands := zip_with (band_of param size) u1s u2s in
    y ← make (t_shape x) (t_dtype x) (t_device x)
          (SReal (concat (zip_with (fun b blk => mask_block axis f t b s_zero blk)
                                   bands (chunks n (f * t) xs))));
    Ok (y, g2)
  else
    let '(u1, g1) := rng_rand g in
    let '(u2, g2) := rng_rand g1 in
    let band := band_of param size u1 u2 in
    assert! bool_decide (band.2 - band.1 < Z.of_nat param)%Z else AssertionError;
    y ← make (t_shape x) (t_dtype x) (t_device x)
          (SReal (batched (mask_block axis f t band s_zero) (numel pre) (f * t) xs));
    Ok (y, g2).

(** [GriffinLim]: the initial phases are [torch.rand] draws of the
    complex dtype (two reals per bin) when [rand_init], and [1 + 0j]
    otherwise; the iterations then start from them. *)
Definition griffinlim_init (c : griffinlim_cfg R) (n : nat) (g : G) : list R * G :=
  if gl_rand_init c then rng_rands (2 * n) g
  else (unpair (replicate n (s_one, s_zero)), g).

Definition griffinlim_core (c : griffinlim_cfg R) (x : tensor R) (draws : list R)
    : result (tensor R) :=
  xs ← real_data x;
  '(pre, f, t) ← split_last2 (t_shape x);
  assert! bool_decide (f = gl_n_fft c / 2 + 1) else InvalidInput "unexpected number of frequency bins";
  assert! bool_decide (0 < t) else InvalidInput "no frame";
  phases ← of_option ShapeMismatch (pairup draws);
  let len := default (gl_n_fft c + gl_hop_length c * (t - 1)) (gl_length c) in
  let k := numel pre in
  make (pre ++ [len]) (t_dtype x) (t_device x)
    (SReal (concat (zip_with (dsp_griffinlim c f t) (chunks k (f * t) xs)
                             (chunks k (f * t) phases)))).

Definition griffinlim_fwd (c : griffinlim_cfg R) (x : tensor R) (g : G)
    : result (tensor R * G) :=
  let '(draws, g') := griffinlim_init c (numel (t_shape x)) g in
  (fun y => (y, g')) <$> griffinlim_core c x draws.
End Random.

(** ** [forward] *)

Section Forward.
Context {R G : Type} `{Scalar R} `{Dsp R} `{Rng R G}.

(** The transforms whose module holds floating buffers (windows,
    filter banks, DCT matrices, phase advances). *)
Definition has_buffers (k : transform_kind R) : bool :=
  match k with
  | Spectrogram _ | InverseSpectrogram _ | GriffinLim _ | MelScale _
  | MelSpectrogram _ | MFCC _ | LFCC _ | Resample _ | SpectralCentroid _
  | TimeStretch _ | PitchShift _ => true
  | _ => false
  end.

(** The buffers must sit on the input's device and have the dtype of
    the input's components. *)
Definition check_buffers (m : transform R) (x : tensor R) : result unit :=
  if has_buffers (tr_kind m) then
    assert! bool_decide (t_device x = tr_device m) else DeviceMismatch;
    ensure (bool_decide (real_part_dtype (t_dtype x) = tr_dtype m))
      (InvalidInput "the input and the module buffers have different dtypes")
  else Ok tt.

(** [transform(tensor)]: the buffer checks, then the kind's forward;
    the generator state is threaded through the randomised transforms
    and left as it is by the others. *)
Definition forward (m : transform R) (x : tensor R) (g : G) : result (tensor R * G) :=
  check_buffers m x;;
  let keep (y : result (tensor R)) := (fun t => (t, g)) <$> y in
  match tr_kind m with
  | Spectrogram c => keep (spectrogram_fwd c x)
  | InverseSpectrogram c => keep (istft_fwd c x)
  | GriffinLim c => griffinlim_fwd c x g
  | AmplitudeToDB c => keep (todb_fwd c x)
  | MelScale c => keep (melscale_fwd c x)
  | MelSpectrogram c => keep (melspec_fwd c x)
  | MFCC c => keep (mfcc_fwd c x)
  | LFCC c => keep (lfcc_fwd c x)
  | Resample c => keep (resample_fwd c x)
  | ComplexNorm p => keep (complexnorm_fwd p x)
  | MuLawEncoding qc => keep (mulaw_encode_fwd qc x)
  | MuLawDecoding qc => keep (mulaw_decode_fwd qc x)
  | Fade c => keep (fade_fwd c x)
  | FrequencyMasking c => masking_fwd c 1 x g
  | TimeMasking c => masking_fwd c 2 x g
  | Vol c => keep (vol_fwd c x)
  | SlidingWindowCmn c => keep (cmn_fwd c x)
  | Vad c => keep (vad_fwd c x)
  | SpectralCentroid c => keep (centroid_fwd c x)
  | TimeStretch c => keep (stretch_fwd c x)
  | PitchShift c => keep (pitch_fwd c x)
  end.
End Forward.

(** ** The generator and the deterministic transforms *)

Section Determinism.
Context {R G : Type} `{Scalar R} `{Dsp R} `{Rng R G}.

(** The transforms that draw from the global generator: the maskings,
    and [GriffinLim] with a random initial phase. *)
Definition randomised (k : transform_kind R) : bool :=
  match k with
  | GriffinLim c => gl_rand_init c
  | FrequencyMasking _ | TimeMasking _ => true
  | _ => false
  end.

Lemma keep_rng {A B} (r : result A) (g1 g2 : B) :
  (fun t => (t, g1)) <$> r = (fun p => (p.1, g1)) <$> ((fun t => (t, g2)) <$> r).
Proof. by destruct r. Qed.

(** A transform that is not randomised neither reads nor changes the
    generator state. *)
Lemma forward_rng_indep (m : transform R) (x : tensor R) (g1 g2 : G) :
  randomised (tr_kind m) = false ->
  forward m x g1 = (fun p => (p.1, g1)) <$> forward m x g2.
Proof.
  intros Hr. unfold forward. destruct (check_buffers m x); simpl; [|done].
  destruct (tr_kind m); simpl in Hr; try discriminate; try apply keep_rng.
  unfold griffinlim_fwd, griffinlim_init. rewrite Hr. apply keep_rng.
Qed.
End Determinism.

Section BatchLemmas.
Context {A B : Type}.

(** Applying a kernel that maps every block of [n] values to [m]
    values to [k] blocks gives [k * m] values. *)
Lemma length_batched (f : list A -> list B) (k n m : nat) (xs : list A) :
  (forall c, length c = n -> length (f c) = m) ->
  length xs = k * n -> length (batched f k n xs) = k * m.
Proof.
  intros Hf. unfold batched. revert xs; induction k as [|k IH]; intros xs Hl; simpl; [done|].
  rewrite length_app, Hf, IH; [lia| rewrite length_drop; lia | rewrite length_take; lia].
Qed.
End BatchLemmas.

Section MakeLemmas.
Context {R : Type} `{Scalar R}.

Lemma make_real_Ok (shape : list nat) (d : dtype) (dev : device) (xs : list R) :
  is_complex_dtype d = false -> length xs = numel shape ->
  make shape d dev (SReal xs) = Ok (mk_tensor shape d dev (SReal xs)).
Proof.
  intros Hd Hl. unfold make, ensure. simpl. rewrite Hd, Hl, Nat.eqb_refl. done.
Qed.

Lemma make_cplx_Ok (shape : list nat) (d : dtype) (dev : device) (zs : list (R * R)) :
  is_complex_dtype d = true -> length zs = numel shape ->
  make shape d dev (SCplx zs) = Ok (mk_tensor shape d dev (SCplx zs)).
Proof.
  intros Hd Hl. unfold make, ensure. simpl. rewrite Hd, Hl, Nat.eqb_refl. done.
Qed.
End MakeLemmas.

(** ** Shape laws *)

Section ShapeLaws.
Context {R : Type} `{Scalar R} `{Dsp R} `{!DspLaws R}.

Lemma length_pad_signal (pad : nat) (xs : list R) :
  length (pad_signal pad xs) = length xs + 2 * pad.
Proof. unfold pad_signal. rewrite !length_app, !length_replicate. lia. Qed.

(** The spec's shape law of [Spectrogram]: on a real input of shape
    [pre ++ [len]] the magnitude spectrogram has shape
    [pre ++ [n_fft / 2 + 1; 1 + (len + 2 pad - n_fft) / hop]]. *)
Lemma spectrogram_fwd_shape (c : spectrogram_cfg R) (x : tensor R) (xs : list R)
    (pre : list nat) (len : nat) (p : R) :
  t_data x = SReal xs -> length xs = numel (t_shape x) ->
  is_complex_dtype (t_dtype x) = false ->
  t_shape x = pre ++ [len] -> sp_power c = Some p ->
  sp_n_fft c <= len + 2 * sp_pad c ->
  exists y, spectrogram_fwd c x = Ok y
    /\ t_shape y = pre ++ [sp_n_fft c / 2 + 1;
                          n_frames (sp_n_fft c) (sp_hop_length c) (len + 2 * sp_pad c)]
    /\ t_dtype y = t_dtype x /\ t_device y = t_device x.
Proof.
  intros Hx Hl Hd Hs Hp Hn. unfold spectrogram_fwd, real_data. rewrite Hx, Hs; simpl.
  rewrite split_last1_snoc; simpl. rewrite bool_decide_eq_true_2 by done; simpl.
  rewrite Hp, make_real_Ok; [by eexists | done |].
  rewrite length_fmap, (length_batched _ _ len
    ((sp_n_fft c / 2 + 1) * n_frames (sp_n_fft c) (sp_hop_length c) (len + 2 * sp_pad c))).
  - rewrite numel_app, numel_pair. reflexivity.
  - intros sg Hsg. rewrite dsp_stft_length; rewrite length_pad_signal, ?Hsg; [done | lia].
  - rewrite Hl, Hs, numel_app, numel_one. lia.
Qed.
End ShapeLaws.

Section MoreShapeLaws.
Context {R : Type} `{Scalar R} `{!ScalarLaws R} `{Dsp R} `{!DspLaws R}.

(** The complex spectrogram ([power=None, return_complex=True]). *)
Lemma spectrogram_fwd_complex_shape (c : spectrogram_cfg R) (x : tensor R) (xs : list R)
    (pre : list nat) (len : nat) :
  t_data x = SReal xs -> length xs = numel (t_shape x) ->
  is_floating_dtype (t_dtype x) = true ->
  t_shape x = pre ++ [len] -> sp_power c = None -> sp_return_complex c = true ->
  sp_n_fft c <= len + 2 * sp_pad c ->
  let shape := pre ++ [sp_n_fft c / 2 + 1;
                       n_frames (sp_n_fft c) (sp_hop_length c) (len + 2 * sp_pad c)] in
  exists zs, spectrogram_fwd c x
    = Ok (mk_tensor shape (complex_of_dtype (t_dtype x)) (t_device x) (SCplx zs))
    /\ length zs = numel shape.
Proof.
  intros Hx Hl Hd Hs Hp Hrc Hn shape. unfold spectrogram_fwd, real_data. rewrite Hx, Hs; simpl.
  rewrite split_last1_snoc; simpl. rewrite bool_decide_eq_true_2 by done; simpl.
  rewrite Hp, Hrc.
  match goal with |- context [SCplx ?spec] => assert (Hlen : length spec = numel shape) end.
  { rewrite (length_batched _ _ len
      ((sp_n_fft c / 2 + 1) * n_frames (sp_n_fft c) (sp_hop_length c) (len + 2 * sp_pad c))).
    - subst shape. rewrite numel_app, numel_pair. reflexivity.
    - intros sg Hsg. rewrite dsp_stft_length; rewrite length_pad_signal, ?Hsg; [done | lia].
    - rewrite Hl, Hs, numel_app, numel_one. lia. }
  rewrite make_cplx_Ok; [by eexists | by apply complex_of_floating | exact Hlen].
Qed.

(** The inverse analysis of a complex [pre ++ [n_fft / 2 + 1; T]]
    spectrum has [n_fft + hop (T - 1) - 2 pad] samples. *)
Lemma istft_fwd_shape (c : istft_cfg) (x : tensor R) (zs : list (R * R))
    (pre : list nat) (t : nat) :
  t_data x = SCplx zs -> length zs = numel (t_shape x) ->
  is_complex_dtype (t_dtype x) = true ->
  t_shape x = pre ++ [is_n_fft c / 2 + 1; t] -> 0 < t ->
  exists ys, istft_fwd c x
    = Ok (mk_tensor (pre ++ [is_n_fft c + is_hop_length c * (t - 1) - 2 * is_pad c])
            (real_part_dtype (t_dtype x)) (t_device x) (SReal ys)).
Proof.
  intros Hx Hl Hd Hs Ht. unfold istft_fwd, as_complex, cplx_data. rewrite Hx; simpl.
  rewrite Hx, Hs, split_last2_snoc; simpl.
  rewrite !bool_decide_eq_true_2 by done; simpl.
  rewrite make_real_Ok; [by eexists | by destruct (t_dtype x) |].
  rewrite (length_batched _ _ ((is_n_fft c / 2 + 1) * t)
             (is_n_fft c + is_hop_length c * (t - 1) - 2 * is_pad c)).
  - rewrite numel_app, numel_one. lia.
  - intros. apply dsp_istft_length.
  - rewrite Hl, Hs, numel_app, numel_pair. lia.
Qed.

(** The frames of an analysis of [len >= n_fft] samples cover all but
    less than one hop of them. *)
Lemma n_frames_cover (n_fft hop len : nat) :
  0 < hop -> 0 < n_fft -> n_fft <= len ->
  len - hop < n_fft + hop * (n_frames n_fft hop len - 1) <= len.
Proof.
  intros Hh Hn0 Hn. unfold n_frames. replace (1 + (len - n_fft) / hop - 1) with ((len - n_fft) / hop) by lia.
  pose proof (Nat.div_mod (len - n_fft) hop ltac:(lia)).
  pose proof (Nat.mod_upper_bound (len - n_fft) hop ltac:(lia)).
  set (q := (len - n_fft) / hop) in *. set (r := (len - n_fft) mod hop) in *. nia.
Qed.

(** Spec scenario B: the inverse analysis ([InverseSpectrogram]) of
    the complex spectrogram of a real signal of [len >= n_fft] samples,
    with the same frame and hop and no padding, returns a signal whose
    length is within one hop of [len]. *)
Theorem istft_of_spectrogram_length (sc : spectrogram_cfg R) (ic : istft_cfg)
    (x : tensor R) (xs : list R) (pre : list nat) (len : nat) :
  t_data x = SReal xs -> length xs = numel (t_shape x) ->
  is_floating_dtype (t_dtype x) = true -> t_shape x = pre ++ [len] ->
  sp_power sc = None -> sp_return_complex sc = true ->
  sp_pad sc = 0 -> is_pad ic = 0 ->
  is_n_fft ic = sp_n_fft sc -> is_hop_length ic = sp_hop_length sc ->
  0 < sp_hop_length sc -> 0 < sp_n_fft sc -> sp_n_fft sc <= len ->
  exists y len', (spectrogram_fwd sc x ≫= istft_fwd ic) = Ok y
    /\ t_shape y = pre ++ [len'] /\ len - sp_hop_length sc < len' <= len.
Proof.
  intros Hx Hl Hd Hs Hp Hrc Hpad Hipad Hn Hh Hh0 Hn0 Hlen.
  destruct (spectrogram_fwd_complex_shape sc x xs pre len Hx Hl Hd Hs Hp Hrc ltac:(lia))
    as (zs & Hsp & Hzl).
  rewrite Hsp; simpl.
  set (z := mk_tensor _ _ _ _).
  edestruct (istft_fwd_shape ic z zs pre) as [ys Hi]; [done | exact Hzl | | | |].
  - subst z. simpl. by apply complex_of_floating.
  - subst z. simpl. rewrite Hn. reflexivity.
  - unfold n_frames. lia.
  - rewrite Hi. eexists _, _. split; [reflexivity|]. split; [reflexivity|].
    rewrite Hipad, Hn, Hh, Hpad, Nat.add_0_r.
    pose proof (n_frames_cover (sp_n_fft sc) (sp_hop_length sc) len Hh0 Hn0 Hlen). lia.
Qed.
End MoreShapeLaws.

Section Equivalences.
Context {R : Type} `{Scalar R} `{!ScalarLaws R} `{Dsp R}.

Lemma make_wf (x : tensor R) :
  wf_tensor x = true -> make (t_shape x) (t_dtype x) (t_device x) (t_data x) = Ok x.
Proof. intros Hw. apply make_Ok. by destruct x. Qed.

(** Spec: [Vol(1.0)] is the identity on every well-formed buffer. *)
Theorem vol_one_id (x : tensor R) :
  wf_tensor x = true ->
  vol_fwd {| vl_gain := s_one; vl_gain_type := Amplitude |} x = Ok x.
Proof.
  intros Hw. unfold vol_fwd, gain_factor; simpl.
  replace (scale_storage s_one (t_data x)) with (t_data x); [by apply make_wf|].
  destruct (t_data x) as [xs|zs]; simpl; f_equal.
  - rewrite <- (list_fmap_id xs) at 1. apply list_fmap_ext. intros. by rewrite s_mul_one_r.
  - rewrite <- (list_fmap_id zs) at 1. apply list_fmap_ext. intros _ [a b] _.
    by rewrite !s_mul_one_r.
Qed.

Lemma as_complex_native (x : tensor R) :
  wf_tensor x = true -> is_complex x = true -> as_complex x = Ok (x, false).
Proof.
  intros [Hc _]%wf_tensor_iff Hx. unfold as_complex, is_complex in *.
  destruct (t_data x); simpl in *; congruence.
Qed.

Lemma as_complex_pseudo (x : tensor R) :
  wf_tensor x = true -> is_complex x = true ->
  (r ← view_as_real x; as_complex r) = Ok (x, true).
Proof.
  intros Hw Hx. destruct (view_as_real x) as [r|] eqn:E; simpl.
  - pose proof (view_as_real_then_complex x r Hw Hx E) as Hv.
    unfold view_as_real in E. destruct (t_data x); simplify_eq.
    unfold as_complex; simpl. by rewrite Hv.
  - exfalso. unfold view_as_real in E. apply wf_tensor_iff in Hw as [Hw _].
    unfold is_complex in Hx. destruct (t_data x); simpl in *; congruence.
Qed.

(** Spec: [InverseSpectrogram] accepts a native complex buffer and its
    pseudo-complex view as the same input. *)
Theorem istft_pseudo_complex (c : istft_cfg) (x : tensor R) :
  wf_tensor x = true -> is_complex x = true ->
  (r ← view_as_real x; istft_fwd c r) = istft_fwd c x.
Proof.
  intros Hw Hx. pose proof (as_complex_pseudo x Hw Hx) as Hp.
  destruct (view_as_real x) as [r|] eqn:E; simpl in *; [|done].
  unfold istft_fwd. by rewrite Hp, as_complex_native.
Qed.

(** Spec scenario C: [TimeStretch] on the pseudo-complex view of a
    complex buffer gives the pseudo-complex view of its output on the
    buffer. *)
Theorem stretch_pseudo_complex (c : stretch_cfg R) (x : tensor R) :
  wf_tensor x = true -> is_complex x = true ->
  (r ← view_as_real x; stretch_fwd c r) = (y ← stretch_fwd c x; view_as_real y).
Proof.
  intros Hw Hx. pose proof (as_complex_pseudo x Hw Hx) as Hp.
  destruct (view_as_real x) as [r|] eqn:E; simpl in *; [|done].
  unfold stretch_fwd. destruct (ts_fixed_rate c) as [rate|]; simpl; [|done].
  rewrite Hp, as_complex_native by done. simpl.
  destruct (cplx_data x); simpl; [|done].
  destruct (split_last2 (t_shape x)) as [[[pre f] t]|]; simpl; [|done].
  destruct (ensure _ _); simpl; [|done].
  by destruct (make _ _ _ _).
Qed.

(** A complex input gives [TimeStretch] a complex output. *)
Lemma stretch_fwd_complex_out (c : stretch_cfg R) (x y : tensor R) :
  wf_tensor x = true -> is_complex x = true -> stretch_fwd c x = Ok y ->
  exists r, view_as_real y = Ok r.
Proof.
  intros Hw Hx. unfold stretch_fwd. destruct (ts_fixed_rate c) as [rate|]; simpl; [|done].
  rewrite as_complex_native by done; simpl.
  destruct (cplx_data x); simpl; [|done].
  destruct (split_last2 (t_shape x)) as [[[pre f] t]|]; simpl; [|done].
  destruct (ensure _ _); simpl; [|done].
  destruct (make _ _ _ _) as [z|] eqn:Ez; simpl; [|done].
  intros; simplify_eq. apply make_Ok in Ez as [-> _]. unfold view_as_real; simpl. eauto.
Qed.

(** The view [view_as_real] takes passes the buffer checks exactly when
    the complex tensor does. *)
Lemma check_buffers_view (m : transform R) (x r : tensor R) :
  view_as_real x = Ok r -> check_buffers m r = check_buffers m x.
Proof.
  unfold view_as_real. destruct (t_data x); intros; simplify_eq/=.
  unfold check_buffers; simpl. by rewrite real_part_dtype_idem.
Qed.

(** A [TimeStretch] module accepts a complex buffer and its
    pseudo-complex view alike. *)
Lemma forward_stretch_pseudo {G} `{Rng R G} (m : transform R) (c : stretch_cfg R)
    (x : tensor R) (g : G) :
  tr_kind m = TimeStretch c -> wf_tensor x = true -> is_complex x = true ->
  (r ← view_as_real x; forward m r g ≫= fun _ => Ok tt) = (forward m x g ≫= fun _ => Ok tt).
Proof.
  intros Hk Hw Hx. pose proof (stretch_pseudo_complex c x Hw Hx) as Hs.
  destruct (view_as_real x) as [r|] eqn:E; simpl in *.
  - unfold forward. rewrite (check_buffers_view m x r E), Hk, Hs.
    destruct (check_buffers m x); simpl; [|done].
    destruct (stretch_fwd c x) as [y|] eqn:Ey; simpl; [|done].
    by destruct (stretch_fwd_complex_out c x y Hw Hx Ey) as [? ->].
  - exfalso. apply wf_tensor_iff in Hw as [Hw _]. unfold view_as_real, is_complex in *.
    destruct (t_data x); simpl in *; congruence.
Qed.
End Equivalences.

