(* ===== verification/Wellformed.v ===== *)
(** * Every forward returns a well-formed buffer

    The type invariant of the numeric buffers ([Tensor.wf_tensor]: the
    storage kind agrees with the dtype and the element count with the
    shape) is preserved by the [forward] of every transform of the
    catalog: each stage builds its output with [make], which checks both,
    except [Resample] between equal rates, which returns its input, and
    a pseudo-complex [TimeStretch], whose output is the [view_as_real] of
    a buffer built by [make]. *)

From stdpp Require Import base list gmap strings.
From S2P Require Import Prelude Tensor Catalog Kernels Apply.

(** [inv_ok] takes apart a hypothesis [stage = Ok y]: the binds, the
    pattern-matching [let]s and the branches of a stage, down to the
    [make] that built [y]. *)
Ltac inv_ok :=
  repeat match goal with
  | H : Ok _ = Ok _ |- _ => injection H as H; subst
  | H : Err _ = Ok _ |- _ => discriminate H
  | H : make _ _ _ _ = Ok _ |- _ => apply make_Ok in H as [-> ?]
  | H : mbind _ ?m = Ok _ |- _ => destruct m eqn:?; cbn [mbind result_bind] in H
  | H : fmap _ ?m = Ok _ |- _ => destruct m eqn:?; cbn [fmap result_fmap] in H
  | H : context [match ?m with _ => _ end] |- _ => destruct m eqn:?; cbn iota in H
  end.

Section StageWf.
Context {R : Type} `{Scalar R} `{Dsp R}.

Lemma map_real_wf (f : R -> R) (x y : tensor R) : map_real f x = Ok y -> wf_tensor y = true.
Proof. unfold map_real. intros Hy. by inv_ok. Qed.

Lemma mat_stage_wf kern f_in f_out (x y : tensor R) :
  mat_stage kern f_in f_out x = Ok y -> wf_tensor y = true.
Proof. unfold mat_stage. intros Hy. by inv_ok. Qed.

Lemma spectrogram_fwd_wf c (x y : tensor R) : spectrogram_fwd c x = Ok y -> wf_tensor y = true.
Proof. unfold spectrogram_fwd. intros Hy. by inv_ok. Qed.

Lemma istft_fwd_wf c (x y : tensor R) : istft_fwd c x = Ok y -> wf_tensor y = true.
Proof. unfold istft_fwd. intros Hy. by inv_ok. Qed.

Lemma todb_fwd_wf c (x y : tensor R) : todb_fwd c x = Ok y -> wf_tensor y = true.
Proof. unfold todb_fwd. intros Hy. by inv_ok. Qed.

Lemma melspec_fwd_wf c (x y : tensor R) : melspec_fwd c x = Ok y -> wf_tensor y = true.
Proof. unfold melspec_fwd. intros Hy. inv_ok; by eapply mat_stage_wf. Qed.

Lemma melscale_fwd_wf c (x y : tensor R) : melscale_fwd c x = Ok y -> wf_tensor y = true.
Proof. apply mat_stage_wf. Qed.

Lemma mfcc_fwd_wf c (x y : tensor R) : mfcc_fwd c x = Ok y -> wf_tensor y = true.
Proof. unfold mfcc_fwd. intros Hy. inv_ok; by eapply mat_stage_wf. Qed.

Lemma lfcc_fwd_wf c (x y : tensor R) : lfcc_fwd c x = Ok y -> wf_tensor y = true.
Proof. unfold lfcc_fwd. intros Hy. inv_ok; by eapply mat_stage_wf. Qed.

Lemma resample_fwd_wf c (x y : tensor R) :
  wf_tensor x = true -> resample_fwd c x = Ok y -> wf_tensor y = true.
Proof. unfold resample_fwd. intros Hx Hy. by inv_ok. Qed.

Lemma complexnorm_fwd_wf p (x y : tensor R) : complexnorm_fwd p x = Ok y -> wf_tensor y = true.
Proof. unfold complexnorm_fwd. intros Hy. by inv_ok. Qed.

Lemma mulaw_encode_fwd_wf qc (x y : tensor R) : mulaw_encode_fwd qc x = Ok y -> wf_tensor y = true.
Proof. unfold mulaw_encode_fwd. intros Hy. by inv_ok. Qed.

Lemma mulaw_decode_fwd_wf qc (x y : tensor R) : mulaw_decode_fwd qc x = Ok y -> wf_tensor y = true.
Proof. unfold mulaw_decode_fwd. intros Hy. by inv_ok. Qed.

Lemma fade_fwd_wf c (x y : tensor R) : fade_fwd c x = Ok y -> wf_tensor y = true.
Proof. unfold fade_fwd. intros Hy. by inv_ok. Qed.

Lemma vol_fwd_wf c (x y : tensor R) : vol_fwd c x = Ok y -> wf_tensor y = true.
Proof. unfold vol_fwd. intros Hy. by inv_ok. Qed.

Lemma cmn_fwd_wf c (x y : tensor R) : cmn_fwd c x = Ok y -> wf_tensor y = true.
Proof. unfold cmn_fwd. intros Hy. by inv_ok. Qed.

Lemma vad_fwd_wf c (x y : tensor R) : vad_fwd c x = Ok y -> wf_tensor y = true.
Proof. unfold vad_fwd. intros Hy. by inv_ok. Qed.

Lemma centroid_fwd_wf c (x y : tensor R) : centroid_fwd c x = Ok y -> wf_tensor y = true.
Proof. unfold centroid_fwd. intros Hy. by inv_ok. Qed.

Lemma stretch_fwd_wf c (x y : tensor R) : stretch_fwd c x = Ok y -> wf_tensor y = true.
Proof.
  unfold stretch_fwd. intros Hy. inv_ok; [by eapply view_as_real_wf | done].
Qed.

Lemma pitch_fwd_wf c (x y : tensor R) : pitch_fwd c x = Ok y -> wf_tensor y = true.
Proof. unfold pitch_fwd. intros Hy. by inv_ok. Qed.
End StageWf.

#[export] Hint Resolve spectrogram_fwd_wf istft_fwd_wf todb_fwd_wf melspec_fwd_wf
  mfcc_fwd_wf lfcc_fwd_wf resample_fwd_wf complexnorm_fwd_wf mulaw_encode_fwd_wf
  mulaw_decode_fwd_wf fade_fwd_wf vol_fwd_wf cmn_fwd_wf vad_fwd_wf centroid_fwd_wf
  stretch_fwd_wf pitch_fwd_wf mat_stage_wf melscale_fwd_wf : audio.

Section RandomWf.
Context {R G : Type} `{Scalar R} `{Dsp R} `{Rng R G}.

Lemma masking_fwd_wf c axis (x y : tensor R) (g g' : G) :
  masking_fwd c axis x g = Ok (y, g') -> wf_tensor y = true.
Proof. unfold masking_fwd. intros Hy. by inv_ok. Qed.

Lemma griffinlim_fwd_wf c (x y : tensor R) (g g' : G) :
  griffinlim_fwd c x g = Ok (y, g') -> wf_tensor y = true.
Proof. unfold griffinlim_fwd, griffinlim_core. intros Hy. by inv_ok. Qed.

(** The type invariant of [forward]: a well-formed input gives a
    well-formed output, whatever the transform. *)
Lemma forward_wf (m : transform R) (x y : tensor R) (g g' : G) :
  wf_tensor x = true -> forward m x g = Ok (y, g') -> wf_tensor y = true.
Proof.
  unfold forward. intros Hx Hy. inv_ok;
    eauto using masking_fwd_wf, griffinlim_fwd_wf with audio.
Qed.
End RandomWf.
