(* ===== verification/Shapes.v ===== *)
(** * Shape laws of the spectral stages on real buffers

    [real_shaped s d dev x] says that [x] is a real tensor of shape [s],
    dtype [d] and device [dev] holding [numel s] values.  Every stage of
    the spectral family ([Spectrogram], [MelScale], [AmplitudeToDB],
    the cepstra, [SpectralCentroid], [GriffinLim], [ComplexNorm]) maps
    such a tensor to another one, of the shape the spec's shape rules
    give, whenever the kernels satisfy their size laws ([DspLaws]).
    The pass theorems of [SpectralTests] chain these laws. *)

From stdpp Require Import base list gmap strings.
From S2P Require Import Prelude Tensor Catalog Kernels Apply.

Section Shaped.
Context {R : Type} `{Scalar R} `{Dsp R}.

Definition real_shaped (s : list nat) (d : dtype) (dev : device) (x : tensor R) : Prop :=
  exists xs, x = mk_tensor s d dev (SReal xs) /\ length xs = numel s.

Lemma real_shaped_intro (x : tensor R) (xs : list R) (s : list nat) (d : dtype) (dev : device) :
  t_data x = SReal xs -> length xs = numel s -> t_shape x = s ->
  t_dtype x = d -> t_device x = dev -> real_shaped s d dev x.
Proof. destruct x; cbn; intros -> Hl -> -> ->. by exists xs. Qed.

Lemma make_shaped (s : list nat) (d : dtype) (dev : device) (ys : list R) :
  is_complex_dtype d = false -> length ys = numel s ->
  exists y, make s d dev (SReal ys) = Ok y /\ real_shaped s d dev y.
Proof. intros Hd Hl. eexists; split; [by apply make_real_Ok | by exists ys]. Qed.

(** A stage that applies a length-preserving function to the flat data. *)
Lemma list_stage_shaped (F : list R -> list R) (s : list nat) d dev (x : tensor R) :
  is_complex_dtype d = false -> (forall xs, length (F xs) = length xs) ->
  real_shaped s d dev x ->
  exists y, (xs ← real_data x; make (t_shape x) (t_dtype x) (t_device x) (SReal (F xs))) = Ok y
    /\ real_shaped s d dev y.
Proof.
  intros Hd HF (xs & -> & Hl). cbn. apply make_shaped; [done | by rewrite HF].
Qed.

Lemma map_real_shaped (f : R -> R) s d dev (x : tensor R) :
  is_complex_dtype d = false -> real_shaped s d dev x ->
  exists y, map_real f x = Ok y /\ real_shaped s d dev y.
Proof. intros Hd. apply (list_stage_shaped (fmap f)); [done | intros; apply length_fmap]. Qed.
End Shaped.

Section StageShapes.
Context {R : Type} `{Scalar R} `{Dsp R} `{!DspLaws R}.

Lemma todb_shaped (c : todb_cfg R) s d dev (x : tensor R) :
  is_complex_dtype d = false -> real_shaped s d dev x ->
  exists y, todb_fwd c x = Ok y /\ real_shaped s d dev y.
Proof. intros Hd. apply (list_stage_shaped (dsp_to_db c)); [done | apply dsp_to_db_length]. Qed.

(** A matrix stage on [pre ++ [f_in; t]] gives [pre ++ [f_out; t]]. *)
Lemma mat_stage_shaped (kern : nat -> list R -> list R) (f_in f_out : nat)
    (pre : list nat) (t : nat) d dev (x : tensor R) :
  is_complex_dtype d = false ->
  (forall xs, length xs = f_in * t -> length (kern t xs) = f_out * t) ->
  real_shaped (pre ++ [f_in; t]) d dev x ->
  exists y, mat_stage kern f_in f_out x = Ok y /\ real_shaped (pre ++ [f_out; t]) d dev y.
Proof.
  intros Hd Hk (xs & -> & Hl). unfold mat_stage; cbn.
  rewrite split_last2_snoc; cbn. rewrite bool_decide_eq_true_2 by done; cbn.
  apply make_shaped; [done|].
  rewrite (length_batched _ _ (f_in * t) (f_out * t)); [| done |].
  - rewrite numel_app, numel_pair. lia.
  - rewrite Hl, numel_app, numel_pair. lia.
Qed.

(** The spec's shape law of [Spectrogram] with a [power]: a real
    [pre ++ [len]] input gives [pre ++ [n_fft / 2 + 1; frames]]. *)
Lemma spectrogram_shaped (c : spectrogram_cfg R) (p : R) (pre : list nat) (len : nat)
    d dev (x : tensor R) :
  is_complex_dtype d = false -> sp_power c = Some p ->
  sp_n_fft c <= len + 2 * sp_pad c ->
  real_shaped (pre ++ [len]) d dev x ->
  exists y, spectrogram_fwd c x = Ok y /\
    real_shaped (pre ++ [sp_n_fft c / 2 + 1;
                         n_frames (sp_n_fft c) (sp_hop_length c) (len + 2 * sp_pad c)]) d dev y.
Proof.
  intros Hd Hp Hn (xs & -> & Hl). unfold spectrogram_fwd; cbn.
  rewrite split_last1_snoc; cbn. rewrite bool_decide_eq_true_2 by done; cbn.
  rewrite Hp. apply make_shaped; [done|].
  rewrite length_fmap, (length_batched _ _ len
    ((sp_n_fft c / 2 + 1) * n_frames (sp_n_fft c) (sp_hop_length c) (len + 2 * sp_pad c))).
  - rewrite numel_app, numel_pair. reflexivity.
  - intros sg Hsg. rewrite dsp_stft_length; rewrite length_pad_signal, ?Hsg; [done | lia].
  - rewrite Hl, numel_app, numel_one. lia.
Qed.

(** [MelSpectrogram]: the spectrogram, then the mel filter bank over its
    [n_fft / 2 + 1] bins. *)
Lemma melspec_shaped (c : melspec_cfg R) (p : R) (pre : list nat) (len : nat)
    d dev (x : tensor R) :
  let sc := mel_spectrogram c in
  is_complex_dtype d = false -> sp_power sc = Some p ->
  sp_n_fft sc <= len + 2 * sp_pad sc -> ms_n_stft (mel_scale c) = sp_n_fft sc / 2 + 1 ->
  real_shaped (pre ++ [len]) d dev x ->
  exists y, melspec_fwd c x = Ok y /\
    real_shaped (pre ++ [ms_n_mels (mel_scale c);
                         n_frames (sp_n_fft sc) (sp_hop_length sc) (len + 2 * sp_pad sc)]) d dev y.
Proof.
  intros sc Hd Hp Hn Hst Hx. subst sc. unfold melspec_fwd.
  destruct (spectrogram_shaped _ p pre len d dev x Hd Hp Hn Hx) as (z & -> & Hz). cbn.
  apply (mat_stage_shaped _ _ _ _ _ d dev z Hd); [|by rewrite Hst].
  intros xs Hxs. by apply dsp_melscale_length.
Qed.

(** The log or decibel stage of the cepstra keeps the shape. *)
Lemma log_or_db_shaped (log : bool) (cdb : todb_cfg R) s d dev (x : tensor R) :
  is_complex_dtype d = false -> real_shaped s d dev x ->
  exists y, (if log then map_real dsp_log_offset x else todb_fwd cdb x) = Ok y
    /\ real_shaped s d dev y.
Proof. intros Hd Hx. destruct log; [by apply map_real_shaped | by apply todb_shaped]. Qed.

(** [MFCC]: [n_mfcc] coefficients per frame of the mel spectrogram. *)
Lemma mfcc_shaped (c : mfcc_cfg R) (p : R) (pre : list nat) (len : nat) d dev (x : tensor R) :
  let sc := mel_spectrogram (mf_melspec c) in
  is_complex_dtype d = false -> sp_power sc = Some p ->
  sp_n_fft sc <= len + 2 * sp_pad sc ->
  ms_n_stft (mel_scale (mf_melspec c)) = sp_n_fft sc / 2 + 1 ->
  real_shaped (pre ++ [len]) d dev x ->
  exists y, mfcc_fwd c x = Ok y /\
    real_shaped (pre ++ [mf_n_mfcc c;
                         n_frames (sp_n_fft sc) (sp_hop_length sc) (len + 2 * sp_pad sc)]) d dev y.
Proof.
  intros sc Hd Hp Hn Hst Hx. subst sc. unfold mfcc_fwd.
  destruct (melspec_shaped _ p pre len d dev x Hd Hp Hn Hst Hx) as (z & -> & Hz). cbn.
  destruct (log_or_db_shaped (mf_log_mels c) (mf_todb c) _ d dev z Hd Hz) as (z' & -> & Hz').
  cbn. apply (mat_stage_shaped _ _ _ _ _ d dev z' Hd); [|done].
  intros. by apply dsp_dct_length.
Qed.

(** [LFCC]: the spectrogram, the linear filter bank, the log or
    decibels, then [n_lfcc] coefficients per frame. *)
Lemma lfcc_shaped (c : lfcc_cfg R) (p : R) (pre : list nat) (len : nat) d dev (x : tensor R) :
  let sc := lf_spectrogram c in
  is_complex_dtype d = false -> sp_power sc = Some p ->
  sp_n_fft sc <= len + 2 * sp_pad sc ->
  real_shaped (pre ++ [len]) d dev x ->
  exists y, lfcc_fwd c x = Ok y /\
    real_shaped (pre ++ [lf_n_lfcc c;
                         n_frames (sp_n_fft sc) (sp_hop_length sc) (len + 2 * sp_pad sc)]) d dev y.
Proof.
  intros sc Hd Hp Hn Hx. subst sc. unfold lfcc_fwd.
  destruct (spectrogram_shaped _ p pre len d dev x Hd Hp Hn Hx) as (z & -> & Hz).
  cbn [mbind result_bind].
  destruct (mat_stage_shaped (dsp_linear_fb c) _ (lf_n_filter c) _ _ d dev z Hd
    (fun xs => dsp_linear_fb_length c _ xs) Hz) as (z1 & -> & Hz1).
  cbn [mbind result_bind].
  destruct (log_or_db_shaped (lf_log_lf c) (lf_todb c) _ d dev z1 Hd Hz1) as (z2 & -> & Hz2).
  cbn [mbind result_bind]. apply (mat_stage_shaped _ _ _ _ _ d dev z2 Hd); [|done].
  intros. by apply dsp_dct_length.
Qed.

(** [SpectralCentroid]: one value per frame. *)
Lemma centroid_shaped (c : centroid_cfg) (pre : list nat) (len : nat) d dev (x : tensor R) :
  is_complex_dtype d = false -> ct_n_fft c <= len + 2 * ct_pad c ->
  real_shaped (pre ++ [len]) d dev x ->
  exists y, centroid_fwd c x = Ok y /\
    real_shaped (pre ++ [n_frames (ct_n_fft c) (ct_hop_length c) (len + 2 * ct_pad c)]) d dev y.
Proof.
  intros Hd Hn (xs & -> & Hl). unfold centroid_fwd; cbn.
  rewrite split_last1_snoc; cbn. rewrite bool_decide_eq_true_2 by done; cbn.
  apply make_shaped; [done|].
  rewrite (length_batched _ _ len (n_frames (ct_n_fft c) (ct_hop_length c) (len + 2 * ct_pad c))).
  - by rewrite numel_snoc.
  - intros sg Hsg. rewrite dsp_centroid_length; rewrite length_pad_signal, ?Hsg; [done | lia].
  - rewrite Hl, numel_snoc. lia.
Qed.

(** [view_as_complex] of a floating tensor of shape [s ++ [2]]. *)
Lemma view_as_complex_shaped (s : list nat) d dev (x : tensor R) :
  is_floating_dtype d = true -> real_shaped (s ++ [2]) d dev x ->
  exists zs, view_as_complex x = Ok (mk_tensor s (complex_of_dtype d) dev (SCplx zs))
    /\ length zs = numel s.
Proof.
  intros Hd (xs & -> & Hl). rewrite numel_snoc in Hl.
  destruct (pairup_even (numel s) xs ltac:(lia)) as [zs Hz].
  unfold view_as_complex; cbn [t_data t_shape t_dtype t_device].
  rewrite Hd, last_snoc, bool_decide_eq_true_2 by done; cbn [ensure mbind result_bind].
  rewrite Hz; cbn [of_option mbind result_bind]. rewrite removelast_last.
  exists zs. split; [done|]. apply pairup_length in Hz. lia.
Qed.

(** A pseudo-complex input of shape [s ++ [2]] is read as a complex
    tensor of shape [s]. *)
Lemma as_complex_pseudo_shaped (s : list nat) d dev (x : tensor R) :
  is_floating_dtype d = true -> real_shaped (s ++ [2]) d dev x ->
  exists zs, as_complex x = Ok (mk_tensor s (complex_of_dtype d) dev (SCplx zs), true)
    /\ length zs = numel s.
Proof.
  intros Hd Hx. destruct (view_as_complex_shaped s d dev x Hd Hx) as (zs & Hv & Hl).
  destruct Hx as (xs & -> & _). exists zs. unfold as_complex; cbn [t_data].
  by rewrite Hv.
Qed.

(** [ComplexNorm] on a pseudo-complex input of shape [s ++ [2]]: one
    magnitude per complex value, of the real dtype. *)
Lemma complexnorm_pseudo_shaped (power : R) (s : list nat) d dev (x : tensor R) :
  is_floating_dtype d = true -> real_shaped (s ++ [2]) d dev x ->
  exists y, complexnorm_fwd power x = Ok y /\ real_shaped s d dev y.
Proof.
  intros Hd Hx. destruct (as_complex_pseudo_shaped s d dev x Hd Hx) as (zs & Hc & Hl).
  unfold complexnorm_fwd. rewrite Hc; cbn [mbind result_bind cplx_data t_data t_shape t_dtype t_device].
  rewrite real_part_complex_of by done.
  apply make_shaped; [by destruct d | by rewrite length_fmap].
Qed.

(** [InverseSpectrogram] accepts a pseudo-complex
    [pre ++ [n_fft / 2 + 1; T; 2]] input with at least one frame. *)
Lemma istft_pseudo_shaped (c : istft_cfg) (pre : list nat) (t : nat) d dev (x : tensor R) :
  is_floating_dtype d = true -> 0 < t ->
  real_shaped ((pre ++ [is_n_fft c / 2 + 1; t]) ++ [2]) d dev x ->
  exists y, istft_fwd c x = Ok y.
Proof.
  intros Hd Ht Hx. destruct (as_complex_pseudo_shaped _ d dev x Hd Hx) as (zs & Hc & Hl).
  set (z := mk_tensor _ _ _ _) in Hc.
  assert (E : istft_fwd c x = istft_fwd c z) by (unfold istft_fwd; by rewrite Hc).
  rewrite E. destruct (istft_fwd_shape c z zs pre t) as [ys ->]; eauto.
  subst z; cbn. by apply complex_of_floating.
Qed.

(** Trimming the same [start] samples off each of [k] signals of [len]
    samples leaves [k * (len - start)] samples. *)
Lemma length_concat_drop_chunks (k len start : nat) (xs : list R) :
  length xs = k * len ->
  length (concat (drop start <$> chunks k len xs)) = k * (len - start).
Proof.
  revert xs; induction k as [|k IH]; intros xs Hl; [done|].
  cbn [chunks fmap list_fmap concat]. rewrite length_app, length_drop, length_take, IH;
    [lia | rewrite length_drop; lia].
Qed.

(** [Vad] keeps the leading dimensions and trims the signals to a common
    length of at most [len]. *)
Lemma vad_shaped (c : vad_cfg R) (pre : list nat) (len : nat) d dev (x : tensor R) :
  is_complex_dtype d = false -> real_shaped (pre ++ [len]) d dev x ->
  exists y len', vad_fwd c x = Ok y /\ real_shaped (pre ++ [len']) d dev y /\ len' <= len.
Proof.
  intros Hd (xs & -> & Hl). unfold vad_fwd; cbn [real_data t_data t_shape t_dtype t_device
    mbind result_bind]. rewrite split_last1_snoc; cbn [mbind result_bind].
  match goal with |- context [make (pre ++ [?l]) d dev (SReal ?ys)] =>
    destruct (make_shaped (pre ++ [l]) d dev ys) as (y & -> & Hy) end; [done | | eauto with lia].
  rewrite numel_snoc, length_concat_drop_chunks; [done | by rewrite Hl, numel_snoc].
Qed.

(** [TimeStretch] at a fixed rate on a complex [pre ++ [n_freq; T]]
    input. *)
Lemma stretch_fwd_complex_ok (c : stretch_cfg R) (rate : R) (pre : list nat) (t : nat)
    (zs : list (R * R)) (x : tensor R) :
  ts_fixed_rate c = Some rate -> t_data x = SCplx zs -> length zs = numel (t_shape x) ->
  is_complex_dtype (t_dtype x) = true -> t_shape x = pre ++ [ts_n_freq c; t] ->
  exists y, stretch_fwd c x = Ok y.
Proof.
  intros Hr Hx Hl Hd Hs. unfold stretch_fwd, as_complex, cplx_data.
  rewrite Hr, Hx; cbn [of_option mbind result_bind]. rewrite Hx, Hs, split_last2_snoc.
  cbn [mbind result_bind]. rewrite bool_decide_eq_true_2 by done; cbn [ensure mbind result_bind].
  rewrite make_cplx_Ok; [by eexists | done |].
  rewrite (length_batched _ _ (ts_n_freq c * t) (ts_n_freq c * dsp_stretch_frames rate t)).
  - rewrite numel_app, numel_pair. lia.
  - intros. by apply dsp_phase_vocoder_length.
  - rewrite Hl, Hs, numel_app, numel_pair. lia.
Qed.
End StageShapes.

Section ZipChunks.
Context {A B C : Type}.

(** Pairing the blocks of two batches with a kernel of output length
    [m] gives [k * m] values. *)
Lemma length_concat_zip_chunks (f : list A -> list B -> list C) (k n m : nat)
    (xs : list A) (ys : list B) :
  (forall a b, length (f a b) = m) ->
  length (concat (zip_with f (chunks k n xs) (chunks k n ys))) = k * m.
Proof.
  intros Hf. revert xs ys; induction k as [|k IH]; intros xs ys; [done|].
  cbn [chunks zip_with concat]. rewrite length_app, Hf, IH. lia.
Qed.
End ZipChunks.

Section RandomShapes.
Context {R G : Type} `{Scalar R} `{Dsp R} `{!DspLaws R} `{Rng R G}.

(** [GriffinLim] without a random initial phase neither reads nor
    advances the generator, and gives [length] samples (by default
    [n_fft + hop (T - 1)]) per spectrogram. *)
Lemma griffinlim_shaped (c : griffinlim_cfg R) (pre : list nat) (t : nat) d dev
    (x : tensor R) (g : G) :
  gl_rand_init c = false -> is_complex_dtype d = false -> 0 < t ->
  real_shaped (pre ++ [gl_n_fft c / 2 + 1; t]) d dev x ->
  exists y, griffinlim_fwd c x g = Ok (y, g) /\
    real_shaped (pre ++ [default (gl_n_fft c + gl_hop_length c * (t - 1)) (gl_length c)]) d dev y.
Proof.
  intros Hr Hd Ht (xs & -> & Hl). unfold griffinlim_fwd, griffinlim_init. rewrite Hr.
  unfold griffinlim_core, real_data; cbn [t_data t_shape t_dtype t_device mbind result_bind].
  rewrite split_last2_snoc; cbn [mbind result_bind].
  rewrite !bool_decide_eq_true_2 by done; cbn [ensure mbind result_bind].
  rewrite pairup_unpair; cbn [of_option mbind result_bind default].
  match goal with |- context [make ?s ?d ?dev (SReal ?ys)] =>
    destruct (make_shaped s d dev ys) as (y & -> & Hy) end; [done | | by exists y].
  rewrite (length_concat_zip_chunks _ _ _
    (default (gl_n_fft c + gl_hop_length c * (t - 1)) (gl_length c)));
    [by rewrite numel_snoc | intros; apply dsp_griffinlim_length].
Qed.
End RandomShapes.

#[export] Hint Unfold real_shaped : audio.
