(* ===== verification/Serialize.v ===== *)
(** * The serialization bridge (spec section 4.3)

    What [torch.jit.script(transform).save(path)] writes and what
    [torch.jit.load(path)] reads back, as the spec describes it: a
    versioned encoding of the kind tag, the full configuration and the
    device and dtype of the module's buffers.  The archive is a list of
    64-bit words ([Z]); floats are saved as their bit patterns.

    A type class [Codec] pairs the encoder and the parser of each field
    type with the law that parsing an encoding gives the value back and
    leaves the rest of the archive; records and the catalog are encoded
    field by field, so their laws follow from the fields' ones. *)

From stdpp Require Import base list gmap strings.
From S2P Require Import Prelude Tensor Catalog.

(** ** Parsers *)

Definition parser (A : Type) : Type := list Z -> result (A * list Z).

Definition p_ret {A} (a : A) : parser A := fun ws => Ok (a, ws).

Definition p_fail {A} (e : error) : parser A := fun _ => Err e.

Definition p_bind {A B} (p : parser A) (k : A -> parser B) : parser B :=
  fun ws => match p ws with Ok (a, ws') => k a ws' | Err e => Err e end.

Notation "'let*' x ':=' p 'in' k" := (p_bind p (fun x => k))
  (at level 10, x name, p at level 100, k at level 200) : audio_scope.

Definition p_word : parser Z :=
  fun ws => match ws with w :: ws' => Ok (w, ws') | [] => Err ConfigDecodeError end.

Class Codec (A : Type) := {
  enc : A -> list Z;
  dec : parser A;
  dec_enc : forall a ws, dec (enc a ++ ws) = Ok (a, ws);
}.

Lemma p_bind_dec {A B} `{Codec A} (k : A -> parser B) (a : A) (ws : list Z) :
  p_bind dec k (enc a ++ ws) = k a ws.
Proof. unfold p_bind. by rewrite dec_enc. Qed.

Lemma p_bind_word {B} (k : Z -> parser B) (w : Z) (ws : list Z) :
  p_bind p_word k (w :: ws) = k w ws.
Proof. reflexivity. Qed.

(** [codec_step] parses one encoded field of the goal. *)
Ltac codec_step :=
  first [ rewrite p_bind_dec | rewrite p_bind_word ]; cbv beta.

Ltac codec_record :=
  intros [] ws; cbn [enc dec]; rewrite <- ?app_assoc; repeat codec_step; reflexivity.

(** ** Codecs of the scalar fields *)

#[export] Instance nat_codec : Codec nat.
Proof.
  refine {| enc (n : nat) := [Z.of_nat n];
            dec := let* w := p_word in
                   if (0 <=? w)%Z then p_ret (Z.to_nat w) else p_fail ConfigDecodeError |}.
  intros n ws. simpl app. rewrite p_bind_word. cbv beta.
  rewrite (proj2 (Z.leb_le _ _)) by lia. by rewrite Nat2Z.id.
Defined.

#[export] Instance Z_codec : Codec Z.
Proof. by refine {| enc (z : Z) := [z]; dec := p_word |}. Defined.

#[export] Instance bool_codec : Codec bool.
Proof.
  refine {| enc (b : bool) := [if b then 1%Z else 0%Z];
            dec := let* w := p_word in
                   match w with
                   | 0%Z => p_ret false | 1%Z => p_ret true | _ => p_fail ConfigDecodeError
                   end |}.
  by intros [] ws.
Defined.

#[export] Instance option_codec {A} `{Codec A} : Codec (option A).
Proof.
  refine {| enc o := match o with None => [0%Z] | Some a => 1%Z :: enc a end;
            dec := let* w := p_word in
                   match w with
                   | 0%Z => p_ret None
                   | 1%Z => let* a := dec in p_ret (Some a)
                   | _ => p_fail ConfigDecodeError
                   end |}.
  intros [a|] ws; [|done]. simpl app. rewrite p_bind_word. cbv beta iota.
  by rewrite p_bind_dec.
Defined.

(** An enumeration is saved as the index of its constructor. *)
Definition enum_codec {A} (to : A -> nat) (from : nat -> option A)
    (Hof : forall a, from (to a) = Some a) : Codec A.
Proof.
  refine {| enc a := enc (to a);
            dec := let* n := dec in
                   match from n with Some a => p_ret a | None => p_fail ConfigDecodeError end |}.
  intros a ws. rewrite p_bind_dec, Hof. done.
Defined.

Definition window_index (w : window_fn) : nat :=
  match w with Hann => 0 | Hamming => 1 | Blackman => 2 | Bartlett => 3 end.
Definition window_of (n : nat) : option window_fn :=
  match n with 0 => Some Hann | 1 => Some Hamming | 2 => Some Blackman
          | 3 => Some Bartlett | _ => None end.

Definition fade_index (s : fade_shape) : nat :=
  match s with Linear => 0 | Exponential => 1 | Logarithmic => 2
          | QuarterSine => 3 | HalfSine => 4 end.
Definition fade_of (n : nat) : option fade_shape :=
  match n with 0 => Some Linear | 1 => Some Exponential | 2 => Some Logarithmic
          | 3 => Some QuarterSine | 4 => Some HalfSine | _ => None end.

Definition stype_index (s : db_stype) : nat := match s with Power => 0 | Magnitude => 1 end.
Definition stype_of (n : nat) : option db_stype :=
  match n with 0 => Some Power | 1 => Some Magnitude | _ => None end.

Definition gain_index (g : gain_type) : nat :=
  match g with Amplitude => 0 | GainDb => 1 | GainPower => 2 end.
Definition gain_of (n : nat) : option gain_type :=
  match n with 0 => Some Amplitude | 1 => Some GainDb | 2 => Some GainPower | _ => None end.

Definition device_index (d : device) : nat := match d with CPU => 0 | CUDA => 1 end.
Definition device_of (n : nat) : option device :=
  match n with 0 => Some CPU | 1 => Some CUDA | _ => None end.

Definition dtype_index (d : dtype) : nat :=
  match d with Float32 => 0 | Float64 => 1 | Complex64 => 2 | Complex128 => 3 | Int64 => 4 end.
Definition dtype_of (n : nat) : option dtype :=
  match n with 0 => Some Float32 | 1 => Some Float64 | 2 => Some Complex64
          | 3 => Some Complex128 | 4 => Some Int64 | _ => None end.

#[export] Instance window_codec : Codec window_fn :=
  enum_codec window_index window_of ltac:(by intros []).
#[export] Instance fade_codec : Codec fade_shape :=
  enum_codec fade_index fade_of ltac:(by intros []).
#[export] Instance stype_codec : Codec db_stype :=
  enum_codec stype_index stype_of ltac:(by intros []).
#[export] Instance gain_codec : Codec gain_type :=
  enum_codec gain_index gain_of ltac:(by intros []).
#[export] Instance device_codec : Codec device :=
  enum_codec device_index device_of ltac:(by intros []).
#[export] Instance dtype_codec : Codec dtype :=
  enum_codec dtype_index dtype_of ltac:(by intros []).

(** ** Codecs of the configurations *)

Section Configs.
Context {R : Type} `{Scalar R} `{!ScalarLaws R}.

(** A float is saved as its bit pattern. *)
#[export] Instance float_codec : Codec R.
Proof.
  refine {| enc (x : R) := [s_bits x];
            dec := let* w := p_word in p_ret (s_of_bits w) |}.
  intros x ws. simpl app. rewrite p_bind_word. cbv beta. by rewrite s_of_bits_bits.
Defined.

#[export] Instance spectrogram_codec : Codec (spectrogram_cfg R).
Proof.
  refine {| enc c := enc (sp_n_fft c) ++ enc (sp_win_length c) ++ enc (sp_hop_length c)
                     ++ enc (sp_pad c) ++ enc (sp_window c) ++ enc (sp_power c)
                     ++ enc (sp_normalized c) ++ enc (sp_return_complex c);
            dec := let* a := dec in let* b := dec in let* c := dec in let* d := dec in
                   let* e := dec in let* f := dec in let* g := dec in let* h := dec in
                   p_ret {| sp_n_fft := a; sp_win_length := b; sp_hop_length := c;
                            sp_pad := d; sp_window := e; sp_power := f;
                            sp_normalized := g; sp_return_complex := h |} |}.
  codec_record.
Defined.

#[export] Instance istft_codec : Codec istft_cfg.
Proof.
  refine {| enc c := enc (is_n_fft c) ++ enc (is_win_length c) ++ enc (is_hop_length c)
                     ++ enc (is_pad c) ++ enc (is_window c) ++ enc (is_normalized c);
            dec := let* a := dec in let* b := dec in let* c := dec in let* d := dec in
                   let* e := dec in let* f := dec in
                   p_ret {| is_n_fft := a; is_win_length := b; is_hop_length := c;
                            is_pad := d; is_window := e; is_normalized := f |} |}.
  codec_record.
Defined.

#[export] Instance griffinlim_codec : Codec (griffinlim_cfg R).
Proof.
  refine {| enc c := enc (gl_n_fft c) ++ enc (gl_n_iter c) ++ enc (gl_win_length c)
                     ++ enc (gl_hop_length c) ++ enc (gl_window c) ++ enc (gl_power c)
                     ++ enc (gl_momentum c) ++ enc (gl_length c) ++ enc (gl_rand_init c);
            dec := let* a := dec in let* b := dec in let* c := dec in let* d := dec in
                   let* e := dec in let* f := dec in let* g := dec in let* h := dec in
                   let* i := dec in
                   p_ret {| gl_n_fft := a; gl_n_iter := b; gl_win_length := c;
                            gl_hop_length := d; gl_window := e; gl_power := f;
                            gl_momentum := g; gl_length := h; gl_rand_init := i |} |}.
  codec_record.
Defined.

#[export] Instance todb_codec : Codec (todb_cfg R).
Proof.
  refine {| enc c := enc (db_stype_of c) ++ enc (db_top_db c);
            dec := let* a := dec in let* b := dec in
                   p_ret {| db_stype_of := a; db_top_db := b |} |}.
  codec_record.
Defined.

#[export] Instance melscale_codec : Codec (melscale_cfg R).
Proof.
  refine {| enc c := enc (ms_n_mels c) ++ enc (ms_sample_rate c) ++ enc (ms_f_min c)
                     ++ enc (ms_f_max c) ++ enc (ms_n_stft c);
            dec := let* a := dec in let* b := dec in let* c := dec in let* d := dec in
                   let* e := dec in
                   p_ret {| ms_n_mels := a; ms_sample_rate := b; ms_f_min := c;
                            ms_f_max := d; ms_n_stft := e |} |}.
  codec_record.
Defined.

#[export] Instance melspec_codec : Codec (melspec_cfg R).
Proof.
  refine {| enc c := enc (mel_spectrogram c) ++ enc (mel_scale c);
            dec := let* a := dec in let* b := dec in
                   p_ret {| mel_spectrogram := a; mel_scale := b |} |}.
  codec_record.
Defined.

#[export] Instance mfcc_codec : Codec (mfcc_cfg R).
Proof.
  refine {| enc c := enc (mf_n_mfcc c) ++ enc (mf_log_mels c) ++ enc (mf_melspec c)
                     ++ enc (mf_todb c);
            dec := let* a := dec in let* b := dec in let* c := dec in let* d := dec in
                   p_ret {| mf_n_mfcc := a; mf_log_mels := b; mf_melspec := c;
                            mf_todb := d |} |}.
  codec_record.
Defined.

#[export] Instance lfcc_codec : Codec (lfcc_cfg R).
Proof.
  refine {| enc c := enc (lf_n_lfcc c) ++ enc (lf_n_filter c) ++ enc (lf_sample_rate c)
                     ++ enc (lf_f_min c) ++ enc (lf_f_max c) ++ enc (lf_log_lf c)
                     ++ enc (lf_spectrogram c) ++ enc (lf_todb c);
            dec := let* a := dec in let* b := dec in let* c := dec in let* d := dec in
                   let* e := dec in let* f := dec in let* g := dec in let* h := dec in
                   p_ret {| lf_n_lfcc := a; lf_n_filter := b; lf_sample_rate := c;
                            lf_f_min := d; lf_f_max := e; lf_log_lf := f;
                            lf_spectrogram := g; lf_todb := h |} |}.
  codec_record.
Defined.

#[export] Instance resample_codec : Codec (resample_cfg R).
Proof.
  refine {| enc c := enc (rs_orig_freq c) ++ enc (rs_new_freq c) ++ enc (rs_gcd c)
                     ++ enc (rs_lowpass_filter_width c) ++ enc (rs_rolloff c);
            dec := let* a := dec in let* b := dec in let* c := dec in let* d := dec in
                   let* e := dec in
                   p_ret {| rs_orig_freq := a; rs_new_freq := b; rs_gcd := c;
                            rs_lowpass_filter_width := d; rs_rolloff := e |} |}.
  codec_record.
Defined.

#[export] Instance fade_cfg_codec : Codec fade_cfg.
Proof.
  refine {| enc c := enc (fd_in_len c) ++ enc (fd_out_len c) ++ enc (fd_shape c);
            dec := let* a := dec in let* b := dec in let* c := dec in
                   p_ret {| fd_in_len := a; fd_out_len := b; fd_shape := c |} |}.
  codec_record.
Defined.

#[export] Instance masking_codec : Codec masking_cfg.
Proof.
  refine {| enc c := enc (mk_mask_param c) ++ enc (mk_iid_masks c);
            dec := let* a := dec in let* b := dec in
                   p_ret {| mk_mask_param := a; mk_iid_masks := b |} |}.
  codec_record.
Defined.

#[export] Instance vol_codec : Codec (vol_cfg R).
Proof.
  refine {| enc c := enc (vl_gain c) ++ enc (vl_gain_type c);
            dec := let* a := dec in let* b := dec in
                   p_ret {| vl_gain := a; vl_gain_type := b |} |}.
  codec_record.
Defined.

#[export] Instance cmn_codec : Codec cmn_cfg.
Proof.
  refine {| enc c := enc (cm_cmn_window c) ++ enc (cm_min_cmn_window c)
                     ++ enc (cm_center c) ++ enc (cm_norm_vars c);
            dec := let* a := dec in let* b := dec in let* c := dec in let* d := dec in
                   p_ret {| cm_cmn_window := a; cm_min_cmn_window := b;
                            cm_center := c; cm_norm_vars := d |} |}.
  codec_record.
Defined.

#[export] Instance vad_codec : Codec (vad_cfg R).
Proof.
  refine {| enc c := enc (vd_sample_rate c) ++ enc (vd_trigger_level c)
                     ++ enc (vd_trigger_time c) ++ enc (vd_search_time c)
                     ++ enc (vd_allowed_gap c) ++ enc (vd_pre_trigger_time c)
                     ++ enc (vd_boot_time c);
            dec := let* a := dec in let* b := dec in let* c := dec in let* d := dec in
                   let* e := dec in let* f := dec in let* g := dec in
                   p_ret {| vd_sample_rate := a; vd_trigger_level := b;
                            vd_trigger_time := c; vd_search_time := d;
                            vd_allowed_gap := e; vd_pre_trigger_time := f;
                            vd_boot_time := g |} |}.
  codec_record.
Defined.

#[export] Instance centroid_codec : Codec centroid_cfg.
Proof.
  refine {| enc c := enc (ct_sample_rate c) ++ enc (ct_n_fft c) ++ enc (ct_win_length c)
                     ++ enc (ct_hop_length c) ++ enc (ct_pad c) ++ enc (ct_window c);
            dec := let* a := dec in let* b := dec in let* c := dec in let* d := dec in
                   let* e := dec in let* f := dec in
                   p_ret {| ct_sample_rate := a; ct_n_fft := b; ct_win_length := c;
                            ct_hop_length := d; ct_pad := e; ct_window := f |} |}.
  codec_record.
Defined.

#[export] Instance stretch_codec : Codec (stretch_cfg R).
Proof.
  refine {| enc c := enc (ts_n_freq c) ++ enc (ts_hop_length c) ++ enc (ts_fixed_rate c);
            dec := let* a := dec in let* b := dec in let* c := dec in
                   p_ret {| ts_n_freq := a; ts_hop_length := b; ts_fixed_rate := c |} |}.
  codec_record.
Defined.

#[export] Instance pitch_codec : Codec pitch_cfg.
Proof.
  refine {| enc c := enc (ps_sample_rate c) ++ enc (ps_n_steps c)
                     ++ enc (ps_bins_per_octave c) ++ enc (ps_n_fft c)
                     ++ enc (ps_win_length c) ++ enc (ps_hop_length c) ++ enc (ps_window c);
            dec := let* a := dec in let* b := dec in let* c := dec in let* d := dec in
                   let* e := dec in let* f := dec in let* g := dec in
                   p_ret {| ps_sample_rate := a; ps_n_steps := b; ps_bins_per_octave := c;
                            ps_n_fft := d; ps_win_length := e; ps_hop_length := f;
                            ps_window := g |} |}.
  codec_record.
Defined.
End Configs.

(** ** The archive of a module *)

Section Archive.
Context {R : Type} `{Scalar R} `{!ScalarLaws R}.

Definition kind_tag (k : transform_kind R) : Z :=
  match k with
  | Spectrogram _ => 0 | InverseSpectrogram _ => 1 | GriffinLim _ => 2
  | AmplitudeToDB _ => 3 | MelScale _ => 4 | MelSpectrogram _ => 5 | MFCC _ => 6
  | LFCC _ => 7 | Resample _ => 8 | ComplexNorm _ => 9 | MuLawEncoding _ => 10
  | MuLawDecoding _ => 11 | Fade _ => 12 | FrequencyMasking _ => 13
  | TimeMasking _ => 14 | Vol _ => 15 | SlidingWindowCmn _ => 16 | Vad _ => 17
  | SpectralCentroid _ => 18 | TimeStretch _ => 19 | PitchShift _ => 20
  end.

(** The kind tag, then the configuration. *)
Definition enc_kind (k : transform_kind R) : list Z :=
  kind_tag k ::
  match k with
  | Spectrogram c => enc c | InverseSpectrogram c => enc c | GriffinLim c => enc c
  | AmplitudeToDB c => enc c | MelScale c => enc c | MelSpectrogram c => enc c
  | MFCC c => enc c | LFCC c => enc c | Resample c => enc c | ComplexNorm p => enc p
  | MuLawEncoding q => enc q | MuLawDecoding q => enc q | Fade c => enc c
  | FrequencyMasking c => enc c | TimeMasking c => enc c | Vol c => enc c
  | SlidingWindowCmn c => enc c | Vad c => enc c | SpectralCentroid c => enc c
  | TimeStretch c => enc c | PitchShift c => enc c
  end.

(** A tag outside the catalog is [UnknownKind]. *)
Definition dec_kind : parser (transform_kind R) :=
  let* tag := p_word in
  match tag with
  | 0%Z => let* c := dec in p_ret (Spectrogram c)
  | 1%Z => let* c := dec in p_ret (InverseSpectrogram c)
  | 2%Z => let* c := dec in p_ret (GriffinLim c)
  | 3%Z => let* c := dec in p_ret (AmplitudeToDB c)
  | 4%Z => let* c := dec in p_ret (MelScale c)
  | 5%Z => let* c := dec in p_ret (MelSpectrogram c)
  | 6%Z => let* c := dec in p_ret (MFCC c)
  | 7%Z => let* c := dec in p_ret (LFCC c)
  | 8%Z => let* c := dec in p_ret (Resample c)
  | 9%Z => let* p := dec in p_ret (ComplexNorm p)
  | 10%Z => let* q := dec in p_ret (MuLawEncoding q)
  | 11%Z => let* q := dec in p_ret (MuLawDecoding q)
  | 12%Z => let* c := dec in p_ret (Fade c)
  | 13%Z => let* c := dec in p_ret (FrequencyMasking c)
  | 14%Z => let* c := dec in p_ret (TimeMasking c)
  | 15%Z => let* c := dec in p_ret (Vol c)
  | 16%Z => let* c := dec in p_ret (SlidingWindowCmn c)
  | 17%Z => let* c := dec in p_ret (Vad c)
  | 18%Z => let* c := dec in p_ret (SpectralCentroid c)
  | 19%Z => let* c := dec in p_ret (TimeStretch c)
  | 20%Z => let* c := dec in p_ret (PitchShift c)
  | _ => p_fail (UnknownKind tag)
  end.

Lemma dec_kind_enc (k : transform_kind R) (ws : list Z) :
  dec_kind (enc_kind k ++ ws) = Ok (k, ws).
Proof.
  unfold dec_kind, enc_kind. rewrite <- app_comm_cons, p_bind_word.
  destruct k; cbv beta iota delta [kind_tag]; by rewrite p_bind_dec.
Qed.

Definition format_version : Z := 1.

(** [torch.jit.script(m).save(path)]: the format version, the kind
    and configuration, the device and the dtype of the buffers. *)
Definition export (m : transform R) : list Z :=
  format_version :: enc_kind (tr_kind m) ++ enc (tr_device m) ++ enc (tr_dtype m).

Definition p_module : parser (transform R) :=
  let* v := p_word in
  if decide (v = format_version) then
    let* k := dec_kind in let* dev := dec in let* d := dec in
    p_ret {| tr_kind := k; tr_device := dev; tr_dtype := d |}
  else p_fail (VersionMismatch v).

(** [torch.jit.load]: the whole archive must be consumed. *)
Definition import (ws : list Z) : result (transform R) :=
  '(m, rest) ← p_module ws;
  match rest with [] => Ok m | _ :: _ => Err ConfigDecodeError end.
End Archive.

(** ** Properties of the bridge *)

Section BridgeLemmas.
Context {R : Type} `{Scalar R} `{!ScalarLaws R}.

Lemma p_bind_kind {B} (k : transform_kind R -> parser B) (a : transform_kind R) ws :
  p_bind dec_kind k (enc_kind a ++ ws) = k a ws.
Proof. unfold p_bind at 1. by rewrite dec_kind_enc. Qed.

Lemma p_module_export (m : transform R) (ws : list Z) :
  p_module (export m ++ ws) = Ok (m, ws).
Proof.
  unfold p_module, export. rewrite <- app_comm_cons, p_bind_word. cbv beta.
  rewrite decide_True by done. rewrite <- !app_assoc, p_bind_kind, !p_bind_dec.
  by destruct m.
Qed.

(** Reloading what was saved gives the module back: the kind, the
    whole configuration, the device and the dtype. *)
Theorem import_export (m : transform R) : import (export m) = Ok m.
Proof.
  unfold import. rewrite <- (app_nil_r (export m)), p_module_export. done.
Qed.

(** An archive of another format version is refused. *)
Lemma import_version_mismatch (v : Z) (ws : list Z) :
  v <> format_version -> import (v :: ws) = @Err (transform R) (VersionMismatch v).
Proof.
  intros Hv. unfold import, p_module. rewrite p_bind_word. cbv beta.
  by rewrite decide_False.
Qed.

(** A kind tag outside the catalog is [UnknownKind]. *)
Lemma import_unknown_kind (tag : Z) (ws : list Z) :
  (tag < 0 \/ 20 < tag)%Z ->
  import (format_version :: tag :: ws) = @Err (transform R) (UnknownKind tag).
Proof.
  intros Ht. unfold import, p_module. rewrite p_bind_word. cbv beta.
  rewrite decide_True by done. unfold dec_kind at 1. unfold p_bind at 1 2; simpl.
  destruct tag as [|p|p]; [lia| |done].
  do 5 (try destruct p as [p|p|]); try done; lia.
Qed.

(** Words left after the module are a corrupt archive. *)
Lemma import_trailing (m : transform R) (w : Z) (ws : list Z) :
  import (export m ++ w :: ws) = @Err (transform R) ConfigDecodeError.
Proof. unfold import. by rewrite p_module_export. Qed.
End BridgeLemmas.

