(* ===== verification/Harness.v ===== *)
(** * The consistency harness ([Transforms._assert_consistency] and
      [Transforms._assert_consistency_complex])

    src/test/torchaudio_unittest/transforms/torchscript_consistency_impl.py,
    lines 15-43.  A test runs against a world made of the temporary
    directory's files (a map from paths to saved archives) and the
    state of the global random generator.  A Python exception is an
    [Err]; as in Python, what was done before it (a file written, a
    draw taken) stays done, so a step returns its result together with
    the world after it. *)

From stdpp Require Import base list gmap strings.
From S2P Require Import Prelude Tensor Catalog Kernels Instances Apply Wellformed Serialize.

(** ** The world *)

Record world (G : Type) := mk_world {
  w_files : gmap string (list Z);
  w_rng : G;
}.
Arguments mk_world {G} w_files w_rng.
Arguments w_files {G} w.
Arguments w_rng {G} w.

(** The test-class attributes the harness reads ([TestBaseMixin]:
    [self.device], [self.dtype], [self.complex_dtype]; [TempDirMixin]:
    the temporary directory). *)
Record test_ctx := {
  tc_device : device;
  tc_dtype : dtype;
  tc_complex_dtype : dtype;
  tc_temp_dir : string;
}.

(** A step of a test: the state-exception monad over the world. *)
Definition M (G A : Type) : Type := SE (world G) A.

Section HarnessDef.
Context {R G : Type} `{Scalar R} `{!ScalarLaws R} `{Dsp R} `{Rng R G}.

(** [TempDirMixin.get_temp_path(name)] *)
Definition get_temp_path (tc : test_ctx) (name : string) : string :=
  tc_temp_dir tc +:+ "/" +:+ name.

(** [torch.jit.script(transform).save(path)]: the archive replaces
    whatever the path held. *)
Definition jit_save (m : transform R) (path : string) : M G unit :=
  fun w => (Ok tt, mk_world (<[path := export m]> (w_files w)) (w_rng w)).

(** [torch.jit.load(path)] *)
Definition jit_load (path : string) : M G (transform R) :=
  fun w => (ws ← of_option (FileNotFound path) (w_files w !! path); import ws, w).

(** [transform(tensor)]: the forward, drawing from the global generator. *)
Definition call (m : transform R) (x : tensor R) : M G (tensor R) :=
  fun w => match forward m x (w_rng w) with
           | Ok (y, g') => (Ok y, mk_world (w_files w) g')
           | Err e => (Err e, w)
           end.

(** [self.assertEqual(ts_output, output)] *)
Definition assert_equal (a b : tensor R) : M G unit :=
  m_lift (ensure (tensor_close a b) AssertionError).

(** Lines 17-27. *)
Definition assert_consistency (tc : test_ctx) (transform : transform R)
    (tensor : tensor R) : M G unit :=
  let tensor := tensor_to (tc_device tc) (tc_dtype tc) tensor in
  let! transform := m_lift (module_to (tc_device tc) (tc_dtype tc) transform) in
  let path := get_temp_path tc "transform.zip" in
  let! _ := jit_save transform path in
  let! ts_transform := jit_load path in
  let! output := call transform tensor in
  let! ts_output := call ts_transform tensor in
  assert_equal ts_output output.

(** Lines 29-43: the input must be complex; it moves to the complex
    dtype, the module to the real one, and with [test_pseudo_complex]
    both modules get the pseudo-complex view of the input. *)
Definition assert_consistency_complex (tc : test_ctx) (transform : transform R)
    (tensor : tensor R) (test_pseudo_complex : bool) : M G unit :=
  let! _ := m_lift (ensure (is_complex tensor) AssertionError) in
  let tensor := tensor_to (tc_device tc) (tc_complex_dtype tc) tensor in
  let! transform := m_lift (module_to (tc_device tc) (tc_dtype tc) transform) in
  let path := get_temp_path tc "transform.zip" in
  let! _ := jit_save transform path in
  let! ts_transform := jit_load path in
  let! tensor := (if test_pseudo_complex then m_lift (view_as_real tensor)
                  else m_ret tensor) in
  let! output := call transform tensor in
  let! ts_output := call ts_transform tensor in
  assert_equal ts_output output.
End HarnessDef.

(** ** What the harness checks *)

Section HarnessLemmas.
Context {R G : Type} `{Scalar R} `{!ScalarLaws R} `{Dsp R} `{Rng R G}.

Lemma module_to_kind (dev : device) (d : dtype) (m m' : transform R) :
  module_to dev d m = Ok m' ->
  tr_kind m' = tr_kind m /\ tr_device m' = dev /\ tr_dtype m' = d.
Proof. unfold module_to, ensure. destruct (_ || _); simpl; intros; by simplify_eq/=. Qed.

(** Calling a module that is not randomised twice in a row: the
    second call returns what the first returned. *)
Lemma call_twice (m : transform R) (x : tensor R) (w : world G) (y : tensor R) (g : G) :
  randomised (tr_kind m) = false ->
  forward m x (w_rng w) = Ok (y, g) ->
  forward m x g = Ok (y, g).
Proof.
  intros Hr Hf. rewrite (forward_rng_indep m x g (w_rng w) Hr), Hf. done.
Qed.

(** The eager and the reloaded modules agree on a call's outcome. *)
Lemma calls_agree (m : transform R) (x : tensor R) (w : world G) :
  randomised (tr_kind m) = false ->
  (m_bind (call m x) (fun output => m_bind (call m x) (fun ts_output =>
     assert_equal ts_output output)) w).1
  = (forward m x (w_rng w) ≫= fun _ => Ok tt).
Proof.
  intros Hr. unfold m_bind, call.
  destruct (forward m x (w_rng w)) as [[y g]|e] eqn:Hf; simpl; [|done].
  rewrite (call_twice m x w y g Hr Hf); simpl.
  unfold assert_equal, m_lift. by rewrite tensor_close_refl.
Qed.

(** Loading the path just saved gives the saved module back, whatever
    the path held before: the save overwrites a stale archive. *)
Lemma save_then_load {A} (m : transform R) (path : string)
    (k : transform R -> M G A) (w : world G) :
  m_bind (jit_save m path) (fun _ => m_bind (jit_load path) k) w
  = k m (mk_world (<[path := export m]> (w_files w)) (w_rng w)).
Proof.
  unfold m_bind, jit_save, jit_load; simpl.
  rewrite lookup_insert_eq; simpl. unfold import.
  by rewrite <- (app_nil_r (export m)), p_module_export.
Qed.

(** The harness passes on a module that is not randomised as soon as
    the moved module runs on the moved input. *)
Lemma assert_consistency_passes (tc : test_ctx) (m m' : transform R) (x : tensor R)
    (w : world G) :
  randomised (tr_kind m) = false ->
  module_to (tc_device tc) (tc_dtype tc) m = Ok m' ->
  (exists y g, forward m' (tensor_to (tc_device tc) (tc_dtype tc) x) (w_rng w) = Ok (y, g)) ->
  (assert_consistency tc m x w).1 = Ok tt.
Proof.
  intros Hr Hto (y & g & Hf). destruct (module_to_kind _ _ _ _ Hto) as (Hk & _ & _).
  rewrite <- Hk in Hr. unfold assert_consistency.
  unfold m_bind at 1, m_lift at 1. rewrite Hto, save_then_load.
  rewrite (calls_agree m' _ (mk_world _ (w_rng w)) Hr). simpl. by rewrite Hf.
Qed.

(** C1: On a module that is not randomised, [_assert_consistency] succeeds exactly
    when the forward of the moved module on the moved input succeeds: the saved and
    reloaded module gives the same output as the eager one. *)
Theorem assert_consistency_spec (tc : test_ctx) (m m' : transform R) (x : tensor R)
    (w : world G) :
  randomised (tr_kind m) = false ->
  module_to (tc_device tc) (tc_dtype tc) m = Ok m' ->
  (assert_consistency tc m x w).1
  = (forward m' (tensor_to (tc_device tc) (tc_dtype tc) x) (w_rng w) ≫= fun _ => Ok tt).
Proof.
  intros Hr Hto. destruct (module_to_kind _ _ _ _ Hto) as (Hk & _ & _).
  rewrite <- Hk in Hr. unfold assert_consistency.
  unfold m_bind at 1, m_lift at 1. rewrite Hto, save_then_load.
  apply (calls_agree m' _ (mk_world _ (w_rng w)) Hr).
Qed.
(** The steps of [_assert_consistency_complex] up to its two calls. *)
Lemma assert_consistency_complex_steps (tc : test_ctx) (m m' : transform R)
    (x : tensor R) (w : world G) (pseudo : bool) :
  is_complex x = true -> module_to (tc_device tc) (tc_dtype tc) m = Ok m' ->
  (assert_consistency_complex tc m x pseudo w).1
  = (let xc := tensor_to (tc_device tc) (tc_complex_dtype tc) x in
     x' ← (if pseudo then view_as_real xc else Ok xc);
     (m_bind (call m' x') (fun output => m_bind (call m' x') (fun ts_output =>
        assert_equal ts_output output))
        (mk_world (<[get_temp_path tc "transform.zip" := export m']> (w_files w)) (w_rng w))).1).
Proof.
  intros Hc Hto. unfold assert_consistency_complex.
  unfold m_bind at 1, m_lift at 1. rewrite Hc. cbv beta iota.
  unfold m_bind at 1, m_lift at 1. rewrite Hto, save_then_load.
  destruct pseudo; [|done]. unfold m_bind at 1, m_lift at 1.
  by destruct (view_as_real (tensor_to (tc_device tc) (tc_complex_dtype tc) x)).
Qed.

(** C2: On a module that is not randomised and a complex input,
    [_assert_consistency_complex] succeeds exactly when the forward of the moved
    module succeeds on the input moved to the complex dtype (or on its pseudo-complex
    view with [test_pseudo_complex]). *)
Theorem assert_consistency_complex_spec (tc : test_ctx) (m m' : transform R)
    (x : tensor R) (w : world G) (pseudo : bool) :
  randomised (tr_kind m) = false ->
  is_complex x = true ->
  module_to (tc_device tc) (tc_dtype tc) m = Ok m' ->
  (assert_consistency_complex tc m x pseudo w).1
  = (let xc := tensor_to (tc_device tc) (tc_complex_dtype tc) x in
     x' ← (if pseudo then view_as_real xc else Ok xc);
     forward m' x' (w_rng w) ≫= fun _ => Ok tt).
Proof.
  intros Hr Hc Hto. destruct (module_to_kind _ _ _ _ Hto) as (Hk & _ & _).
  rewrite <- Hk in Hr. rewrite (assert_consistency_complex_steps tc m m') by done. cbv zeta.
  destruct pseudo; [destruct (view_as_real (tensor_to (tc_device tc) (tc_complex_dtype tc) x)); simpl; [|done] | simpl];
    apply (calls_agree m' _ (mk_world _ (w_rng w)) Hr).
Qed.

(** With [test_pseudo_complex] and without it, the harness reaches
    the same verdict on a module that treats a complex input and its
    pseudo-complex view alike. *)
Lemma assert_consistency_complex_pseudo (tc : test_ctx) (m m' : transform R)
    (x : tensor R) (w : world G) :
  randomised (tr_kind m) = false -> is_complex x = true ->
  module_to (tc_device tc) (tc_dtype tc) m = Ok m' ->
  (let xc := tensor_to (tc_device tc) (tc_complex_dtype tc) x in
   (r ← view_as_real xc; forward m' r (w_rng w) ≫= fun _ => Ok tt)
   = (forward m' xc (w_rng w) ≫= fun _ => Ok tt)) ->
  (assert_consistency_complex tc m x true w).1 = (assert_consistency_complex tc m x false w).1.
Proof.
  intros Hr Hc Hto Hp. destruct (module_to_kind _ _ _ _ Hto) as (Hk & _ & _).
  rewrite <- Hk in Hr. rewrite !(assert_consistency_complex_steps tc m m') by done. cbv zeta in *.
  destruct (view_as_real (tensor_to (tc_device tc) (tc_complex_dtype tc) x)) as [r|e];
    cbn [mbind result_bind] in *; rewrite !(calls_agree m' _ (mk_world _ (w_rng w)) Hr);
    exact Hp.
Qed.

(** The complex harness without [test_pseudo_complex] passes on a
    module that is not randomised as soon as the moved module runs on
    the input moved to the complex dtype. *)
Lemma assert_consistency_complex_passes (tc : test_ctx) (m m' : transform R)
    (x : tensor R) (w : world G) :
  randomised (tr_kind m) = false -> is_complex x = true ->
  module_to (tc_device tc) (tc_dtype tc) m = Ok m' ->
  (exists y g, forward m' (tensor_to (tc_device tc) (tc_complex_dtype tc) x) (w_rng w)
               = Ok (y, g)) ->
  (assert_consistency_complex tc m x false w).1 = Ok tt.
Proof.
  intros Hr Hc Hto (y & g & Hf). destruct (module_to_kind _ _ _ _ Hto) as (Hk & _ & _).
  rewrite <- Hk in Hr. rewrite (assert_consistency_complex_steps tc m m') by done. cbv zeta.
  cbn [mbind result_bind]. rewrite (calls_agree m' _ (mk_world _ (w_rng w)) Hr). simpl.
  by rewrite Hf.
Qed.

(** A call of a module that does not draw leaves the world as it was. *)
Lemma call_frame (m : transform R) (x : tensor R) (w : world G) :
  randomised (tr_kind m) = false -> (call m x w).2 = w.
Proof.
  intros Hr. unfold call. rewrite (forward_rng_indep m x (w_rng w) (w_rng w) Hr).
  destruct w as [files g]; cbn. by destruct (forward m x g) as [[y g']|e].
Qed.

(** C37: The only trace [_assert_consistency] leaves in the world, pass or
    fail, is the archive of the moved module at the temporary path: the
    other files and, for a module that does not draw, the generator are
    as they were, so one test cannot disturb the next. *)
Theorem assert_consistency_world (tc : test_ctx) (m m' : transform R) (x : tensor R)
    (w : world G) :
  randomised (tr_kind m) = false ->
  module_to (tc_device tc) (tc_dtype tc) m = Ok m' ->
  (assert_consistency tc m x w).2
  = mk_world (<[get_temp_path tc "transform.zip" := export m']> (w_files w)) (w_rng w).
Proof.
  intros Hr Hto. destruct (module_to_kind _ _ _ _ Hto) as (Hk & _ & _).
  rewrite <- Hk in Hr. unfold assert_consistency.
  unfold m_bind at 1, m_lift at 1. rewrite Hto, save_then_load.
  set (w1 := mk_world _ _). set (x' := tensor_to _ _ x).
  pose proof (call_frame m' x' w1 Hr) as F. unfold m_bind.
  destruct (call m' x' w1) as [[y|e] w2]; cbn in F; subst w2; [|done].
  pose proof (call_frame m' x' w1 Hr) as F.
  destruct (call m' x' w1) as [[y'|e'] w3]; cbn in F; by subst w3.
Qed.

(** Whatever the module, the verdict of [_assert_consistency] is the
    comparison of the two calls, the second drawing from the generator
    the first left. *)
Lemma assert_consistency_outcome (tc : test_ctx) (m m' : transform R) (x : tensor R)
    (w : world G) (y1 y2 : tensor R) (g1 g2 : G) :
  module_to (tc_device tc) (tc_dtype tc) m = Ok m' ->
  forward m' (tensor_to (tc_device tc) (tc_dtype tc) x) (w_rng w) = Ok (y1, g1) ->
  forward m' (tensor_to (tc_device tc) (tc_dtype tc) x) g1 = Ok (y2, g2) ->
  (assert_consistency tc m x w).1 = ensure (tensor_close y2 y1) AssertionError.
Proof.
  intros Hto Hf1 Hf2. unfold assert_consistency.
  unfold m_bind at 1, m_lift at 1. rewrite Hto, save_then_load.
  unfold m_bind, call; cbn [w_rng w_files]. rewrite Hf1; cbn [w_rng]. by rewrite Hf2.
Qed.

(** C3: [torch.jit.load] of the path [torch.jit.script(m).save]
    has just written gives the module back (kind, whole configuration,
    device and dtype), whatever the path held before; the save leaves
    the generator alone. *)
Theorem jit_save_load (m : transform R) (path : string) (w : world G) :
  m_bind (jit_save m path) (fun _ => jit_load path) w
  = (Ok m, mk_world (<[path := export m]> (w_files w)) (w_rng w)).
Proof.
  unfold m_bind, jit_save, jit_load; simpl. rewrite lookup_insert_eq; simpl.
  by rewrite import_export.
Qed.


(** C18: An archive of another format version is refused with [VersionMismatch]. *)
Lemma jit_load_version_mismatch (path : string) (w : world G) (v : Z) (ws : list Z) :
  w_files w !! path = Some (v :: ws) -> v <> format_version ->
  jit_load path w = (Err (VersionMismatch v), w).
Proof. intros Hp Hv. unfold jit_load. rewrite Hp; simpl. by rewrite import_version_mismatch. Qed.

(** C19: An archive whose kind tag is outside the catalog is refused with
    [UnknownKind]. *)
Lemma jit_load_unknown_kind (path : string) (w : world G) (tag : Z) (ws : list Z) :
  w_files w !! path = Some (format_version :: tag :: ws) -> (tag < 0 \/ 20 < tag)%Z ->
  jit_load path w = (Err (UnknownKind tag), w).
Proof. intros Hp Ht. unfold jit_load. rewrite Hp; simpl. by rewrite import_unknown_kind. Qed.

(** C20: An archive with words after the saved module is corrupt:
    [ConfigDecodeError]. *)
Lemma jit_load_trailing (path : string) (w : world G) (m : transform R) (x : Z) (ws : list Z) :
  w_files w !! path = Some (export m ++ x :: ws) ->
  jit_load path w = (Err ConfigDecodeError, w).
Proof. intros Hp. unfold jit_load. rewrite Hp. cbn [of_option mbind result_bind]. by rewrite import_trailing. Qed.

(** C16: A real input is refused by the [assert tensor.is_complex()] before
    anything else happens. *)
Lemma assert_consistency_complex_real (tc : test_ctx) (m : transform R)
    (x : tensor R) (w : world G) (pseudo : bool) :
  is_complex x = false -> assert_consistency_complex tc m x pseudo w = (Err AssertionError, w).
Proof. intros Hc. unfold assert_consistency_complex, m_bind, m_lift. by rewrite Hc. Qed.

End HarnessLemmas.

(** ** Witnesses: the CPU [float32] test class, the kernels of [Instances] *)

(** The CPU [float32] test class of the test suite. *)
Definition cpu_float32 : test_ctx :=
  {| tc_device := CPU; tc_dtype := Float32; tc_complex_dtype := Complex64;
     tc_temp_dir := "/tmp/transforms" |}.

Definition empty_world : world (list Z) := mk_world ∅ [].

Definition vol_module : transform Z :=
  new_module (Vol {| vl_gain := 1100%Z; vl_gain_type := Amplitude |}).

Definition wave4 : tensor Z := mk_tensor [1; 4] Float32 CPU (SReal [0; 250; 500; 750]%Z).

Lemma assert_consistency_spec_witness :
  randomised (tr_kind vol_module) = false
  /\ module_to CPU Float32 vol_module = Ok vol_module
  /\ (assert_consistency cpu_float32 vol_module wave4 empty_world).1
     = (forward vol_module (tensor_to CPU Float32 wave4) [] ≫= fun _ => Ok tt).
Proof. witness_by assert_consistency_spec. Defined.

Definition stretch_module : transform Z :=
  new_module (TimeStretch {| ts_n_freq := 2; ts_hop_length := 1; ts_fixed_rate := Some 1300%Z |}).

Definition cx_input : tensor Z := mk_tensor [2; 1] Complex64 CPU (SCplx [(1000, 0); (500, -250)]%Z).

Lemma assert_consistency_complex_spec_witness :
  randomised (tr_kind stretch_module) = false /\ is_complex cx_input = true
  /\ module_to CPU Float32 stretch_module = Ok stretch_module
  /\ (assert_consistency_complex cpu_float32 stretch_module cx_input true empty_world).1
     = (x' ← view_as_real (tensor_to CPU Complex64 cx_input);
        forward stretch_module x' [] ≫= fun _ => Ok tt).
Proof. witness_by assert_consistency_complex_spec. Defined.

Lemma assert_consistency_complex_real_witness :
  is_complex wave4 = false
  /\ assert_consistency_complex cpu_float32 stretch_module wave4 false empty_world
     = (Err AssertionError, empty_world).
Proof. witness_by assert_consistency_complex_real. Defined.

Definition stale_world : world (list Z) :=
  mk_world (<["/tmp/transforms/transform.zip" := [2; 0]%Z]> ∅) [].


Lemma jit_load_version_mismatch_witness :
  w_files stale_world !! "/tmp/transforms/transform.zip" = Some [2; 0]%Z
  /\ (2 <> format_version)%Z
  /\ jit_load (R := Z) "/tmp/transforms/transform.zip" stale_world
     = (Err (VersionMismatch 2), stale_world).
Proof.
  assert (Hp : w_files stale_world !! "/tmp/transforms/transform.zip" = Some [2; 0]%Z)
    by reflexivity.
  assert (Hv : (2 <> format_version)%Z) by (unfold format_version; lia).
  split; [exact Hp | split; [exact Hv | exact (jit_load_version_mismatch _ stale_world _ _ Hp Hv)]].
Defined.

Definition bad_tag_world : world (list Z) :=
  mk_world (<["/tmp/transforms/transform.zip" := [format_version; 21]%Z]> ∅) [].

Lemma jit_load_unknown_kind_witness :
  w_files bad_tag_world !! "/tmp/transforms/transform.zip" = Some [format_version; 21]%Z
  /\ (21 < 0 \/ 20 < 21)%Z
  /\ jit_load (R := Z) "/tmp/transforms/transform.zip" bad_tag_world
     = (Err (UnknownKind 21), bad_tag_world).
Proof.
  assert (Hp : w_files bad_tag_world !! "/tmp/transforms/transform.zip"
               = Some [format_version; 21]%Z) by reflexivity.
  assert (Ht : (21 < 0 \/ 20 < 21)%Z) by lia.
  split; [exact Hp | split; [exact Ht | exact (jit_load_unknown_kind _ bad_tag_world _ [] Hp Ht)]].
Defined.

Definition trailing_world : world (list Z) :=
  mk_world (<["/tmp/transforms/transform.zip" := export vol_module ++ [7%Z]]> ∅) [].

Lemma jit_load_trailing_witness :
  w_files trailing_world !! "/tmp/transforms/transform.zip" = Some (export vol_module ++ [7%Z])
  /\ jit_load "/tmp/transforms/transform.zip" trailing_world
     = (Err ConfigDecodeError, trailing_world).
Proof.
  assert (Hp : w_files trailing_world !! "/tmp/transforms/transform.zip"
               = Some (export vol_module ++ [7%Z])) by reflexivity.
  split; [exact Hp | exact (jit_load_trailing _ trailing_world vol_module 7 [] Hp)].
Defined.

Lemma jit_save_load_witness :
  m_bind (jit_save vol_module "/tmp/transforms/transform.zip")
    (fun _ => jit_load "/tmp/transforms/transform.zip") stale_world
  = (Ok vol_module, mk_world (<["/tmp/transforms/transform.zip" := export vol_module]>
                               (w_files stale_world)) (w_rng stale_world)).
Proof. exact (jit_save_load vol_module "/tmp/transforms/transform.zip" stale_world). Defined.


Lemma assert_consistency_world_witness :
  randomised (tr_kind vol_module) = false
  /\ module_to CPU Float32 vol_module = Ok vol_module
  /\ (assert_consistency cpu_float32 vol_module wave4 empty_world).2
     = mk_world (<["/tmp/transforms/transform.zip" := export vol_module]> ∅) [].
Proof. witness_by assert_consistency_world. Defined.
