(* ===== verification/Tests.v ===== *)
(** * The test methods of [Transforms]

    src/test/torchaudio_unittest/transforms/torchscript_consistency_impl.py,
    lines 45-157: each method builds its input (from [torch.rand], which
    draws from the global generator, or from a fixture), constructs its
    transform with the keyword arguments of the source and the defaults
    of the others, and runs the harness on them.  The methods on the
    spectral transforms and their theorems are in [SpectralTests]. *)

From stdpp Require Import base list gmap strings.
From S2P Require Import Prelude Tensor Catalog Kernels Instances Apply Shapes Serialize Harness.

#[local] Set Warnings "-abstract-large-number".

Section TestDefs.
Context {R G : Type} `{Scalar R} `{!ScalarLaws R} `{Dsp R} `{Rng R G} `{Fixtures R}.

(** [torch.rand(shape)]: a [float32] CPU tensor of uniform draws. *)
Definition torch_rand (shape : list nat) : M G (tensor R) :=
  fun w => let '(xs, g') := rng_rands (numel shape) (w_rng w) in
           (Ok (mk_tensor shape Float32 CPU (SReal xs)), mk_world (w_files w) g').

Definition two : R := s_of_dec 2 0.

Definition test_Spectrogram (tc : test_ctx) : M G unit :=
  let! tensor := torch_rand [1; 1000] in
  let! t := m_lift (Spectrogram_init 400 None None 0 Hann (Some two) false false) in
  assert_consistency tc t tensor.

Definition test_AmplitudeToDB (tc : test_ctx) : M G unit :=
  let! spec := torch_rand [6; 201] in
  let! t := m_lift (AmplitudeToDB_init Power None) in
  assert_consistency tc t spec.

Definition test_Resample (tc : test_ctx) : M G unit :=
  let sr1 := 16000 in
  let sr2 := 8000 in
  let tensor := get_whitenoise sr1 in
  let! t := m_lift (Resample_init sr1 sr2 6 (s_of_dec 99 (-2))) in
  assert_consistency tc t tensor.

Definition test_MuLawEncoding (tc : test_ctx) : M G unit :=
  let tensor := get_whitenoise 16000 in
  let! t := m_lift (MuLawEncoding_init 256) in
  assert_consistency tc t tensor.

Definition test_MuLawDecoding (tc : test_ctx) : M G unit :=
  let! tensor := torch_rand [1; 10] in
  let! t := m_lift (MuLawDecoding_init 256) in
  assert_consistency tc t tensor.

Definition test_Fade (tc : test_ctx) : M G unit :=
  let waveform := get_whitenoise 16000 in
  let fade_in_len := 3000 in
  let fade_out_len := 3000 in
  let! t := m_lift (Fade_init fade_in_len fade_out_len Linear) in
  assert_consistency tc t waveform.

Definition test_Vol (tc : test_ctx) : M G unit :=
  let waveform := get_whitenoise 16000 in
  let! t := m_lift (Vol_init (s_of_dec 11 (-1)) Amplitude) in
  assert_consistency tc t waveform.

Definition test_SlidingWindowCmn (tc : test_ctx) : M G unit :=
  let! tensor := torch_rand [1000; 10] in
  let! t := m_lift (SlidingWindowCmn_init 600 100 false false) in
  assert_consistency tc t tensor.

Definition test_Vad (tc : test_ctx) : M G unit :=
  let filepath := get_asset_path "vad-go-mono-32000.wav" in
  let '(waveform, sample_rate) := load_wav filepath in
  let! t := m_lift (Vad_init sample_rate) in
  assert_consistency tc t waveform.

(** Parameterized over [test_pseudo_complex] in [True, False]. *)
Definition test_TimeStretch (tc : test_ctx) (test_pseudo_complex : bool) : M G unit :=
  let n_freq := 400 in
  let hop_length := 512 in
  let fixed_rate := s_of_dec 13 (-1) in
  let! r := torch_rand [10; 2; n_freq; 10; 2] in
  let! tensor := m_lift (view_as_complex r) in
  let! t := m_lift (TimeStretch_init (Some hop_length) n_freq (Some fixed_rate)) in
  assert_consistency_complex tc t tensor test_pseudo_complex.

Definition test_PitchShift (tc : test_ctx) : M G unit :=
  let sample_rate := 8000 in
  let n_steps := 4%Z in
  let waveform := get_whitenoise sample_rate in
  let! t := m_lift (PitchShift_init sample_rate n_steps 12 512 None None Hann) in
  assert_consistency tc t waveform.
End TestDefs.

(** ** The tests that pass *)

Section TestLemmas.
Context {R G : Type} `{Scalar R} `{!ScalarLaws R} `{Dsp R} `{!DspLaws R} `{Rng R G}
  `{Fixtures R} `{!FixtureLaws R}.

Lemma torch_rand_spec (shape : list nat) (w : world G) :
  exists xs g', torch_rand shape w
    = (Ok (mk_tensor shape Float32 CPU (SReal xs)), mk_world (w_files w) g')
    /\ length xs = numel shape.
Proof.
  unfold torch_rand. pose proof (length_rng_rands (numel shape) (w_rng w)) as Hl.
  destruct (rng_rands _ _) as [xs g']. eauto.
Qed.

Lemma module_to_floating (dev : device) (d : dtype) (m : transform R) :
  is_floating_dtype d = true ->
  module_to dev d m = Ok {| tr_kind := tr_kind m; tr_device := dev; tr_dtype := d |}.
Proof. unfold module_to, ensure. by intros ->. Qed.

(** After the harness's moves, the buffers and the input agree. *)
Lemma check_buffers_moved (k : transform_kind R) (x : tensor R) (dev : device) (d : dtype) :
  is_floating_dtype d = true ->
  check_buffers {| tr_kind := k; tr_device := dev; tr_dtype := d |} (tensor_to dev d x)
  = Ok tt.
Proof.
  intros Hd. destruct (tensor_to_shape dev d x) as (_ & Hdt & Hdev).
  unfold check_buffers; cbn [tr_kind tr_device tr_dtype]. destruct (has_buffers k); [|done].
  rewrite Hdev, Hdt, !bool_decide_eq_true_2 by (by destruct d). done.
Qed.

(** The floating dtypes are real. *)
Lemma floating_not_complex (d : dtype) :
  is_floating_dtype d = true -> is_complex_dtype d = false.
Proof. by destruct d. Qed.

(** [T.Spectrogram()] and its keyword variants: a 400-sample frame,
    hop 200. *)
Lemma Spectrogram_init_default (p : option R) (rc : bool) :
  Spectrogram_init 400 None None 0 Hann p false rc
  = Ok (new_module (Spectrogram
      {| sp_n_fft := 400; sp_win_length := 400; sp_hop_length := 200; sp_pad := 0;
         sp_window := Hann; sp_power := p; sp_normalized := false;
         sp_return_complex := rc |})).
Proof. reflexivity. Qed.

(** C6: [test_Spectrogram] passes on every floating test class, whatever the generator
    state and the kernels (subject to their size laws). *)
Theorem test_Spectrogram_passes (tc : test_ctx) (w : world G) :
  is_floating_dtype (tc_dtype tc) = true -> (test_Spectrogram tc w).1 = Ok tt.
Proof.
  intros Hd. destruct (torch_rand_spec [1; 1000] w) as (xs & g' & Hr & Hl).
  unfold test_Spectrogram. rewrite (m_bind_Ok _ _ _ _ _ Hr).
  rewrite Spectrogram_init_default. unfold m_bind at 1, m_lift at 1. cbv beta iota.
  set (x := mk_tensor [1; 1000] Float32 CPU (SReal xs)).
  destruct (tensor_to_real (tc_device tc) (tc_dtype tc) x xs Hd eq_refl) as (xs' & Hx' & Hl').
  destruct (tensor_to_shape (tc_device tc) (tc_dtype tc) x) as (Hs & Hdt & _).
  eapply (assert_consistency_passes tc _ _ x); [reflexivity | by apply module_to_floating|].
  unfold forward. rewrite check_buffers_moved by done.
  cbn [mbind result_bind tr_kind new_module].
  match goal with |- context [spectrogram_fwd ?c _] =>
    destruct (spectrogram_fwd_shape c (tensor_to (tc_device tc) (tc_dtype tc) x) xs' [1] 1000
      two Hx') as (y & -> & _) end;
    first [ by eexists _, _ | done | by rewrite Hs | by rewrite Hl', Hs, Hl
          | rewrite Hdt; by apply floating_not_complex | simpl; lia ].
Qed.

(** C7: The two parameterizations of [test_TimeStretch] reach the same
    verdict from every generator state: the pseudo-complex run adds
    nothing the complex run does not check. *)
Theorem test_TimeStretch_pseudo_agree (tc : test_ctx) (w : world G) :
  is_floating_dtype (tc_dtype tc) = true -> is_complex_dtype (tc_complex_dtype tc) = true ->
  (test_TimeStretch tc true w).1 = (test_TimeStretch tc false w).1.
Proof.
  intros Hd Hcd. destruct (torch_rand_spec [10; 2; 400; 10; 2] w) as (xs & g' & Hr & Hl).
  unfold test_TimeStretch. rewrite !(m_bind_Ok _ _ _ _ _ Hr), !m_bind_lift.
  set (r := mk_tensor _ _ _ _).
  assert (Hw : wf_tensor r = true) by (apply wf_tensor_iff; split; [reflexivity | exact Hl]).
  destruct (view_as_complex r) as [x|] eqn:Ex; [|done].
  destruct (view_as_complex_wf r x Hw Ex) as [Hxw Hxc].
  assert (Ht : TimeStretch_init (Some 512) 400 (Some (s_of_dec 13 (-1)))
               = Ok (new_module (TimeStretch {| ts_n_freq := 400; ts_hop_length := 512;
                                                ts_fixed_rate := Some (s_of_dec 13 (-1)) |})))
    by reflexivity.
  rewrite !m_bind_lift, Ht.
  eapply (assert_consistency_complex_pseudo tc _ _ x); [reflexivity | done | |].
  - by apply module_to_floating.
  - destruct (tensor_to_shape (tc_device tc) (tc_complex_dtype tc) x) as (_ & Hdt & _).
    eapply forward_stretch_pseudo; [reflexivity | by apply tensor_to_wf |].
    unfold is_complex. by rewrite Hdt.
Qed.

(** The harness passes on a real input and a module that is not
    randomised when the moved module runs on every real tensor of the
    input's shape in the test's dtype and device. *)
Lemma real_input_passes (tc : test_ctx) (m : transform R) (x : tensor R) (xs : list R)
    (w : world G) :
  t_data x = SReal xs -> length xs = numel (t_shape x) ->
  randomised (tr_kind m) = false -> is_floating_dtype (tc_dtype tc) = true ->
  (forall (x' : tensor R) (xs' : list R) (g : G),
     t_data x' = SReal xs' -> length xs' = numel (t_shape x) -> t_shape x' = t_shape x ->
     t_dtype x' = tc_dtype tc -> t_device x' = tc_device tc ->
     exists y g', forward {| tr_kind := tr_kind m; tr_device := tc_device tc;
                             tr_dtype := tc_dtype tc |} x' g = Ok (y, g')) ->
  (assert_consistency tc m x w).1 = Ok tt.
Proof.
  intros Hx Hl Hr Hd Hf.
  apply (assert_consistency_passes tc m
    {| tr_kind := tr_kind m; tr_device := tc_device tc; tr_dtype := tc_dtype tc |} x);
    [done | by apply module_to_floating |].
  destruct (tensor_to_real (tc_device tc) (tc_dtype tc) x xs Hd Hx) as (xs' & Hx' & Hl').
  destruct (tensor_to_shape (tc_device tc) (tc_dtype tc) x) as (Hs & Hdt & Hdev).
  apply (Hf _ xs'); [done | by rewrite Hl' | done | done | done].
Qed.

(** A test that draws its input with [torch.rand(shape)] and builds a
    module that is not randomised passes when the moved module runs on
    every real tensor of that shape in the test's dtype and device. *)
Lemma rand_test_passes (tc : test_ctx) (shape : list nat) (init : result (transform R))
    (m : transform R) (w : world G) :
  init = Ok m -> randomised (tr_kind m) = false -> is_floating_dtype (tc_dtype tc) = true ->
  (forall (x : tensor R) (xs : list R) (g : G),
     t_data x = SReal xs -> length xs = numel shape -> t_shape x = shape ->
     t_dtype x = tc_dtype tc -> t_device x = tc_device tc ->
     exists y g', forward {| tr_kind := tr_kind m; tr_device := tc_device tc;
                             tr_dtype := tc_dtype tc |} x g = Ok (y, g')) ->
  ((let! x := torch_rand shape in let! t := m_lift init in assert_consistency tc t x) w).1
  = Ok tt.
Proof.
  intros Hi Hr Hd Hf. destruct (torch_rand_spec shape w) as (xs & g' & Hrand & Hl).
  rewrite (m_bind_Ok _ _ _ _ _ Hrand), m_bind_lift, Hi.
  by apply (real_input_passes tc m _ xs).
Qed.

(** The same for a test whose input is [get_whitenoise(sample_rate=sr)]. *)
Lemma noise_test_passes (tc : test_ctx) (sr : nat) (init : result (transform R))
    (m : transform R) (w : world G) :
  init = Ok m -> randomised (tr_kind m) = false -> is_floating_dtype (tc_dtype tc) = true ->
  (forall (x : tensor R) (xs : list R) (g : G),
     t_data x = SReal xs -> length xs = numel [1; sr] -> t_shape x = [1; sr] ->
     t_dtype x = tc_dtype tc -> t_device x = tc_device tc ->
     exists y g', forward {| tr_kind := tr_kind m; tr_device := tc_device tc;
                             tr_dtype := tc_dtype tc |} x g = Ok (y, g')) ->
  ((let! t := m_lift init in assert_consistency tc t (get_whitenoise sr)) w).1 = Ok tt.
Proof.
  intros Hi Hr Hd Hf. destruct (get_whitenoise_shape sr) as (xs & Hn & Hl).
  rewrite m_bind_lift, Hi, Hn.
  apply (real_input_passes tc m _ xs); [done | cbn [t_shape]; rewrite numel_pair; lia | done | done |].
  exact Hf.
Qed.

(** The buffers of a module moved to the input's device and floating
    dtype pass the checks. *)
Lemma check_buffers_at (k : transform_kind R) (x : tensor R) (dev : device) (d : dtype) :
  is_floating_dtype d = true -> t_device x = dev -> t_dtype x = d ->
  check_buffers {| tr_kind := k; tr_device := dev; tr_dtype := d |} x = Ok tt.
Proof.
  intros Hd Hdev Hdt. unfold check_buffers; cbn [tr_kind tr_device tr_dtype].
  destruct (has_buffers k); [|done].
  rewrite Hdev, Hdt, !bool_decide_eq_true_2 by (by destruct d). done.
Qed.

(** An elementwise stage on a real tensor keeps its shape. *)
Lemma real_stage_Ok (x : tensor R) (xs ys : list R) (d : dtype) :
  t_data x = SReal xs -> length xs = numel (t_shape x) -> length ys = length xs ->
  is_complex_dtype d = false ->
  make (t_shape x) d (t_device x) (SReal ys) = Ok (mk_tensor (t_shape x) d (t_device x) (SReal ys)).
Proof. intros _ Hl Hy Hd. apply make_real_Ok; [done | lia]. Qed.



(** C10: [test_SlidingWindowCmn] passes on every floating test class
    from every generator state. *)
Theorem test_SlidingWindowCmn_passes (tc : test_ctx) (w : world G) :
  is_floating_dtype (tc_dtype tc) = true -> (test_SlidingWindowCmn tc w).1 = Ok tt.
Proof.
  intros Hd. unfold test_SlidingWindowCmn. eapply rand_test_passes; [reflexivity | done | done |].
  intros x xs g Hx Hl Hs Hdt Hdev. unfold forward, check_buffers; cbn.
  unfold cmn_fwd, real_data. rewrite Hx, Hs; cbn.
  rewrite <- Hs. rewrite (real_stage_Ok x xs); [eauto | done | by rewrite Hs | |].
  - rewrite app_nil_r, dsp_cmn_length, length_take, Hl, numel_pair. lia.
  - rewrite Hdt. auto using floating_not_complex.
Qed.



(** C13: [test_PitchShift] passes on every floating test class. *)
Theorem test_PitchShift_passes (tc : test_ctx) (w : world G) :
  is_floating_dtype (tc_dtype tc) = true -> (test_PitchShift tc w).1 = Ok tt.
Proof.
  intros Hd. unfold test_PitchShift. eapply noise_test_passes; [reflexivity | done | done |].
  intros x xs g Hx Hl Hs Hdt Hdev. unfold forward.
  rewrite check_buffers_at by done. cbn [mbind result_bind tr_kind new_module].
  unfold pitch_fwd, real_data. rewrite Hx. cbn [mbind result_bind].
  pose proof (split_last1_snoc [1] 8000) as Hsp. cbn [app] in Hsp.
  rewrite Hs, Hsp. cbn [mbind result_bind].
  rewrite make_real_Ok; [eauto | rewrite Hdt; auto using floating_not_complex |].
  rewrite (length_batched _ 1 8000 8000); [done | intros ? <-; apply dsp_pitch_shift_length |].
  by rewrite Hl, numel_pair.
Qed.

(** C14: [test_Fade] passes on every floating test class: both fades of
    3000 samples fit in the second of noise. *)
Theorem test_Fade_passes (tc : test_ctx) (w : world G) :
  is_floating_dtype (tc_dtype tc) = true -> (test_Fade tc w).1 = Ok tt.
Proof.
  intros Hd. unfold test_Fade. eapply noise_test_passes; [reflexivity | done | done |].
  intros x xs g Hx Hl Hs Hdt Hdev. unfold forward, check_buffers.
  cbn [mbind result_bind tr_kind has_buffers new_module].
  unfold fade_fwd, real_data. rewrite Hx. cbn [mbind result_bind].
  pose proof (split_last1_snoc [1] 16000) as Hsp. cbn [app] in Hsp.
  rewrite Hs, Hsp. cbn [mbind result_bind fd_in_len fd_out_len].
  rewrite bool_decide_eq_true_2 by (split; apply Nat.leb_le; vm_compute; reflexivity).
  rewrite make_real_Ok; [eauto | rewrite Hdt; auto using floating_not_complex |].
  rewrite (length_batched _ 1 16000 16000); [done | | by rewrite Hl, numel_pair].
  intros sg Hsg. unfold fade_envelope.
  rewrite !length_zip_with, !length_app, !length_replicate, !dsp_fade_curve_length. lia.
Qed.

(** C15: [test_Resample] passes on every floating test class: 16 kHz to
    8 kHz halves every signal. *)
Theorem test_Resample_passes (tc : test_ctx) (w : world G) :
  is_floating_dtype (tc_dtype tc) = true -> (test_Resample tc w).1 = Ok tt.
Proof.
  intros Hd. unfold test_Resample. eapply noise_test_passes; [reflexivity | done | done |].
  intros x xs g Hx Hl Hs Hdt Hdev. unfold forward.
  rewrite check_buffers_at by done. cbn [mbind result_bind tr_kind new_module].
  unfold resample_fwd. rewrite decide_False by (cbn; lia).
  unfold real_data. rewrite Hx. cbn [mbind result_bind].
  pose proof (split_last1_snoc [1] 16000) as Hsp. cbn [app] in Hsp.
  rewrite Hs, Hsp. cbn [mbind result_bind].
  rewrite make_real_Ok; [eauto | rewrite Hdt; auto using floating_not_complex |].
  erewrite (length_batched _ 1 16000);
    [| intros c Hc; rewrite dsp_resample_length, Hc; reflexivity | by rewrite Hl, numel_pair].
  by rewrite numel_app, !numel_one.
Qed.

(** C38: [test_TimeStretch] passes for both values of
    [test_pseudo_complex], on every floating test class whose complex
    dtype is the complex dtype of its real one, from every generator
    state: the draws are read as a complex [(10, 2, 400, 10)] tensor,
    whose [400] bins are the module's [n_freq]. *)
Theorem test_TimeStretch_passes (tc : test_ctx) (w : world G) (test_pseudo_complex : bool) :
  is_floating_dtype (tc_dtype tc) = true ->
  tc_complex_dtype tc = complex_of_dtype (tc_dtype tc) ->
  (test_TimeStretch tc test_pseudo_complex w).1 = Ok tt.
Proof.
  intros Hd Hcd. destruct (torch_rand_spec [10; 2; 400; 10; 2] w) as (xs & g' & Hr & Hl).
  unfold test_TimeStretch. rewrite (m_bind_Ok _ _ _ _ _ Hr), m_bind_lift.
  destruct (view_as_complex_shaped [10; 2; 400; 10] Float32 CPU
    (mk_tensor [10; 2; 400; 10; 2] Float32 CPU (SReal xs)) eq_refl) as (zs & -> & Hzl);
    [by exists xs|].
  set (x := mk_tensor _ _ _ (SCplx zs)).
  assert (Ht : TimeStretch_init (Some 512) 400 (Some (s_of_dec 13 (-1)))
               = Ok (new_module (TimeStretch {| ts_n_freq := 400; ts_hop_length := 512;
                                                ts_fixed_rate := Some (s_of_dec 13 (-1)) |})))
    by reflexivity.
  rewrite m_bind_lift, Ht. set (m := new_module _).
  assert (Hto : module_to (tc_device tc) (tc_dtype tc) m
                = Ok {| tr_kind := tr_kind m; tr_device := tc_device tc; tr_dtype := tc_dtype tc |})
    by (by apply module_to_floating).
  set (w' := mk_world _ _).
  assert (Hcx : is_complex x = true) by reflexivity.
  destruct (tensor_to_shape (tc_device tc) (tc_complex_dtype tc) x) as (Hsh & Hdt & Hdev).
  destruct (tensor_to_complex (tc_device tc) (tc_complex_dtype tc) x zs) as (zs' & Hx' & Hl');
    [rewrite Hcd; by apply complex_of_floating | done |].
  assert (Hno : (assert_consistency_complex tc m x false w').1 = Ok tt).
  { apply (assert_consistency_complex_passes tc m _ x w' eq_refl Hcx Hto).
    unfold forward, check_buffers; cbn [tr_kind tr_device tr_dtype has_buffers m new_module].
    rewrite Hdev, Hdt, (f_equal real_part_dtype Hcd), real_part_complex_of by done.
    rewrite !bool_decide_eq_true_2 by done. cbn [ensure mbind result_bind].
    match goal with |- context [stretch_fwd ?c ?x'] =>
      destruct (stretch_fwd_complex_ok c (s_of_dec 13 (-1)) [10; 2] 10 zs' x' eq_refl Hx')
        as [y ->] end; [by rewrite Hl', Hsh | rewrite Hdt, Hcd; by apply complex_of_floating
                 | by rewrite Hsh |].
    cbn. eauto. }
  destruct test_pseudo_complex; [|exact Hno].
  rewrite (assert_consistency_complex_pseudo tc m _ x w' eq_refl Hcx Hto); [exact Hno|].
  eapply forward_stretch_pseudo; [reflexivity | apply tensor_to_wf; by apply wf_tensor_iff |].
  unfold is_complex. rewrite Hdt, Hcd. by apply complex_of_floating.
Qed.

End TestLemmas.

(** With the kernels of [Instances], from an empty generator. *)
Lemma test_Spectrogram_passes_witness :
  is_floating_dtype (tc_dtype cpu_float32) = true
  /\ (test_Spectrogram cpu_float32 empty_world).1 = Ok tt.
Proof. witness_by test_Spectrogram_passes. Defined.

(** ** Witnesses: the CPU [float32] test class, an empty generator *)

Lemma test_TimeStretch_pseudo_agree_witness :
  is_floating_dtype (tc_dtype cpu_float32) = true
  /\ is_complex_dtype (tc_complex_dtype cpu_float32) = true
  /\ (test_TimeStretch cpu_float32 true empty_world).1
     = (test_TimeStretch cpu_float32 false empty_world).1.
Proof. witness_by test_TimeStretch_pseudo_agree. Defined.



Lemma test_SlidingWindowCmn_passes_witness :
  is_floating_dtype (tc_dtype cpu_float32) = true
  /\ (test_SlidingWindowCmn cpu_float32 empty_world).1 = Ok tt.
Proof. witness_by test_SlidingWindowCmn_passes. Defined.



Lemma test_PitchShift_passes_witness :
  is_floating_dtype (tc_dtype cpu_float32) = true
  /\ (test_PitchShift cpu_float32 empty_world).1 = Ok tt.
Proof. witness_by test_PitchShift_passes. Defined.

Lemma test_Fade_passes_witness :
  is_floating_dtype (tc_dtype cpu_float32) = true
  /\ (test_Fade cpu_float32 empty_world).1 = Ok tt.
Proof. witness_by test_Fade_passes. Defined.

Lemma test_Resample_passes_witness :
  is_floating_dtype (tc_dtype cpu_float32) = true
  /\ (test_Resample cpu_float32 empty_world).1 = Ok tt.
Proof. witness_by test_Resample_passes. Defined.


Lemma test_TimeStretch_passes_witness :
  is_floating_dtype (tc_dtype cpu_float32) = true
  /\ tc_complex_dtype cpu_float32 = complex_of_dtype (tc_dtype cpu_float32)
  /\ (test_TimeStretch (R := Z) cpu_float32 true empty_world).1 = Ok tt.
Proof. witness_by test_TimeStretch_passes. Defined.
