(* ===== verification/SpectralTests.v ===== *)
(** * The spectral test methods of [Transforms]

    The pass theorems of the test methods on the spectral transforms
    (src/test/torchaudio_unittest/transforms/torchscript_consistency_impl.py,
    lines 49-96 and 133-136): [test_Spectrogram_return_complex],
    [test_GriffinLim], [test_MelScale], [test_MelSpectrogram],
    [test_MFCC], [test_LFCC], [test_ComplexNorm],
    [test_SpectralCentroid], and the two [InverseSpectrogram] tests on
    the [get_spectrogram] fixture.  Each one chains the shape laws of
    [Shapes] on the tensor the harness hands to the moved module. *)

From stdpp Require Import base list gmap strings.
From S2P Require Import Prelude Tensor Catalog Kernels Instances Apply Shapes Serialize Harness Tests.

#[local] Set Warnings "-abstract-large-number".

Section SpectralDefs.
Context {R G : Type} `{Scalar R} `{!ScalarLaws R} `{Dsp R} `{Rng R G} `{Fixtures R}.

Definition test_Spectrogram_return_complex (tc : test_ctx) : M G unit :=
  let! tensor := torch_rand [1; 1000] in
  let! t := m_lift (Spectrogram_init 400 None None 0 Hann None false true) in
  assert_consistency tc t tensor.

Definition test_InverseSpectrogram (tc : test_ctx) : M G unit :=
  let tensor := get_whitenoise 8000 in
  let spectrogram := get_spectrogram tensor 400 100 in
  let! t := m_lift (InverseSpectrogram_init 400 None (Some 100) 0 Hann false) in
  assert_consistency_complex tc t spectrogram false.

Definition test_InverseSpectrogram_pseudocomplex (tc : test_ctx) : M G unit :=
  let tensor := get_whitenoise 8000 in
  let spectrogram := get_spectrogram tensor 400 100 in
  let! spectrogram := m_lift (view_as_real spectrogram) in
  let! t := m_lift (InverseSpectrogram_init 400 None (Some 100) 0 Hann false) in
  assert_consistency tc t spectrogram.

Definition test_GriffinLim (tc : test_ctx) : M G unit :=
  let! tensor := torch_rand [1; 201; 6] in
  let! t := m_lift (GriffinLim_init 400 32 None None Hann two (s_of_dec 99 (-2))
                      (Some 1000) false) in
  assert_consistency tc t tensor.

Definition test_MelScale (tc : test_ctx) : M G unit :=
  let! spec_f := torch_rand [1; 201; 6] in
  let! t := m_lift (MelScale_init 128 16000 s_zero None 201) in
  assert_consistency tc t spec_f.

Definition test_MelSpectrogram (tc : test_ctx) : M G unit :=
  let! tensor := torch_rand [1; 1000] in
  let! t := m_lift (MelSpectrogram_init 16000 400 None None s_zero None 0 128 Hann two false) in
  assert_consistency tc t tensor.

Definition test_MFCC (tc : test_ctx) : M G unit :=
  let! tensor := torch_rand [1; 1000] in
  let! t := m_lift (MFCC_init 16000 40 2 false) in
  assert_consistency tc t tensor.

Definition test_LFCC (tc : test_ctx) : M G unit :=
  let! tensor := torch_rand [1; 1000] in
  let! t := m_lift (LFCC_init 16000 128 s_zero None 40 2 false) in
  assert_consistency tc t tensor.

Definition test_ComplexNorm (tc : test_ctx) : M G unit :=
  let! tensor := torch_rand [1; 2; 201; 2] in
  let! t := m_lift (ComplexNorm_init s_one) in
  assert_consistency tc t tensor.

Definition test_SpectralCentroid (tc : test_ctx) : M G unit :=
  let sample_rate := 44100 in
  let waveform := get_whitenoise sample_rate in
  let! t := m_lift (SpectralCentroid_init sample_rate 400 None None 0 Hann) in
  assert_consistency tc t waveform.

(** The moved module as the harness calls it. *)
Definition moved (tc : test_ctx) (k : transform_kind R) : transform R :=
  {| tr_kind := k; tr_device := tc_device tc; tr_dtype := tc_dtype tc |}.
End SpectralDefs.

Section SpectralLemmas.
Context {R G : Type} `{Scalar R} `{!ScalarLaws R} `{Dsp R} `{!DspLaws R} `{Rng R G}
  `{Fixtures R} `{!FixtureLaws R}.

(** [rand_test_passes] on the [real_shaped] form of the moved input. *)
Lemma rand_shaped_passes (tc : test_ctx) (shape : list nat) (init : result (transform R))
    (m : transform R) (w : world G) :
  init = Ok m -> randomised (tr_kind m) = false -> is_floating_dtype (tc_dtype tc) = true ->
  (forall (x : tensor R) (g : G), real_shaped shape (tc_dtype tc) (tc_device tc) x ->
     exists y g', forward (moved tc (tr_kind m)) x g = Ok (y, g')) ->
  ((let! x := torch_rand shape in let! t := m_lift init in assert_consistency tc t x) w).1
  = Ok tt.
Proof.
  intros Hi Hr Hd Hf. eapply rand_test_passes; [done.. |].
  intros x xs g Hx Hl Hs Hdt Hdev. apply Hf. by apply (real_shaped_intro x xs).
Qed.

(** [noise_test_passes] on the [real_shaped] form of the moved input. *)
Lemma noise_shaped_passes (tc : test_ctx) (sr : nat) (init : result (transform R))
    (m : transform R) (w : world G) :
  init = Ok m -> randomised (tr_kind m) = false -> is_floating_dtype (tc_dtype tc) = true ->
  (forall (x : tensor R) (g : G), real_shaped [1; sr] (tc_dtype tc) (tc_device tc) x ->
     exists y g', forward (moved tc (tr_kind m)) x g = Ok (y, g')) ->
  ((let! t := m_lift init in assert_consistency tc t (get_whitenoise sr)) w).1 = Ok tt.
Proof.
  intros Hi Hr Hd Hf. eapply noise_test_passes; [done.. |].
  intros x xs g Hx Hl Hs Hdt Hdev. apply Hf. by apply (real_shaped_intro x xs).
Qed.

(** The moved module's buffers pass the checks on a tensor of the test's
    dtype and device. *)
Lemma check_moved (tc : test_ctx) (k : transform_kind R) (s : list nat) (x : tensor R) :
  is_floating_dtype (tc_dtype tc) = true -> real_shaped s (tc_dtype tc) (tc_device tc) x ->
  check_buffers (moved tc k) x = Ok tt.
Proof. intros Hd (xs & -> & _). by apply check_buffers_at. Qed.
End SpectralLemmas.

(** ** The pass theorems *)

Section SpectralPasses.
Context {R G : Type} `{Scalar R} `{!ScalarLaws R} `{Dsp R} `{!DspLaws R} `{Rng R G}
  `{Fixtures R} `{!FixtureLaws R}.

(** C26: [test_MelScale] passes on every floating test class from every
    generator state, for scalars in which the default [f_max] (half the
    sample rate) is not below [f_min = 0]. *)
Theorem test_MelScale_passes (tc : test_ctx) (w : world G) :
  is_floating_dtype (tc_dtype tc) = true -> s_ltb (half 16000) s_zero = false ->
  (test_MelScale tc w).1 = Ok tt.
Proof.
  intros Hd Hf. unfold test_MelScale. eapply rand_shaped_passes;
    [unfold MelScale_init, melscale_cfg_init; cbn beta iota zeta delta [default]; rewrite Hf; reflexivity | done | done |].
  intros x g Hx. unfold forward. rewrite (check_moved tc _ _ x Hd Hx).
  cbn [mbind result_bind tr_kind moved new_module compose].
  match goal with |- context [melscale_fwd ?c x] =>
    destruct (mat_stage_shaped (dsp_melscale c) (ms_n_stft c) (ms_n_mels c) [1] 6 _ _ x
      (floating_not_complex _ Hd) (fun xs => dsp_melscale_length c 6 xs) Hx) as (y & Hy & _) end.
  unfold melscale_fwd. rewrite Hy. eauto.
Qed.

(** C27: [test_ComplexNorm] passes on every floating test class from
    every generator state: the [(1, 2, 201, 2)] draws are read as a
    pseudo-complex [(1, 2, 201)] tensor. *)
Theorem test_ComplexNorm_passes (tc : test_ctx) (w : world G) :
  is_floating_dtype (tc_dtype tc) = true -> (test_ComplexNorm tc w).1 = Ok tt.
Proof.
  intros Hd. unfold test_ComplexNorm. eapply rand_shaped_passes; [reflexivity | done | done |].
  intros x g Hx. unfold forward. rewrite (check_moved tc _ _ x Hd Hx).
  cbn [mbind result_bind tr_kind moved new_module compose].
  destruct (complexnorm_pseudo_shaped s_one [1; 2; 201] _ _ x Hd Hx) as (y & -> & _). eauto.
Qed.

(** C28: [test_Spectrogram_return_complex] passes on every floating test
    class from every generator state: the complex spectrogram of the
    [(1, 1000)] draws has [201] bins and [4] frames. *)
Theorem test_Spectrogram_return_complex_passes (tc : test_ctx) (w : world G) :
  is_floating_dtype (tc_dtype tc) = true -> (test_Spectrogram_return_complex tc w).1 = Ok tt.
Proof.
  intros Hd. unfold test_Spectrogram_return_complex.
  eapply rand_shaped_passes; [apply Spectrogram_init_default | done | done |].
  intros x g Hx. unfold forward. rewrite (check_moved tc _ _ x Hd Hx).
  cbn [mbind result_bind tr_kind moved new_module compose].
  destruct Hx as (xs & -> & Hl).
  match goal with |- context [spectrogram_fwd ?c ?x] =>
    destruct (spectrogram_fwd_complex_shape c x xs [1] 1000 eq_refl Hl Hd eq_refl eq_refl
      eq_refl ltac:(cbn; lia)) as (zs & -> & _) end.
  eauto.
Qed.

(** C29: [test_MelSpectrogram] passes on every floating test class from
    every generator state: [128] mel bands over the [201] bins of each
    of the [4] frames. *)
Theorem test_MelSpectrogram_passes (tc : test_ctx) (w : world G) :
  is_floating_dtype (tc_dtype tc) = true -> s_ltb (half 16000) s_zero = false ->
  (test_MelSpectrogram tc w).1 = Ok tt.
Proof.
  intros Hd Hf. unfold test_MelSpectrogram. eapply rand_shaped_passes;
    [unfold MelSpectrogram_init, melspec_cfg_init, melscale_cfg_init;
     cbn beta iota zeta delta [default]; rewrite Hf; reflexivity | done | done |].
  intros x g Hx. unfold forward. rewrite (check_moved tc _ _ x Hd Hx).
  cbn [mbind result_bind tr_kind moved new_module compose].
  match goal with |- context [melspec_fwd ?c x] =>
    destruct (melspec_shaped c two [1] 1000 _ _ x (floating_not_complex _ Hd) eq_refl
      ltac:(cbn; lia) eq_refl Hx) as (y & -> & _) end.
  eauto.
Qed.

(** C30: [test_MFCC] passes on every floating test class from every
    generator state, for scalars in which the default [f_max] is not
    below [f_min = 0] and [top_db = 80] is not negative. *)
Theorem test_MFCC_passes (tc : test_ctx) (w : world G) :
  is_floating_dtype (tc_dtype tc) = true -> s_ltb (half 16000) s_zero = false ->
  s_ltb (s_of_dec 80 0) s_zero = false -> (test_MFCC tc w).1 = Ok tt.
Proof.
  intros Hd Hf Hdb. unfold test_MFCC. eapply rand_shaped_passes;
    [unfold MFCC_init, default_melspec, melspec_cfg_init, melscale_cfg_init, todb_cfg_init;
     cbn beta iota zeta delta [default]; rewrite Hf, Hdb; reflexivity | done | done |].
  intros x g Hx. unfold forward. rewrite (check_moved tc _ _ x Hd Hx).
  cbn [mbind result_bind tr_kind moved new_module compose].
  match goal with |- context [mfcc_fwd ?c x] =>
    destruct (mfcc_shaped c two [1] 1000 _ _ x (floating_not_complex _ Hd) eq_refl
      ltac:(cbn; lia) eq_refl Hx) as (y & -> & _) end.
  eauto.
Qed.

(** C31: [test_LFCC] passes on every floating test class from every
    generator state, under the same conditions on the scalars. *)
Theorem test_LFCC_passes (tc : test_ctx) (w : world G) :
  is_floating_dtype (tc_dtype tc) = true -> s_ltb (half 16000) s_zero = false ->
  s_ltb (s_of_dec 80 0) s_zero = false -> (test_LFCC tc w).1 = Ok tt.
Proof.
  intros Hd Hf Hdb. unfold test_LFCC. eapply rand_shaped_passes;
    [unfold LFCC_init, default_spectrogram, todb_cfg_init;
     cbn beta iota zeta delta [default]; rewrite Hf, Hdb; reflexivity | done | done |].
  intros x g Hx. unfold forward. rewrite (check_moved tc _ _ x Hd Hx).
  cbn [mbind result_bind tr_kind moved new_module compose].
  match goal with |- context [lfcc_fwd ?c x] =>
    destruct (lfcc_shaped c two [1] 1000 _ _ x (floating_not_complex _ Hd) eq_refl
      ltac:(cbn; lia) Hx) as (y & -> & _) end.
  eauto.
Qed.

(** C32: [test_SpectralCentroid] passes on every floating test class:
    the second of noise at 44.1 kHz gives one centroid per frame. *)
Theorem test_SpectralCentroid_passes (tc : test_ctx) (w : world G) :
  is_floating_dtype (tc_dtype tc) = true -> (test_SpectralCentroid tc w).1 = Ok tt.
Proof.
  intros Hd. unfold test_SpectralCentroid. eapply noise_shaped_passes; [reflexivity | done | done |].
  intros x g Hx. unfold forward. rewrite (check_moved tc _ _ x Hd Hx).
  cbn [mbind result_bind tr_kind moved new_module compose].
  match goal with |- context [centroid_fwd ?c x] =>
    destruct (centroid_shaped c [1] 44100 _ _ x (floating_not_complex _ Hd)
      ltac:(apply Nat.leb_le; vm_compute; reflexivity) Hx) as (y & -> & _) end.
  eauto.
Qed.

(** C33: [test_GriffinLim] (with [rand_init=False]) passes on every
    floating test class from every generator state, for scalars in which
    the momentum [0.99] lies in [[0, 1)]: the module does not draw, and
    each [(201, 6)] spectrogram gives [length = 1000] samples. *)
Theorem test_GriffinLim_passes (tc : test_ctx) (w : world G) :
  is_floating_dtype (tc_dtype tc) = true ->
  s_ltb (s_of_dec 99 (-2)) s_one = true -> s_ltb (s_of_dec 99 (-2)) s_zero = false ->
  (test_GriffinLim tc w).1 = Ok tt.
Proof.
  intros Hd Hm1 Hm0. unfold test_GriffinLim. eapply rand_shaped_passes;
    [unfold GriffinLim_init; rewrite Hm1, Hm0; reflexivity | done | done |].
  intros x g Hx. unfold forward. rewrite (check_moved tc _ _ x Hd Hx).
  cbn [mbind result_bind tr_kind moved new_module compose].
  match goal with |- context [griffinlim_fwd ?c x g] =>
    destruct (griffinlim_shaped c [1] 6 _ _ x g eq_refl (floating_not_complex _ Hd)
      ltac:(lia) Hx) as (y & -> & _) end.
  eauto.
Qed.

(** C34: [test_InverseSpectrogram] passes on every floating test class
    whose complex dtype is the complex dtype of its real one, from every
    generator state: the spectrogram of the noise fixture has [201] bins
    and at least one frame. *)
Theorem test_InverseSpectrogram_passes (tc : test_ctx) (w : world G) :
  is_floating_dtype (tc_dtype tc) = true ->
  tc_complex_dtype tc = complex_of_dtype (tc_dtype tc) ->
  (test_InverseSpectrogram tc w).1 = Ok tt.
Proof.
  intros Hd Hcd. unfold test_InverseSpectrogram.
  destruct (get_spectrogram_shape 8000 400 100) as (t & zs & Hs & Hl & Ht).
  cbv zeta. rewrite Hs, m_bind_lift. cbn [InverseSpectrogram_init framing mbind result_bind].
  eapply (assert_consistency_complex_passes tc); [done | done | by apply module_to_floating |].
  set (x := mk_tensor _ _ _ _). rewrite Hcd.
  set (d := complex_of_dtype (tc_dtype tc)).
  assert (Hdc : is_complex_dtype d = true) by (by apply complex_of_floating).
  destruct (tensor_to_shape (tc_device tc) d x) as (Hsh & Hdt & Hdev).
  destruct (tensor_to_complex (tc_device tc) d x zs Hdc eq_refl) as (zs' & Hx' & Hl').
  unfold forward, check_buffers; cbn [tr_kind tr_device tr_dtype has_buffers new_module].
  rewrite Hdev, Hdt, (real_part_complex_of _ Hd : real_part_dtype d = tc_dtype tc).
  rewrite !bool_decide_eq_true_2 by done. cbn [ensure mbind result_bind].
  match goal with |- context [istft_fwd ?c ?x'] =>
    destruct (istft_fwd_shape c x' zs' [1] t) as [ys ->] end;
    [done | rewrite Hl', Hsh, Hl; cbn; lia | by rewrite Hdt | by rewrite Hsh | done |].
  cbn. eauto.
Qed.

(** C35: [test_InverseSpectrogram_pseudocomplex] passes on every
    floating test class from every generator state: the pseudo-complex
    view of the spectrogram is read back as complex by the module. *)
Theorem test_InverseSpectrogram_pseudocomplex_passes (tc : test_ctx) (w : world G) :
  is_floating_dtype (tc_dtype tc) = true ->
  (test_InverseSpectrogram_pseudocomplex tc w).1 = Ok tt.
Proof.
  intros Hd. unfold test_InverseSpectrogram_pseudocomplex.
  destruct (get_spectrogram_shape 8000 400 100) as (t & zs & Hs & Hl & Ht).
  cbv zeta. rewrite Hs, m_bind_lift. cbn [view_as_real t_data t_shape t_dtype t_device].
  rewrite m_bind_lift. cbn [InverseSpectrogram_init framing mbind result_bind].
  apply (real_input_passes tc _ _ (unpair zs)); [done | | done | done |].
  { cbn [t_shape]. rewrite length_unpair, numel_snoc, Hl. cbn. lia. }
  intros x xs g Hx Hlx Hsx Hdt Hdev. unfold forward. rewrite check_buffers_at by done.
  cbn [mbind result_bind tr_kind new_module].
  match goal with |- context [istft_fwd ?c x] =>
    destruct (istft_pseudo_shaped c [1] t (tc_dtype tc) (tc_device tc) x Hd Ht) as (y & ->) end.
  - by apply (real_shaped_intro x xs).
  - eauto.
Qed.
End SpectralPasses.

(** ** Witnesses: the CPU [float32] test class, the kernels of [Instances] *)

Lemma test_MelScale_passes_witness :
  is_floating_dtype (tc_dtype cpu_float32) = true /\ s_ltb (half 16000 : Z) s_zero = false
  /\ (test_MelScale cpu_float32 empty_world).1 = Ok tt.
Proof. witness_by test_MelScale_passes. Defined.

Lemma test_ComplexNorm_passes_witness :
  is_floating_dtype (tc_dtype cpu_float32) = true
  /\ (test_ComplexNorm (R := Z) cpu_float32 empty_world).1 = Ok tt.
Proof. witness_by test_ComplexNorm_passes. Defined.

Lemma test_Spectrogram_return_complex_passes_witness :
  is_floating_dtype (tc_dtype cpu_float32) = true
  /\ (test_Spectrogram_return_complex (R := Z) cpu_float32 empty_world).1 = Ok tt.
Proof. witness_by test_Spectrogram_return_complex_passes. Defined.

Lemma test_MelSpectrogram_passes_witness :
  is_floating_dtype (tc_dtype cpu_float32) = true /\ s_ltb (half 16000 : Z) s_zero = false
  /\ (test_MelSpectrogram cpu_float32 empty_world).1 = Ok tt.
Proof. witness_by test_MelSpectrogram_passes. Defined.

Lemma test_MFCC_passes_witness :
  is_floating_dtype (tc_dtype cpu_float32) = true /\ s_ltb (half 16000 : Z) s_zero = false
  /\ s_ltb (s_of_dec 80 0 : Z) s_zero = false
  /\ (test_MFCC cpu_float32 empty_world).1 = Ok tt.
Proof. witness_by test_MFCC_passes. Defined.

Lemma test_LFCC_passes_witness :
  is_floating_dtype (tc_dtype cpu_float32) = true /\ s_ltb (half 16000 : Z) s_zero = false
  /\ s_ltb (s_of_dec 80 0 : Z) s_zero = false
  /\ (test_LFCC cpu_float32 empty_world).1 = Ok tt.
Proof. witness_by test_LFCC_passes. Defined.

Lemma test_SpectralCentroid_passes_witness :
  is_floating_dtype (tc_dtype cpu_float32) = true
  /\ (test_SpectralCentroid (R := Z) cpu_float32 empty_world).1 = Ok tt.
Proof. witness_by test_SpectralCentroid_passes. Defined.

Lemma test_GriffinLim_passes_witness :
  is_floating_dtype (tc_dtype cpu_float32) = true
  /\ s_ltb (s_of_dec 99 (-2) : Z) s_one = true /\ s_ltb (s_of_dec 99 (-2) : Z) s_zero = false
  /\ (test_GriffinLim cpu_float32 empty_world).1 = Ok tt.
Proof. witness_by test_GriffinLim_passes. Defined.

Lemma test_InverseSpectrogram_passes_witness :
  is_floating_dtype (tc_dtype cpu_float32) = true
  /\ tc_complex_dtype cpu_float32 = complex_of_dtype (tc_dtype cpu_float32)
  /\ (test_InverseSpectrogram (R := Z) cpu_float32 empty_world).1 = Ok tt.
Proof. witness_by test_InverseSpectrogram_passes. Defined.

Lemma test_InverseSpectrogram_pseudocomplex_passes_witness :
  is_floating_dtype (tc_dtype cpu_float32) = true
  /\ (test_InverseSpectrogram_pseudocomplex (R := Z) cpu_float32 empty_world).1 = Ok tt.
Proof. witness_by test_InverseSpectrogram_pseudocomplex_passes. Defined.
