(* ===== verification/MaskingTests.v ===== *)
(** * The masking tests of [Transforms]

    [test_FrequencyMasking] and [test_TimeMasking]
    (src/test/torchaudio_unittest/transforms/torchscript_consistency_impl.py,
    lines 112-118) run the harness on a module that draws its band from
    the global generator at every call.  Their verdict is evaluated on
    the fixed-point scalars of [Tensor] and the replayed generator of
    [Instances], whose draws are thousandths: a draw of [torch.rand] in
    [[0, 1)] is an integer in [[0, 1000)].  On them the band arithmetic
    of [mask_along_axis] ([Apply.band_of]) is integer arithmetic with
    truncating division, and its bounds say when the masking can fail. *)

From stdpp Require Import base list gmap strings.
From S2P Require Import Prelude Tensor Catalog Kernels Instances Apply Serialize Harness Tests.

#[local] Set Warnings "-abstract-large-number".

Section MaskingDefs.
Context {R G : Type} `{Scalar R} `{!ScalarLaws R} `{Dsp R} `{Rng R G} `{Fixtures R}.

Definition test_FrequencyMasking (tc : test_ctx) : M G unit :=
  let! tensor := torch_rand [10; 2; 50; 10; 2] in
  let! t := m_lift (FrequencyMasking_init 60 false) in
  assert_consistency tc t tensor.

Definition test_TimeMasking (tc : test_ctx) : M G unit :=
  let! tensor := torch_rand [10; 2; 50; 10; 2] in
  let! t := m_lift (TimeMasking_init 30 false) in
  assert_consistency tc t tensor.
End MaskingDefs.

(** A draw of the replayed generator: [torch.rand] in [[0, 1)], in
    thousandths. *)
Definition unit_draw (u : Z) : Prop := (0 <= u < 1000)%Z.

(** What the verdict of a masking test is when both of its calls
    return: the input of [shape] drawn first, then the two maskings of
    the moved input, the second drawing after the first, and the
    comparison of their outputs. *)
Definition masking_verdict (tc : test_ctx) (shape : list nat) (c : masking_cfg) (axis : nat)
    (w : world (list Z)) (verdict : result unit) : Prop :=
  let '(xs, g1) := rng_rands (numel shape) (w_rng w) in
  let x := tensor_to (tc_device tc) (tc_dtype tc) (mk_tensor shape Float32 CPU (SReal xs)) in
  exists y1 g2 y2 g3, masking_fwd c axis x g1 = Ok (y1, g2)
    /\ masking_fwd c axis x g2 = Ok (y2, g3)
    /\ verdict = ensure (tensor_close y2 y1) AssertionError.


(** ** The seed dependence *)

(** C4: [test_TimeMasking] depends on the state of the global generator:
    the two calls it compares draw two bands, so from one state the test
    passes and from another it raises [AssertionError]. *)
Theorem test_TimeMasking_seed_dependent :
  (exists w : world (list Z), (test_TimeMasking cpu_float32 w).1 = Ok tt)
  /\ (exists w : world (list Z), (test_TimeMasking cpu_float32 w).1 = Err AssertionError).
Proof.
  split.
  - exists (mk_world ∅ (replicate 20000 500%Z ++ [900; 0; 900; 0]%Z)).
    vm_compute. reflexivity.
  - exists (mk_world ∅ (replicate 20000 500%Z ++ [10; 0; 50; 0]%Z)).
    vm_compute. reflexivity.
Qed.

(** C5: [test_FrequencyMasking] depends on the state of the global generator in
    the same way: from one state it passes, from another its two draws mask
    different bands and it raises [AssertionError]. *)
Theorem test_FrequencyMasking_seed_dependent :
  (exists w : world (list Z), (test_FrequencyMasking cpu_float32 w).1 = Ok tt)
  /\ (exists w : world (list Z), (test_FrequencyMasking cpu_float32 w).1 = Err AssertionError).
Proof.
  split.
  - exists (mk_world ∅ (replicate 20000 500%Z ++ [900; 0; 900; 0]%Z)).
    vm_compute. reflexivity.
  - exists (mk_world ∅ (replicate 20000 500%Z ++ [10; 0; 50; 0]%Z)).
    vm_compute. reflexivity.
Qed.

(** ** The band arithmetic on the fixed-point scalars *)


Lemma rng_rand_unit (g : list Z) :
  Forall unit_draw g -> unit_draw (rng_rand g).1 /\ Forall unit_draw (rng_rand g).2.
Proof.
  intros Hg. destruct g as [|u g]; cbn.
  - split; [unfold unit_draw; lia | constructor].
  - by apply Forall_cons in Hg.
Qed.

Lemma rng_rands_unit (n : nat) (g : list Z) :
  Forall unit_draw g -> Forall unit_draw (rng_rands n g).2.
Proof.
  revert g; induction n as [|n IH]; intros g Hg; cbn [rng_rands]; [done|].
  destruct (rng_rand_unit g Hg) as [_ Hg1].
  destruct (rng_rand g) as [u g1]; cbn in *.
  specialize (IH g1 Hg1). by destruct (rng_rands n g1).
Qed.

(** The width of a band, [trunc (u1 * mask_param)], stays below a positive
    [mask_param]: the assertion [mask_end - mask_start < mask_param] of
    [mask_along_axis] never fires on a draw in [[0, 1)]. *)
Lemma band_of_width (param size : nat) (u1 u2 : Z) :
  unit_draw u1 -> 0 < param ->
  (0 <= (band_of param size u1 u2).2 - (band_of param size u1 u2).1 < Z.of_nat param)%Z.
Proof.
  intros Hu Hp. unfold unit_draw, band_of in *; cbn [s_mul s_of_nat s_trunc s_sub milli_scalar].
  replace (u1 * (Z.of_nat param * 1000))%Z with ((u1 * Z.of_nat param) * 1000)%Z by lia.
  cbn [fst snd]. rewrite Z.quot_mul by lia.
  rewrite (Z.quot_div_nonneg (u1 * Z.of_nat param) 1000) by lia.
  match goal with |- context [(?a + ?q - ?a)%Z] => replace (a + q - a)%Z with q by lia end.
  split; [apply Z.div_pos; nia | apply Z.div_lt_upper_bound; nia].
Qed.

Section MaskLength.
Context {A : Type}.

Lemma length_concat_imap (h : nat -> list A -> list A) (rows : list (list A)) :
  (forall i r, length (h i r) = length r) ->
  length (concat (imap h rows)) = length (concat rows).
Proof.
  revert h; induction rows as [|r rows IH]; intros h Hh; [done|].
  cbn [imap concat]. rewrite !length_app, Hh, IH; [done|]. intros; apply Hh.
Qed.
End MaskLength.

(** Masking keeps every matrix of [f] by [t] values at its size. *)
Lemma length_mask_block {R : Type} (axis f t : nat) (band : Z * Z) (fill : R) (blk : list R) :
  length blk = f * t -> length (mask_block axis f t band fill blk) = f * t.
Proof.
  intros Hl. unfold mask_block. rewrite length_concat_imap, concat_chunks; [done..|].
  intros i r. case_decide; [destruct (in_band band i); [apply length_replicate | done]|].
  apply length_imap.
Qed.

(** With [iid_masks=False] and a positive [mask_param], the masking of a
    real [pre ++ [f; t]] tensor succeeds from every generator whose draws
    lie in [[0, 1)], and leaves such a generator. *)
Lemma masking_fwd_unit (c : masking_cfg) (axis : nat) (x : tensor Z) (xs : list Z)
    (pre : list nat) (f t : nat) (g : list Z) :
  mk_iid_masks c = false -> 0 < mk_mask_param c -> Forall unit_draw g ->
  t_data x = SReal xs -> length xs = numel (t_shape x) -> is_complex_dtype (t_dtype x) = false ->
  t_shape x = pre ++ [f; t] ->
  exists y g', masking_fwd c axis x g = Ok (y, g') /\ Forall unit_draw g'.
Proof.
  intros Hiid Hp Hg Hx Hl Hd Hs. unfold masking_fwd, real_data. rewrite Hx.
  cbn [mbind result_bind]. rewrite Hs, split_last2_snoc. cbn [mbind result_bind].
  rewrite Hiid, andb_false_l.
  destruct (rng_rand_unit g Hg) as [Hu1 Hg1]. destruct (rng_rand g) as [u1 g1]; cbn in Hu1, Hg1.
  destruct (rng_rand_unit g1 Hg1) as [_ Hg2]. destruct (rng_rand g1) as [u2 g2]; cbn in Hg2.
  rewrite bool_decide_eq_true_2 by (apply band_of_width; [done | lia]).
  cbn [ensure mbind result_bind]. rewrite <- Hs.
  rewrite make_real_Ok; [eauto | done |].
  rewrite (length_batched _ _ (f * t) (f * t)); [| intros; by apply length_mask_block |].
  - rewrite Hs, numel_app, numel_pair. lia.
  - rewrite Hl, Hs, numel_app, numel_pair. lia.
Qed.

(** In [test_TimeMasking] the time axis has 2 frames and
    [time_mask_param] is 30: a band of width 15 starts at
    [trunc (0.5 * (2 - 15)) = -6], before the axis, and covers all of it. *)
Example time_band_before_axis : band_of (R := Z) 30 2 500%Z 500%Z = ((-6)%Z, 9%Z).
Proof. reflexivity. Qed.

(** A masking test with [iid_masks=False] and a positive [mask_param]:
    from a generator whose draws lie in [[0, 1)], both calls return. *)
Lemma masking_test_verdict (tc : test_ctx) (w : world (list Z)) (pre : list nat) (f t : nat)
    (init : result (transform Z)) (m : transform Z) (c : masking_cfg) (axis : nat) :
  init = Ok m -> is_floating_dtype (tc_dtype tc) = true ->
  mk_iid_masks c = false -> 0 < mk_mask_param c ->
  (forall x g, forward {| tr_kind := tr_kind m; tr_device := tc_device tc;
                          tr_dtype := tc_dtype tc |} x g = masking_fwd c axis x g) ->
  Forall unit_draw (w_rng w) ->
  masking_verdict tc (pre ++ [f; t]) c axis w
    ((let! x := torch_rand (pre ++ [f; t]) in let! t := m_lift init in
      assert_consistency tc t x) w).1.
Proof.
  intros Hi Hd Hiid Hp Hfw Hw. unfold masking_verdict, torch_rand, m_bind at 1.
  pose proof (rng_rands_unit (numel (pre ++ [f; t])) _ Hw) as Hg.
  pose proof (length_rng_rands (numel (pre ++ [f; t])) (w_rng w)) as Hl.
  destruct (rng_rands _ _) as [xs g1]; cbn [fst snd] in Hg, Hl; cbv beta iota zeta.
  rewrite m_bind_lift, Hi. set (x := mk_tensor _ _ _ _).
  destruct (tensor_to_real (tc_device tc) (tc_dtype tc) x xs Hd eq_refl) as (xs' & Hx' & Hl').
  destruct (tensor_to_shape (tc_device tc) (tc_dtype tc) x) as (Hs & Hdt & _).
  assert (Hc : is_complex_dtype (t_dtype (tensor_to (tc_device tc) (tc_dtype tc) x)) = false)
    by (rewrite Hdt; by apply floating_not_complex).
  assert (Hlx : length xs' = numel (t_shape (tensor_to (tc_device tc) (tc_dtype tc) x)))
    by (by rewrite Hl', Hs).
  destruct (masking_fwd_unit c axis _ xs' pre f t g1 Hiid Hp Hg Hx' Hlx Hc Hs)
    as (y1 & g2 & E1 & Hg2).
  destruct (masking_fwd_unit c axis _ xs' pre f t g2 Hiid Hp Hg2 Hx' Hlx Hc Hs)
    as (y2 & g3 & E2 & _).
  exists y1, g2, y2, g3. split_and!; [done | done |].
  apply (assert_consistency_outcome tc m {| tr_kind := tr_kind m; tr_device := tc_device tc;
    tr_dtype := tc_dtype tc |} x _ y1 y2 g2 g3);
    [by apply module_to_floating | rewrite Hfw; exact E1 | rewrite Hfw; exact E2].
Qed.

(** ** The verdict of the masking tests *)

(** C39: From every generator whose draws lie in [[0, 1)], the two
    masking tests fail only by their comparison: the mask width
    [trunc (u1 * mask_param)] stays below [mask_param] (60 and 30), so
    the assertion of [mask_along_axis] never fires; both calls mask the
    moved input, the second drawing its band after the first, and the
    verdict of each test is [assertEqual] of the two outputs. *)
Theorem masking_tests_verdict (tc : test_ctx) (w : world (list Z)) :
  is_floating_dtype (tc_dtype tc) = true -> Forall unit_draw (w_rng w) ->
  masking_verdict tc [10; 2; 50; 10; 2] {| mk_mask_param := 60; mk_iid_masks := false |} 1 w
    (test_FrequencyMasking tc w).1
  /\ masking_verdict tc [10; 2; 50; 10; 2] {| mk_mask_param := 30; mk_iid_masks := false |} 2 w
    (test_TimeMasking tc w).1.
Proof.
  intros Hd Hw. split.
  - eapply (masking_test_verdict tc w [10; 2; 50] 10 2 _ _
      {| mk_mask_param := 60; mk_iid_masks := false |} 1);
      [reflexivity | done | done | cbn; lia | intros; reflexivity | done].
  - eapply (masking_test_verdict tc w [10; 2; 50] 10 2 _ _
      {| mk_mask_param := 30; mk_iid_masks := false |} 2);
      [reflexivity | done | done | cbn; lia | intros; reflexivity | done].
Qed.

Lemma masking_tests_verdict_witness :
  is_floating_dtype (tc_dtype cpu_float32) = true /\ Forall unit_draw (w_rng empty_world)
  /\ (masking_verdict cpu_float32 [10; 2; 50; 10; 2]
        {| mk_mask_param := 60; mk_iid_masks := false |} 1 empty_world
        (test_FrequencyMasking cpu_float32 empty_world).1
      /\ masking_verdict cpu_float32 [10; 2; 50; 10; 2]
        {| mk_mask_param := 30; mk_iid_masks := false |} 2 empty_world
        (test_TimeMasking cpu_float32 empty_world).1).
Proof.
  assert (Hd : is_floating_dtype (tc_dtype cpu_float32) = true) by reflexivity.
  assert (Hw : Forall unit_draw (w_rng empty_world)) by constructor.
  split; [exact Hd | split; [exact Hw | exact (masking_tests_verdict cpu_float32 empty_world Hd Hw)]].
Defined.
