(* ===== verification/Suite.v ===== *)
(** * The test class as a whole

    [transforms_suite] is the class [Transforms] as the test runner sees
    it: its test methods in source order, with the two cases
    [parameterized.expand] makes of [test_TimeStretch].  Every method
    runs in the world of [Harness]: the files of the temporary directory
    and the global generator.  [files_indep] says that a step's result
    and the generator it leaves do not depend on the files it starts
    from; the lemmas below close it under the monad's bind, and the
    [indep] hint database proves it of every test method. *)

From stdpp Require Import base list gmap strings.
From S2P Require Import Prelude Tensor Catalog Kernels Instances Apply Serialize Harness Tests SpectralTests MaskingTests.

Section SuiteDefs.
Context {R G : Type} `{Scalar R} `{!ScalarLaws R} `{Dsp R} `{Rng R G} `{Fixtures R}.

(** The methods of [Transforms], lines 45-157, in order. *)
Definition transforms_suite : list (test_ctx -> M G unit) :=
  [test_Spectrogram; test_Spectrogram_return_complex; test_InverseSpectrogram;
   test_InverseSpectrogram_pseudocomplex; test_GriffinLim; test_AmplitudeToDB;
   test_MelScale; test_MelSpectrogram; test_MFCC; test_LFCC; test_Resample;
   test_ComplexNorm; test_MuLawEncoding; test_MuLawDecoding; test_Fade;
   test_FrequencyMasking; test_TimeMasking; test_Vol; test_SlidingWindowCmn; test_Vad;
   test_SpectralCentroid; (fun tc => test_TimeStretch tc true);
   (fun tc => test_TimeStretch tc false); test_PitchShift].

(** A step whose result, and the generator it leaves, do not depend on
    the files of the world it starts from. *)
Definition files_indep {A} (c : M G A) : Prop :=
  forall fs fs' g, (c (mk_world fs g)).1 = (c (mk_world fs' g)).1
    /\ w_rng (c (mk_world fs g)).2 = w_rng (c (mk_world fs' g)).2.
End SuiteDefs.

Create HintDb indep discriminated.

Section Indep.
Context {R G : Type} `{Scalar R} `{!ScalarLaws R} `{Dsp R} `{Rng R G} `{Fixtures R}.

Lemma world_eta (w : world G) : w = mk_world (w_files w) (w_rng w).
Proof. by destruct w. Qed.

Lemma indep_lift {A} (r : result A) : files_indep (G := G) (m_lift r).
Proof. done. Qed.

Lemma indep_ret {A} (a : A) : files_indep (G := G) (m_ret a).
Proof. done. Qed.

Lemma indep_bind {A B} (m : M G A) (k : A -> M G B) :
  files_indep m -> (forall a, files_indep (k a)) -> files_indep (m_bind m k).
Proof.
  intros Hm Hk fs fs' g. destruct (Hm fs fs' g) as [Hr Hg]. unfold m_bind.
  destruct (m (mk_world fs g)) as [r1 w1], (m (mk_world fs' g)) as [r2 w2]; cbn in *.
  subst r2. destruct r1 as [a|e]; [|done].
  rewrite (world_eta w1), (world_eta w2), Hg. apply Hk.
Qed.

Lemma indep_torch_rand (shape : list nat) : files_indep (G := G) (torch_rand (R := R) shape).
Proof. intros fs fs' g. unfold torch_rand; cbn. by destruct (rng_rands _ _). Qed.

Lemma indep_call (m : transform R) (x : tensor R) : files_indep (G := G) (call m x).
Proof. intros fs fs' g. unfold call; cbn. by destruct (forward m x g) as [[y g']|e]. Qed.

Lemma indep_assert_equal (a b : tensor R) : files_indep (G := G) (assert_equal a b).
Proof. apply indep_lift. Qed.

(** Saving then loading reads back the archive just written, whatever
    the path held. *)
Lemma indep_save_load {A} (m : transform R) (path : string) (k : transform R -> M G A) :
  (forall m', files_indep (k m')) ->
  files_indep (m_bind (jit_save m path) (fun _ => m_bind (jit_load path) k)).
Proof. intros Hk fs fs' g. rewrite !save_then_load; cbn [w_files w_rng]. apply Hk. Qed.
End Indep.

#[export] Hint Resolve indep_lift indep_ret indep_bind indep_torch_rand indep_call
  indep_assert_equal indep_save_load : indep.

(** [solve_indep] runs the [indep] hints through the binds of a test
    method. *)
Ltac solve_indep := eauto 20 with indep.

Section Helpers.
Context {R G : Type} `{Scalar R} `{!ScalarLaws R} `{Dsp R} `{Rng R G} `{Fixtures R}.

Lemma indep_assert_consistency (tc : test_ctx) (m : transform R) (x : tensor R) :
  files_indep (G := G) (assert_consistency tc m x).
Proof. unfold assert_consistency. cbv zeta. solve_indep. Qed.

Lemma indep_assert_consistency_complex (tc : test_ctx) (m : transform R) (x : tensor R)
    (pseudo : bool) :
  files_indep (G := G) (assert_consistency_complex tc m x pseudo).
Proof. unfold assert_consistency_complex. cbv zeta. destruct pseudo; cbv beta iota; solve_indep. Qed.
End Helpers.

#[export] Hint Resolve indep_assert_consistency indep_assert_consistency_complex : indep.

(** ** Order independence *)

Section SuiteIndep.
Context {R G : Type} `{Scalar R} `{!ScalarLaws R} `{Dsp R} `{Rng R G} `{Fixtures R}.

(** C40: No test method of [Transforms] depends on the files the
    temporary directory holds when it starts: its verdict and the
    generator it leaves are the same whatever earlier tests saved there,
    because each method writes its archive before it loads one.  Run in
    any order, the methods interact through the global generator only. *)
Theorem suite_files_indep (tc : test_ctx) :
  Forall (fun test => files_indep (test tc)) (transforms_suite (R := R) (G := G)).
Proof.
  unfold transforms_suite. repeat apply List.Forall_cons; try apply List.Forall_nil; cbv beta;
    unfold test_Spectrogram, test_Spectrogram_return_complex, test_InverseSpectrogram,
      test_InverseSpectrogram_pseudocomplex, test_GriffinLim, test_AmplitudeToDB,
      test_MelScale, test_MelSpectrogram, test_MFCC, test_LFCC, test_Resample,
      test_ComplexNorm, test_MuLawEncoding, test_MuLawDecoding, test_Fade,
      test_FrequencyMasking, test_TimeMasking, test_Vol, test_SlidingWindowCmn, test_Vad,
      test_SpectralCentroid, test_TimeStretch, test_PitchShift; cbv zeta;
    repeat match goal with |- context [match ?p with pair _ _ => _ end] => destruct p end;
    solve_indep.
Qed.
End SuiteIndep.

Lemma suite_files_indep_witness :
  Forall (fun test => files_indep (test cpu_float32))
    (transforms_suite (R := Z) (G := list Z)).
Proof. exact (suite_files_indep cpu_float32). Defined.
